(** * dcm-bag-validator: payload structure, file integrity and file format
      validators, embedded from the Python sources

    The development follows the modules of [dcm_bag_validator]:
    - [Re]: the fragment of Python's [re] used by the profiles
      ([re.match], [re.fullmatch]);
    - [PurePath]: [pathlib.Path(...).as_posix()] on a POSIX host;
    - [Logging]: the [Logger] of dcm_common;
    - [PayloadStructure], [FileIntegrity], [FileFormat],
      [PayloadIntegrity], [BagitProfile]: the validators.

    Strings are byte strings: [\d] and [.] are the ASCII versions of the
    Python operations. The capitalization check of the payload structure
    validator takes [str.lower] as a parameter; [Str.lower] is its
    restriction to ASCII strings. *)

From Stdlib Require Import Ascii String ZArith Bool Lia.
From stdpp Require Import gmap strings list.

Open Scope string_scope.
Open Scope list_scope.

(** ** Exceptions and results *)

(** The exception classes of [errors.py] and the builtin ones the
    validators raise. *)
Inductive exn :=
| ValidationError (msg : string)
| SerializationValidationError (msg : string)
| ProfileValidationError (msg : string)
| PayloadStructureValidationError (msg : string)
| PayloadIntegrityValidationError (msg : string)
| FileFormatValidationError (msg : string)
| ValueError (msg : string)
| IndexError
| UnboundLocalError
| FileNotFoundError
| BagError (msg : string)
| ReError (pattern : string).

(** [is_validation_error e]: [isinstance(e, errors.ValidationError)]. *)
Definition is_validation_error (e : exn) : bool :=
  match e with
  | ValidationError _ | SerializationValidationError _
  | ProfileValidationError _ | PayloadStructureValidationError _
  | PayloadIntegrityValidationError _ | FileFormatValidationError _ => true
  | _ => false
  end.

Inductive result (A : Type) :=
| Ok (a : A)
| Raise (e : exn).
Arguments Ok {A} a.
Arguments Raise {A} e.

Definition bind {A B} (m : result A) (k : A -> result B) : result B :=
  match m with
  | Ok a => k a
  | Raise e => Raise e
  end.

Notation "'let*' x ':=' m 'in' k" := (bind m (fun x => k))
  (at level 10, x pattern, m at level 100, k at level 200).

(** ** Python's [re], the fragment the profiles use *)

Module Re.

Inductive regex :=
| Void
| Eps
| Chr (c : ascii)
| AnyChar
| Digit
| Cat (r s : regex)
| Alt (r s : regex)
| Star (r : regex).

Definition newline : ascii := "010"%char.

Definition is_digit (c : ascii) : bool :=
  (48 <=? nat_of_ascii c)%nat && (nat_of_ascii c <=? 57)%nat.

Definition is_alpha (c : ascii) : bool :=
  ((65 <=? nat_of_ascii c)%nat && (nat_of_ascii c <=? 90)%nat)
  || ((97 <=? nat_of_ascii c)%nat && (nat_of_ascii c <=? 122)%nat).

(** The strings a pattern denotes. [.] excludes the newline, as without
    [re.DOTALL]. *)
Inductive lang : regex -> list ascii -> Prop :=
| lang_eps : lang Eps []
| lang_chr c : lang (Chr c) [c]
| lang_any c : c <> newline -> lang AnyChar [c]
| lang_digit c : is_digit c = true -> lang Digit [c]
| lang_cat r s u v : lang r u -> lang s v -> lang (Cat r s) (u ++ v)
| lang_alt_l r s u : lang r u -> lang (Alt r s) u
| lang_alt_r r s u : lang s u -> lang (Alt r s) u
| lang_star_nil r : lang (Star r) []
| lang_star_app r u v : lang r u -> lang (Star r) v -> lang (Star r) (u ++ v).

Fixpoint nullable (r : regex) : bool :=
  match r with
  | Void | Chr _ | AnyChar | Digit => false
  | Eps | Star _ => true
  | Cat r s => nullable r && nullable s
  | Alt r s => nullable r || nullable s
  end.

Fixpoint deriv (c : ascii) (r : regex) : regex :=
  match r with
  | Void | Eps => Void
  | Chr d => if Ascii.eqb c d then Eps else Void
  | AnyChar => if Ascii.eqb c newline then Void else Eps
  | Digit => if is_digit c then Eps else Void
  | Cat r s =>
      if nullable r then Alt (Cat (deriv c r) s) (deriv c s)
      else Cat (deriv c r) s
  | Alt r s => Alt (deriv c r) (deriv c s)
  | Star r => Cat (deriv c r) (Star r)
  end.

(** [re.fullmatch(r, s) is not None]: the whole of [s] is matched. *)
Fixpoint fullmatch (r : regex) (s : list ascii) : bool :=
  match s with
  | [] => nullable r
  | c :: s' => fullmatch (deriv c r) s'
  end.

(** [re.match(r, s) is not None]: the match is anchored at the start of
    [s] only, so some prefix of [s] is matched. *)
Fixpoint match_ (r : regex) (s : list ascii) : bool :=
  nullable r ||
  match s with
  | [] => false
  | c :: s' => match_ (deriv c r) s'
  end.

(** *** Parsing a pattern

    One pass over the pattern with a stack of open groups. A frame holds
    the alternatives closed so far and the atoms of the alternative being
    read, both latest first; an atom remembers whether it already carries
    a quantifier. *)

Record frame := Frame {
  frame_alts : list regex;
  frame_seq : list (regex * bool)
}.

Definition seq_regex (atoms : list (regex * bool)) : regex :=
  fold_left (fun acc a => Cat (fst a) acc) atoms Eps.

Definition close_frame (f : frame) : regex :=
  fold_left (fun acc r => Alt r acc) (frame_alts f) (seq_regex (frame_seq f)).

Definition push_atom (r : regex) (f : frame) : frame :=
  Frame (frame_alts f) ((r, false) :: frame_seq f).

Record pstate := PState {
  ps_top : frame;
  ps_open : list frame;
  ps_escaped : bool
}.

Definition quantify (q : regex -> regex) (st : pstate) : option pstate :=
  match frame_seq (ps_top st) with
  | (r, false) :: rest =>
      Some (PState (Frame (frame_alts (ps_top st)) ((q r, true) :: rest))
                   (ps_open st) false)
  | _ => None
  end.

Definition with_atom (r : regex) (st : pstate) : option pstate :=
  Some (PState (push_atom r (ps_top st)) (ps_open st) false).

(** A character outside the fragment ([[ ] { } ^ $], an escape other than
    [\d] before a letter or digit, a quantifier on a quantifier or on
    nothing, [(?...)]) gives [None]. *)
Definition pstep (st : pstate) (c : ascii) : option pstate :=
  if ps_escaped st then
    if Ascii.eqb c "d" then with_atom Digit st
    else if is_alpha c || is_digit c then None
    else with_atom (Chr c) st
  else if Ascii.eqb c "\" then Some (PState (ps_top st) (ps_open st) true)
  else if Ascii.eqb c "(" then
    Some (PState (Frame [] []) (ps_top st :: ps_open st) false)
  else if Ascii.eqb c ")" then
    match ps_open st with
    | parent :: rest =>
        Some (PState (push_atom (close_frame (ps_top st)) parent) rest false)
    | [] => None
    end
  else if Ascii.eqb c "|" then
    Some (PState (Frame (seq_regex (frame_seq (ps_top st))
                           :: frame_alts (ps_top st)) [])
                 (ps_open st) false)
  else if Ascii.eqb c "*" then quantify Star st
  else if Ascii.eqb c "+" then quantify (fun r => Cat r (Star r)) st
  else if Ascii.eqb c "?" then quantify (fun r => Alt r Eps) st
  else if Ascii.eqb c "." then with_atom AnyChar st
  else if Ascii.eqb c "[" || Ascii.eqb c "]" || Ascii.eqb c "{"
          || Ascii.eqb c "}" || Ascii.eqb c "^" || Ascii.eqb c "$" then None
  else with_atom (Chr c) st.

Fixpoint prun (st : pstate) (s : list ascii) : option pstate :=
  match s with
  | [] => Some st
  | c :: s' =>
      match pstep st c with
      | Some st' => prun st' s'
      | None => None
      end
  end.

(** [re.compile(pattern)]. *)
Definition compile (pattern : string) : option regex :=
  match prun (PState (Frame [] []) [] false) (list_ascii_of_string pattern) with
  | Some st =>
      match ps_open st, ps_escaped st with
      | [], false => Some (close_frame (ps_top st))
      | _, _ => None
      end
  | None => None
  end.

End Re.

(** ** [pathlib] on a POSIX host *)

Module PurePath.

Definition is_sep (c : ascii) : bool := Ascii.eqb c "/".

(** [s.split("/")]. *)
Fixpoint split (s : list ascii) : list (list ascii) :=
  match s with
  | [] => [[]]
  | c :: s' =>
      if is_sep c then [] :: split s'
      else match split s' with
           | seg :: segs => (c :: seg) :: segs
           | [] => [[c]]
           end
  end.

(** [posixpath.splitroot]: the root is "//" for exactly two leading
    slashes, "/" for one or for three and more, and empty otherwise. *)
Definition splitroot (p : list ascii) : list ascii * list ascii :=
  match p with
  | c1 :: rest1 =>
      if is_sep c1 then
        match rest1 with
        | c2 :: rest2 =>
            if is_sep c2 then
              match rest2 with
              | c3 :: _ =>
                  if is_sep c3 then (["/"%char], rest1)
                  else (["/"%char; "/"%char], rest2)
              | [] => (["/"%char; "/"%char], rest2)
              end
            else (["/"%char], rest1)
        | [] => (["/"%char], rest1)
        end
      else ([], p)
  | [] => ([], p)
  end.

(** A component is kept when it is neither empty nor ".". *)
Definition keep_part (x : list ascii) : bool :=
  match x with
  | [] => false
  | [c] => negb (Ascii.eqb c ".")
  | _ => true
  end.

Definition parse_parts (rel : list ascii) : list (list ascii) :=
  List.filter keep_part (split rel).

(** ["/".join(parts)]. *)
Fixpoint join (parts : list (list ascii)) : list ascii :=
  match parts with
  | [] => []
  | [p] => p
  | p :: ps => p ++ "/"%char :: join ps
  end.

Definition format_parts (root : list ascii) (parts : list (list ascii))
  : list ascii :=
  match root ++ join parts with
  | [] => ["."%char]
  | s => s
  end.

Definition as_posix_chars (p : list ascii) : list ascii :=
  format_parts (fst (splitroot p)) (parse_parts (snd (splitroot p))).

(** [Path(p).as_posix()]. *)
Definition as_posix (p : string) : string :=
  string_of_list_ascii (as_posix_chars (list_ascii_of_string p)).

End PurePath.

(** ** Text helpers of [str] *)

Module Str.

Definition lower_char (c : ascii) : ascii :=
  if ((65 <=? nat_of_ascii c)%nat && (nat_of_ascii c <=? 90)%nat)%bool
  then ascii_of_nat (nat_of_ascii c + 32)
  else c.

(** [s.lower()] for a string [s] of ASCII characters: the letters A to Z
    are lowered and every other character is kept. *)
Fixpoint lower (s : string) : string :=
  match s with
  | EmptyString => EmptyString
  | String c s' => String (lower_char c) (lower s')
  end.

(** The characters of [s] are ASCII characters. *)
Definition is_ascii (s : string) : bool :=
  forallb (fun c => (nat_of_ascii c <? 128)%nat) (list_ascii_of_string s).

(** [s.replace("\n", " ")]. *)
Fixpoint unline (s : string) : string :=
  match s with
  | EmptyString => EmptyString
  | String c s' =>
      String (if Ascii.eqb c "010" then " "%char else c) (unline s')
  end.

(** [s[-1]]. *)
Fixpoint last_char (s : string) : option ascii :=
  match s with
  | EmptyString => None
  | String c EmptyString => Some c
  | String _ s' => last_char s'
  end.

Fixpoint is_prefix (p s : list ascii) : bool :=
  match p, s with
  | [], _ => true
  | a :: p', b :: s' => Ascii.eqb a b && is_prefix p' s'
  | _ :: _, [] => false
  end.

Fixpoint contains_chars (needle hay : list ascii) : bool :=
  is_prefix needle hay ||
  match hay with
  | [] => false
  | _ :: hay' => contains_chars needle hay'
  end.

(** [needle in hay]. *)
Definition contains (needle hay : string) : bool :=
  contains_chars (list_ascii_of_string needle) (list_ascii_of_string hay).

(** [s.replace(old, new)] for a non-empty [old]; [skip] counts the
    characters of an occurrence already replaced. *)
Fixpoint replace_chars (old new s : list ascii) (skip : nat) : list ascii :=
  match s with
  | [] => []
  | c :: s' =>
      match skip with
      | S k => replace_chars old new s' k
      | O =>
          if is_prefix old s
          then new ++ replace_chars old new s' (length old - 1)
          else c :: replace_chars old new s' 0
      end
  end.

Definition replace (old new s : string) : string :=
  string_of_list_ascii
    (replace_chars (list_ascii_of_string old) (list_ascii_of_string new)
       (list_ascii_of_string s) 0).

(** [s.split("\n")]. *)
Fixpoint split_lines_chars (s : list ascii) : list (list ascii) :=
  match s with
  | [] => [[]]
  | c :: s' =>
      if Ascii.eqb c "010" then [] :: split_lines_chars s'
      else match split_lines_chars s' with
           | line :: lines => (c :: line) :: lines
           | [] => [[c]]
           end
  end.

Definition split_lines (s : string) : list string :=
  map string_of_list_ascii (split_lines_chars (list_ascii_of_string s)).

Fixpoint lstrip_chars (set s : list ascii) : list ascii :=
  match s with
  | [] => []
  | c :: s' =>
      if existsb (Ascii.eqb c) set then lstrip_chars set s' else s
  end.

(** [s.strip(set)]. *)
Definition strip (set s : string) : string :=
  let cs := list_ascii_of_string set in
  string_of_list_ascii
    (rev (lstrip_chars cs (rev (lstrip_chars cs (list_ascii_of_string s))))).

(** [str(l)] of a list of strings without quotes or escapes. *)
Definition list_repr (l : list string) : string :=
  "[" +:+ String.concat ", " (map (fun x => "'" +:+ x +:+ "'") l) +:+ "]".

(** [a or b] on optional strings: [None] and the empty string are false. *)
Definition or_ (a b : option string) : option string :=
  match a with
  | None => b
  | Some EmptyString => b
  | Some _ => a
  end.

(** The escape character of the colour codes. *)
Definition ESC : string := String "027" EmptyString.

Definition red (s : string) : string := ESC +:+ "[31m" +:+ s +:+ ESC +:+ "[0m".
Definition green (s : string) : string := ESC +:+ "[32m" +:+ s +:+ ESC +:+ "[0m".

End Str.

(** ** The [Logger] of dcm_common *)

Module Logging.

Inductive Context := INFO | WARNING | ERROR.

#[global] Instance Context_eq_dec : EqDecision Context.
Proof. solve_decision. Defined.

(** dcm_common is an external package. Its Logger is taken as the
    ordered sequence of the messages logged, each with its context
    (severity), origin and body. *)
Record message := Message {
  msg_context : Context;
  msg_origin : string;
  msg_body : string
}.

Abbreviation Logger := (list message).

(** [log.log(context, origin=origin, body=body)]. *)
Definition log (ctx : Context) (origin body : string) (l : Logger) : Logger :=
  l ++ [Message ctx origin body].

(** [context in log]. *)
Definition contains (ctx : Context) (l : Logger) : bool :=
  existsb (fun m => bool_decide (msg_context m = ctx)) l.

(** [log.pick(context)]. *)
Definition pick (ctx : Context) (l : Logger) : Logger :=
  List.filter (fun m => bool_decide (msg_context m = ctx)) l.

(** [log.merge(other)]. *)
Definition merge (l other : Logger) : Logger := l ++ other.

End Logging.

(** ** payload_structure.py *)

Module PayloadStructure.
Import Logging.

(** [PayloadFolderDict]. *)
Record PayloadFolderDict := {
  string_ : string;
  is_regex : bool
}.

(** An entry of [Payload-Folders-Allowed]: [str | RegexDict]. *)
Inductive allowed_entry :=
| AllowedStr (s : string)
| AllowedRegex (regex : string).

(** The keys of the profile the validator reads; [None] is an absent key. *)
Record Profile := {
  Payload_Folders_Allowed : option (list allowed_entry);
  Payload_Folders_Required : option (list string)
}.

Record PayloadStructureValidator := {
  url : string;
  profile : Profile;
  allowed : list PayloadFolderDict;
  required : list PayloadFolderDict
}.

(** The payload of the bag at [bag_path] as the validator observes it:
    [payload_files] is [util.list_directory_content(bag_path / "data",
    "**/*", is_file)] in its order, each path relative to
    [bag_path / "data"]; [is_dir d] is [(bag_path / "data" / d).is_dir()]. *)
Record Bag := {
  payload_files : list string;
  is_dir : string -> bool
}.

Definition VALIDATOR_TAG : string := "Payload Structure Validator".

Definition POSITIVE_RESPONSE_ALLOW_REQ (url : string) : string :=
  Str.green "Bag's payload's root directories conform to profile"
  +:+ " (" +:+ url +:+ ").".
Definition NEGATIVE_RESPONSE_ALLOW_REQ (url : string) : string :=
  Str.red "Bag's payload's root directories do not conform to profile"
  +:+ " (" +:+ url +:+ ").".
Definition POSITIVE_RESPONSE_STRUCT : string :=
  Str.green "Bag's payload directory structure conforms to profile.".
Definition NEGATIVE_RESPONSE_STRUCT : string :=
  Str.red "Bag's payload directory structure does not conform to profile.".
Definition POSITIVE_RESPONSE_CAP : string :=
  Str.green "Bag's payload filenames' capitalization is fine.".
Definition NEGATIVE_RESPONSE_CAP : string :=
  Str.red "Bag's payload filenames' capitalization is problematic.".

Definition ends_with_slash (s : string) : result bool :=
  match Str.last_char s with
  | Some c => Ok (Ascii.eqb c "/")
  | None => Raise IndexError
  end.

Definition process_allowed_regex_from_profile (input_value : allowed_entry)
  : result PayloadFolderDict :=
  match input_value with
  | AllowedRegex regex =>
      let* slash := ends_with_slash regex in
      Ok {| string_ := regex +:+ (if slash then "" else "/");
            is_regex := true |}
  | AllowedStr s =>
      let* slash := ends_with_slash s in
      Ok {| string_ := s +:+ (if slash then "" else "/");
            is_regex := false |}
  end.

Fixpoint map_result {A B} (f : A -> result B) (l : list A) : result (list B) :=
  match l with
  | [] => Ok []
  | x :: rest =>
      let* y := f x in
      let* ys := map_result f rest in
      Ok (y :: ys)
  end.

Fixpoint filter_result {A} (f : A -> result bool) (l : list A)
  : result (list A) :=
  match l with
  | [] => Ok []
  | x :: rest =>
      let* keep := f x in
      let* ys := filter_result f rest in
      Ok (if keep then x :: ys else ys)
  end.

(** [PayloadStructureValidator(url, profile)] with [profile] a dict. *)
Definition init (url : string) (profile : Profile)
  : result PayloadStructureValidator :=
  let* allowed :=
    match Payload_Folders_Allowed profile with
    | Some entries => map_result process_allowed_regex_from_profile entries
    | None => Ok [{| string_ := ".*"; is_regex := true |}]
    end in
  let required :=
    match Payload_Folders_Required profile with
    | Some dirs => map (fun x => {| string_ := x; is_regex := false |}) dirs
    | None => []
    end in
  Ok {| url := url; profile := profile;
        allowed := allowed; required := required |}.

(** The loop of [match_any_regex] over [patterns]; [path] is already in
    POSIX form. A pattern that [re] does not compile (or that is outside
    the fragment of [Re]) raises when the loop reaches it. *)
Fixpoint match_any_regex_loop (path : string) (patterns : list PayloadFolderDict)
    (use_as_regex_anyway : bool) : result bool :=
  match patterns with
  | [] => Ok false
  | pattern :: rest =>
      if use_as_regex_anyway || is_regex pattern then
        match Re.compile (string_ pattern) with
        | None => Raise (ReError (string_ pattern))
        | Some r =>
            if Re.match_ r (list_ascii_of_string path) then Ok true
            else match_any_regex_loop path rest use_as_regex_anyway
        end
      else
        if String.eqb (PurePath.as_posix (string_ pattern)) path then Ok true
        else match_any_regex_loop path rest use_as_regex_anyway
  end.

Definition match_any_regex (path : string) (patterns : list PayloadFolderDict)
    (use_as_regex_anyway : bool) : result bool :=
  match_any_regex_loop (PurePath.as_posix path) patterns use_as_regex_anyway.

Definition log_each (body : string -> string) (items : list string)
    (l : Logger) : Logger :=
  fold_left (fun acc item => log ERROR VALIDATOR_TAG (body item) acc) items l.

Definition not_allowed_body (path : string) : string :=
  "Required payload directory '" +:+ path
  +:+ "' not listed in Payload-Folders-Allowed.".

Definition _validate_payload_directories_allowed
    (self : PayloadStructureValidator) (l : Logger) : result (bool * Logger) :=
  let* required_but_not_allowed :=
    filter_result
      (fun f => let* m := match_any_regex (string_ f) (allowed self) false in
                Ok (negb m))
      (required self) in
  match required_but_not_allowed with
  | [] => Ok (true, l)
  | _ => Ok (false,
             log_each not_allowed_body
               (map string_ required_but_not_allowed) l)
  end.

Definition not_present_body (payload_dir : string) : string :=
  "Required payload directory '" +:+ payload_dir
  +:+ "' is not present in Bag.".

Definition _validate_payload_directories_required
    (self : PayloadStructureValidator) (bag : Bag) (l : Logger)
  : bool * Logger :=
  match Payload_Folders_Required (profile self) with
  | None => (true, l)
  | Some dirs =>
      fold_left
        (fun (acc : bool * Logger) payload_dir =>
           if is_dir bag payload_dir then acc
           else (false, log ERROR VALIDATOR_TAG
                          (not_present_body payload_dir) (snd acc)))
        dirs (true, l)
  end.

(** [file.relative_to(bag_path)] for a payload file given relative to
    [bag_path / "data"]. *)
Definition relative_to_bag (file : string) : string := "data/" +:+ file.

Definition illegal_location_body (relfile : string) : string :=
  "File '" +:+ relfile +:+ "' found in illegal location of payload directory.".

Definition _validate_payload_dir_files
    (self : PayloadStructureValidator) (bag : Bag) (l : Logger)
  : result (bool * Logger) :=
  match Payload_Folders_Allowed (profile self) with
  | None => Ok (true, l)
  | Some _ =>
      let* disallowed_payload_files :=
        filter_result
          (fun p => let* m := match_any_regex p (allowed self) true in
                    Ok (negb m))
          (payload_files bag) in
      match disallowed_payload_files with
      | [] => Ok (true, l)
      | _ => Ok (false,
                 log_each illegal_location_body
                   (map relative_to_bag disallowed_payload_files) l)
      end
  end.

Definition capitalization_body (file_relative first : string) : string :=
  "File '" +:+ file_relative +:+ "' and '" +:+ first
  +:+ "' only differ in their capitalization.".

Section Lower.

(** [str.lower] of Python. *)
Variable lower : string -> string.

(** The loop of [_validate_payload_files_capitalization] with its dict
    [checked]. *)
Fixpoint capitalization_loop (files : list string)
    (checked : gmap string string) (validates : bool) (l : Logger)
  : bool * Logger :=
  match files with
  | [] => (validates, l)
  | file :: rest =>
      let file_relative := relative_to_bag file in
      let file_lower := lower file_relative in
      match checked !! file_lower with
      | Some first =>
          capitalization_loop rest checked false
            (log ERROR VALIDATOR_TAG
               (capitalization_body file_relative first) l)
      | None =>
          capitalization_loop rest (<[file_lower := file_relative]> checked)
            validates l
      end
  end.

Definition _validate_payload_files_capitalization (bag : Bag) (l : Logger)
  : bool * Logger :=
  capitalization_loop (payload_files bag) (∅ : gmap string string) true l.

Section Render.

(** [str(log)] of dcm_common. *)
Variable Logger_str : Logger -> string.

Definition validation_message (l : Logger) : string :=
  "At least one error occurred during validation: "
  +:+ Str.unline (Logger_str l).

(** [validate_bag(bag_path)]: the result and [self.log] when the call
    ends. Printing the report has no effect on either. *)
Definition validate_bag (self : PayloadStructureValidator) (bag : Bag)
  : result Z * Logger :=
  let log0 : Logger := [] in
  match _validate_payload_directories_allowed self log0 with
  | Raise e => (Raise e, log0)
  | Ok (ok_allowed, log1) =>
      let '(ok_required, log2) :=
        _validate_payload_directories_required self bag log1 in
      let '(exitcode1, log3) :=
        if ok_allowed && ok_required
        then (0%Z, log INFO VALIDATOR_TAG
                     (POSITIVE_RESPONSE_ALLOW_REQ (url self)) log2)
        else (1%Z, log INFO VALIDATOR_TAG
                     (NEGATIVE_RESPONSE_ALLOW_REQ (url self)) log2) in
      match _validate_payload_dir_files self bag log3 with
      | Raise e => (Raise e, log3)
      | Ok (ok_files, log4) =>
          let '(exitcode2, log5) :=
            if ok_files
            then (exitcode1, log INFO VALIDATOR_TAG POSITIVE_RESPONSE_STRUCT log4)
            else (1%Z, log INFO VALIDATOR_TAG NEGATIVE_RESPONSE_STRUCT log4) in
          let '(ok_cap, log6) :=
            _validate_payload_files_capitalization bag log5 in
          let '(exitcode3, log7) :=
            if ok_cap
            then (exitcode2, log INFO VALIDATOR_TAG POSITIVE_RESPONSE_CAP log6)
            else (1%Z, log INFO VALIDATOR_TAG NEGATIVE_RESPONSE_CAP log6) in
          if (exitcode3 =? 0)%Z then (Ok exitcode3, log7)
          else (Raise (PayloadStructureValidationError
                         (validation_message log7)), log7)
      end
  end.

End Render.

End Lower.

End PayloadStructure.

(** ** file_integrity.py *)

Module FileIntegrity.
Import Logging.

Inductive hashing_method := md5 | sha1 | sha256 | sha512.

(** The keys of [SUPPORTED_HASHING_METHODS]. *)
Definition SUPPORTED_HASHING_METHODS (method_id : string)
  : option hashing_method :=
  if String.eqb method_id "md5" then Some md5
  else if String.eqb method_id "sha1" then Some sha1
  else if String.eqb method_id "sha256" then Some sha256
  else if String.eqb method_id "sha512" then Some sha512
  else None.

Definition VALIDATOR_TAG : string := "Object Checksum Validator".
Definition POSITIVE_RESPONSE : string := Str.green "Checksum is valid.".
Definition NEGATIVE_RESPONSE : string := Str.red "Checksum is invalid.".
Definition ERROR_DETAIL_RESPONSE (expected found : string) : string :=
  "Validation failed. (Expected '" +:+ expected +:+ "', but found '"
  +:+ found +:+ "'.)".

Record FileIntegrityValidator := {
  method : option string;
  value : option string
}.

Section Hashlib.

(** [hashlib m data] is [hashlib.<m>(data).hexdigest()]; [methods_repr]
    is [str(SUPPORTED_HASHING_METHODS)]; [read_bytes path] is
    [path.read_bytes()], [None] when the file cannot be read. *)
Variable hashlib : hashing_method -> list Byte.byte -> string.
Variable methods_repr : string.
Variable read_bytes : string -> option (list Byte.byte).

Definition unknown_method_message (method_id : string) : string :=
  "Unknown method '" +:+ method_id
  +:+ "' (available: dict_keys(['md5', 'sha1', 'sha256', 'sha512'])).".

Definition hash_from_bytes (method_id : string) (data : list Byte.byte)
  : result string :=
  match SUPPORTED_HASHING_METHODS method_id with
  | None => Raise (ValueError (unknown_method_message method_id))
  | Some m => Ok (hashlib m data)
  end.

(** The argument [path.read_bytes()] is evaluated before the call. *)
Definition hash_from_file (method_id path : string) : result string :=
  match read_bytes path with
  | None => Raise FileNotFoundError
  | Some data => hash_from_bytes method_id data
  end.

Definition not_allowed_message (m : string) : string :=
  "Value '" +:+ m +:+ "' for 'method' not allowed. Supported values: "
  +:+ methods_repr +:+ ".".

Definition _get_method (self_method method : option string)
    (accept_none : bool) : result (option string) :=
  if negb accept_none
     && bool_decide (method = None) && bool_decide (self_method = None)
  then Raise (ValueError "Missing required argument 'method'.")
  else
    match method with
    | Some m =>
        match SUPPORTED_HASHING_METHODS m with
        | None => Raise (ValueError (not_allowed_message m))
        | Some _ => Ok (Str.or_ method self_method)
        end
    | None => Ok (Str.or_ method self_method)
    end.

(** [FileIntegrityValidator(method, value)]. *)
Definition init (method value : option string)
  : result FileIntegrityValidator :=
  let* m := _get_method None method true in
  Ok {| method := m; value := value |}.

(** [validate_file(file_path, report_back, method, value)]: the result
    and [self.log] when the call ends. *)
Definition validate_file (self : FileIntegrityValidator) (file_path : string)
    (method_arg value_arg : option string) : result Z * Logger :=
  let log0 : Logger := [] in
  match _get_method (method self) method_arg false with
  | Raise e => (Raise e, log0)
  | Ok _method =>
      match Str.or_ value_arg (value self) with
      | None => (Raise (ValueError "Missing required argument 'value'."), log0)
      | Some _value =>
          let hashed :=
            match _method with
            | Some m => hash_from_file m file_path
            | None =>
                match read_bytes file_path with
                | None => Raise FileNotFoundError
                | Some _ => Raise (ValueError (unknown_method_message "None"))
                end
            end in
          match hashed with
          | Raise e => (Raise e, log0)
          | Ok _hashed =>
              let log1 :=
                if String.eqb _hashed _value
                then log INFO VALIDATOR_TAG POSITIVE_RESPONSE log0
                else log ERROR VALIDATOR_TAG
                       (ERROR_DETAIL_RESPONSE _value _hashed)
                       (log INFO VALIDATOR_TAG NEGATIVE_RESPONSE log0) in
              if contains ERROR log1
              then (Raise (PayloadIntegrityValidationError "Invalid file."),
                    log1)
              else (Ok 0%Z, log1)
          end
      end
  end.

End Hashlib.

End FileIntegrity.

(** ** file_format.py *)

Module FileFormat.
Import Logging.

(** The type selector of a plugin: a list of MIME types or a regex. *)
Inductive selector :=
| SelList (types : list string)
| SelRegex (pattern : string).

(** A plugin as the validator uses it: its tag, and
    [validate_file_format(file_path, file_type)] giving the exit code
    together with the plugin's log after the call. *)
Record Plugin := {
  PLUGIN_TAG : string;
  validate_file_format : string -> string -> Z * Logger
}.

Record FileFormatValidator := {
  validators : list (selector * Plugin)
}.

(** The argument [file_path: str | Path | File]. *)
Inductive file_arg :=
| ArgStr (s : string)
| ArgPath (p : string)
| ArgFile (file_path : string) (file_type : option string).

Definition VALIDATOR_TAG : string := "File Format Validator".
Definition POSITIVE_RESPONSE : string := Str.green "File formats are valid.".
Definition NEGATIVE_RESPONSE : string := Str.red "File formats are invalid.".

Definition unidentified_body (file_path : string) : string :=
  "Unable to analyze file '" +:+ file_path +:+ "' using fido.".

Definition unchecked_list_body (file_path file_type : string)
    (types : list string) : string :=
  "File '" +:+ file_path +:+ "' is left unchecked; no match for '"
  +:+ file_type +:+ "' in list of types '" +:+ Str.list_repr types +:+ "'".

Definition unchecked_regex_body (file_path file_type pattern : string)
  : string :=
  "File '" +:+ file_path +:+ "' is left unchecked; no match for '"
  +:+ file_type +:+ "' in file type regex '" +:+ pattern +:+ "'".

Section Collaborators.

(** [str(log)] of dcm_common, and [File.get_mime_type] (fido): [None]
    when the type of the file cannot be determined. *)
Variable Logger_str : Logger -> string.
Variable get_mime_type : string -> option string.

Definition validation_message (l : Logger) : string :=
  "At least one error occurred during file format validation: "
  +:+ Str.unline (Logger_str l).

Definition _finalize (exitcode : Z) (print_log : bool) (l : Logger)
  : result unit * Logger :=
  let l' :=
    if print_log then
      if (exitcode =? 0)%Z then log INFO VALIDATOR_TAG POSITIVE_RESPONSE l
      else log INFO VALIDATOR_TAG NEGATIVE_RESPONSE l
    else l in
  if (exitcode =? 0)%Z then (Ok tt, l')
  else (Raise (FileFormatValidationError (validation_message l')), l').

(** The loop of [validate_file] over [self.validators]. *)
Fixpoint run_validators (vs : list (selector * Plugin))
    (file_path file_type : string) (exitcode : Z) (l : Logger)
  : result Z * Logger :=
  match vs with
  | [] => (Ok exitcode, l)
  | (sel, plugin) :: rest =>
      let run l :=
        let '(this_exit_code, plugin_log) :=
          validate_file_format plugin file_path file_type in
        run_validators rest file_path file_type
          (if (this_exit_code =? 0)%Z then exitcode else 1%Z)
          (merge l plugin_log) in
      match sel with
      | SelList types =>
          if bool_decide (file_type ∈ types) then run l
          else run_validators rest file_path file_type exitcode
                 (log WARNING (PLUGIN_TAG plugin)
                    (unchecked_list_body file_path file_type types) l)
      | SelRegex pattern =>
          match Re.compile pattern with
          | None => (Raise (ReError pattern), l)
          | Some r =>
              if Re.fullmatch r (list_ascii_of_string file_type) then run l
              else run_validators rest file_path file_type exitcode
                     (log WARNING (PLUGIN_TAG plugin)
                        (unchecked_regex_body file_path file_type pattern) l)
          end
      end
  end.

(** [validate_file(file_path, report_back, clear_report, log_summary)]
    from the log [l] of the validator. [file] is bound only for a
    [Path]. *)
Definition validate_file (self : FileFormatValidator) (file_path : file_arg)
    (clear_report log_summary : bool) (l : Logger) : result Z * Logger :=
  let l0 : Logger := if clear_report then [] else l in
  match file_path with
  | ArgPath p =>
      match get_mime_type p with
      | None => (Ok 1%Z, log ERROR VALIDATOR_TAG (unidentified_body p) l0)
      | Some file_type =>
          match run_validators (validators self) p file_type 0%Z l0 with
          | (Raise e, l1) => (Raise e, l1)
          | (Ok exitcode, l1) =>
              match _finalize exitcode log_summary l1 with
              | (Raise e, l2) => (Raise e, l2)
              | (Ok _, l2) => (Ok exitcode, l2)
              end
          end
      end
  | ArgStr _ | ArgFile _ _ => (Raise UnboundLocalError, l0)
  end.

(** The loop of [validate_bag] over the files of the payload. *)
Fixpoint validate_files (self : FileFormatValidator) (files : list string)
    (exitcode : Z) (l : Logger) : result Z * Logger :=
  match files with
  | [] => (Ok exitcode, l)
  | file :: rest =>
      match validate_file self (ArgPath file) false false l with
      | (Ok this_exit_code, l1) =>
          validate_files self rest
            (if (this_exit_code =? 0)%Z then exitcode else 1%Z) l1
      | (Raise (FileFormatValidationError _), l1) =>
          validate_files self rest 1%Z l1
      | (Raise e, l1) => (Raise e, l1)
      end
  end.

(** [validate_bag(bag_path)]; [files] is
    [util.list_directory_content(bag_path / "data", "**/*", is_file)]. *)
Definition validate_bag (self : FileFormatValidator) (files : list string)
  : result Z * Logger :=
  match validate_files self files 0%Z [] with
  | (Raise e, l1) => (Raise e, l1)
  | (Ok exitcode, l1) =>
      match _finalize exitcode true l1 with
      | (Raise e, l2) => (Raise e, l2)
      | (Ok _, l2) => (Ok exitcode, l2)
      end
  end.

End Collaborators.

End FileFormat.

(** ** payload_integrity.py *)

Module PayloadIntegrity.
Import Logging.

(** What one internal step of the bagit library does: it returns, or it
    raises [bagit.BagError] with a message, or [ValueError]. *)
Inductive step_outcome :=
| StepOk
| StepBagError (msg : string)
| StepValueError.

(** The bagit library on the bag at [bag_path]: [bag_error] is the
    message of the [BagError] that [bagit.Bag(bag_path)] raises, if any;
    the steps are [_validate_contents], [_validate_completeness] and
    [_validate_entries]. *)
Record Bagit := {
  bag_error : option string;
  contents_step : step_outcome;
  completeness_step : step_outcome;
  entries_step : step_outcome
}.

Definition VALIDATOR_TAG : string := "Payload Integrity Validator".
Definition NEGATIVE_RESPONSE_BAGITTXT : string :=
  Str.red "Directory does not contain required file 'bagit.txt'.".
Definition NEGATIVE_RESPONSE_BAGITTXT_INFO : string :=
  Str.red "No valid bag instance, can't proceed with checksum validation.".
Definition POSITIVE_RESPONSE : string :=
  Str.green "Bag's payload checksums conform to manifest information.".
Definition NEGATIVE_RESPONSE : string :=
  Str.red ("Bag's payload checksums do not conform to manifest information"
           +:+ " or missing files.").

Definition run_step (acc : Z * Logger) (step : step_outcome) : Z * Logger :=
  match step with
  | StepOk => acc
  | StepValueError =>
      (1%Z, log ERROR VALIDATOR_TAG
              "Bad input for some internal bagit-method." (snd acc))
  | StepBagError msg =>
      (1%Z, fold_left
              (fun l entry =>
                 log ERROR VALIDATOR_TAG (Str.strip "WARNING" entry) l)
              (Str.split_lines msg) (snd acc))
  end.

Section Render.

Variable Logger_str : Logger -> string.

Definition validation_message (l : Logger) : string :=
  "At least one error occurred during payload integrity validation: "
  +:+ Str.unline (Logger_str l).

Definition finish (exitcode : Z) (l : Logger) : result Z * Logger :=
  if (exitcode =? 0)%Z then (Ok exitcode, l)
  else (Raise (PayloadIntegrityValidationError (validation_message l)), l).

(** [validate_bag(bag_path)]. *)
Definition validate_bag (bagit : Bagit) : result Z * Logger :=
  let log0 : Logger := [] in
  match bag_error bagit with
  | Some msg =>
      if Str.contains "Expected bagit.txt does not exist" msg then
        finish 1
          (log INFO VALIDATOR_TAG NEGATIVE_RESPONSE_BAGITTXT_INFO
             (log ERROR VALIDATOR_TAG NEGATIVE_RESPONSE_BAGITTXT log0))
      else (Raise (BagError msg), log0)
  | None =>
      let '(thisexitcode, log1) :=
        fold_left run_step
          [contents_step bagit; completeness_step bagit; entries_step bagit]
          (0%Z, log0) in
      if (thisexitcode =? 0)%Z
      then finish 0 (log INFO VALIDATOR_TAG POSITIVE_RESPONSE log1)
      else finish 1 (log INFO VALIDATOR_TAG NEGATIVE_RESPONSE log1)
  end.

End Render.

End PayloadIntegrity.

(** ** bagit_profile.py *)

Module BagitProfile.
Import Logging.

(** The libraries on the bag at [bag_path]: [bag_error] as for
    [PayloadIntegrity]; [bag_str] is [str(bag)]; [serialization_ok] is
    [self.validate_serialization(bag_path)]; [profile_ok] is
    [self.validate(bag)]; [report_errors] is [self.report.errors] after
    these calls, [None] when [self.report] is unset. *)
Record Bagit := {
  bag_error : option string;
  bag_str : string;
  serialization_ok : bool;
  profile_ok : bool;
  report_errors : option (list string)
}.

Record ProfileValidator := {
  url : string
}.

Definition VALIDATOR_TAG : string := "Profile Validator".
Definition NEGATIVE_RESPONSE_BAGITTXT : string :=
  Str.red "Directory does not contain required file 'bagit.txt'.".
Definition NEGATIVE_RESPONSE_BAGITTXT_INFO : string :=
  Str.red "No valid bag instance, can't proceed with profile validation.".
Definition POSITIVE_RESPONSE_SER : string :=
  Str.green "Payload serialization is ok.".
Definition NEGATIVE_RESPONSE_SER : string :=
  Str.red "Serialization is not ok.".
Definition POSITIVE_RESPONSE_PRO (url : string) : string :=
  Str.green "Bag conforms to profile" +:+ " (" +:+ url +:+ ").".
Definition NEGATIVE_RESPONSE_PRO (url : string) : string :=
  Str.red "Bag does not conform to profile" +:+ " (" +:+ url +:+ ").".

(** The class of [some_validation_error]. *)
Inductive error_class :=
| ClassValidationError
| ClassSerializationValidationError
| ClassProfileValidationError.

Definition raise_class (c : error_class) (msg : string) : exn :=
  match c with
  | ClassValidationError => ValidationError msg
  | ClassSerializationValidationError => SerializationValidationError msg
  | ClassProfileValidationError => ProfileValidationError msg
  end.

Section Render.

Variable Logger_str : Logger -> string.

Definition validation_message (l : Logger) : string :=
  "At least one error occurred during validation: "
  +:+ Str.unline (Logger_str l).

Definition finish (some_validation_error : option error_class) (l : Logger)
  : result Z * Logger :=
  match some_validation_error with
  | None => (Ok 0%Z, l)
  | Some c => (Raise (raise_class c (validation_message l)), l)
  end.

(** [validate_bag(bag_path, test_serialization, test_profile)]. The exit
    code is 1 exactly when [some_validation_error] is set. *)
Definition validate_bag (self : ProfileValidator) (bagit : Bagit)
    (test_serialization test_profile : bool) : result Z * Logger :=
  let log0 : Logger := [] in
  match bag_error bagit with
  | Some msg =>
      if Str.contains "Expected bagit.txt does not exist" msg then
        finish (Some ClassValidationError)
          (log INFO VALIDATOR_TAG NEGATIVE_RESPONSE_BAGITTXT_INFO
             (log ERROR VALIDATOR_TAG NEGATIVE_RESPONSE_BAGITTXT log0))
      else (Raise (BagError msg), log0)
  | None =>
      let '(err1, log1) :=
        if test_serialization then
          if serialization_ok bagit
          then (None, log INFO VALIDATOR_TAG POSITIVE_RESPONSE_SER log0)
          else (Some ClassSerializationValidationError,
                log ERROR VALIDATOR_TAG NEGATIVE_RESPONSE_SER
                  (log INFO VALIDATOR_TAG NEGATIVE_RESPONSE_SER log0))
        else (None, log0) in
      let '(err2, log2) :=
        if test_profile then
          if profile_ok bagit
          then (err1, log INFO VALIDATOR_TAG
                        (POSITIVE_RESPONSE_PRO (url self)) log1)
          else (match err1 with
                | None => Some ClassProfileValidationError
                | Some c => Some c
                end,
                log INFO VALIDATOR_TAG (NEGATIVE_RESPONSE_PRO (url self)) log1)
        else (err1, log1) in
      let log3 :=
        match report_errors bagit with
        | Some errors =>
            fold_left
              (fun l x =>
                 log ERROR VALIDATOR_TAG
                   (Str.replace (bag_str bagit +:+ ": ") "" x) l)
              errors log2
        | None => log2
        end in
      finish err2 log3
  end.

End Render.

End BagitProfile.

(** ** Predicates used in the statements *)

Module Spec.
Import PayloadStructure.

(** The rule is tested by [re.match]. *)
Definition tested_as_regex (force : bool) (rule : PayloadFolderDict) : bool :=
  force || is_regex rule.

(** [re] compiles the pattern of every rule that is tested as a regex. *)
Definition rule_compiles (force : bool) (rule : PayloadFolderDict) : Prop :=
  tested_as_regex force rule = true -> is_Some (Re.compile (string_ rule)).

(** What one rule accepts: a regex rule accepts a path of which it
    matches a prefix, a literal rule the path it is equal to in POSIX
    form. *)
Definition rule_matches (force : bool) (path : string)
    (rule : PayloadFolderDict) : Prop :=
  if tested_as_regex force rule
  then exists rx u v,
      Re.compile (string_ rule) = Some rx /\
      list_ascii_of_string path = (u ++ v)%list /\ Re.lang rx u
  else PurePath.as_posix (string_ rule) = path.

Section Lower.

(** [str.lower] of Python. *)
Variable lower : string -> string.

(** The first path of [paths] whose lowercase form is [k]. *)
Definition first_seen (k : string) (paths : list string) : option string :=
  List.find (fun f => String.eqb (lower f) k) paths.

(** The number of paths whose lowercase form is [k]. *)
Definition count_lower (k : string) (paths : list string) : nat :=
  length (List.filter (fun f => String.eqb (lower f) k) paths).

(** The collisions among [rest] after the paths [seen]: each path whose
    lowercase form was seen before, with the first path of that form. *)
Fixpoint collisions (seen rest : list string) : list (string * string) :=
  match rest with
  | [] => []
  | f :: rest' =>
      match first_seen (lower f) seen with
      | Some g => (f, g) :: collisions (seen ++ [f]) rest'
      | None => collisions (seen ++ [f]) rest'
      end
  end.

(** The collisions of the listing [paths]: for each path, in the order
    of the listing, that has the lowercase form of an earlier path, the
    pair of the path and of the first path with that form. *)
Definition collisions_of (paths : list string) : list (string * string) :=
  concat
    (imap (fun i f =>
             match first_seen (lower f) (take i paths) with
             | Some g => [(f, g)]
             | None => []
             end) paths).

(** [str.lower] lowers the letters A to Z of an ASCII string and keeps
    its other characters, as [Str.lower] does. *)
Definition lowers_ascii : Prop :=
  forall s, Str.is_ascii s = true -> lower s = Str.lower s.

End Lower.

(** The Error that names a colliding path and the first-seen one. *)
Definition collision_error (p : string * string) : Logging.message :=
  Logging.Message Logging.ERROR VALIDATOR_TAG
    (capitalization_body (fst p) (snd p)).

(** The Error a sub-check logs for one offending item. *)
Definition error_of (body : string -> string) (item : string)
  : Logging.message :=
  Logging.Message Logging.ERROR VALIDATOR_TAG (body item).

(** The MIME type is selected by the selector: it is in the list, or the
    regex matches the whole of it. *)
Definition selector_matches (sel : FileFormat.selector) (file_type : string)
  : Prop :=
  match sel with
  | FileFormat.SelList types => In file_type types
  | FileFormat.SelRegex pattern =>
      exists rx, Re.compile pattern = Some rx /\
                 Re.lang rx (list_ascii_of_string file_type)
  end.

(** [re] compiles the selector when it is a regex. *)
Definition selector_ok (v : FileFormat.selector * FileFormat.Plugin) : Prop :=
  match fst v with
  | FileFormat.SelList _ => True
  | FileFormat.SelRegex pattern => is_Some (Re.compile pattern)
  end.

(** The Warning logged for a plugin whose selector leaves the file
    out. *)
Definition unchecked_warning (file_path file_type : string)
    (v : FileFormat.selector * FileFormat.Plugin) : Logging.message :=
  Logging.Message Logging.WARNING (FileFormat.PLUGIN_TAG (snd v))
    match fst v with
    | FileFormat.SelList types =>
        FileFormat.unchecked_list_body file_path file_type types
    | FileFormat.SelRegex pattern =>
        FileFormat.unchecked_regex_body file_path file_type pattern
    end.

(** Some plugin selected for the type of the file gives a failing
    verdict. *)
Definition failing_verdict (vs : list (FileFormat.selector * FileFormat.Plugin))
    (file_path file_type : string) : Prop :=
  Exists (fun v => selector_matches (fst v) file_type /\
                   fst (FileFormat.validate_file_format (snd v)
                          file_path file_type) <> 0%Z) vs.

(** The file is unidentifiable, or some plugin fails it. *)
Definition file_fails (get_mime_type : string -> option string)
    (vs : list (FileFormat.selector * FileFormat.Plugin)) (file_path : string)
  : Prop :=
  match get_mime_type file_path with
  | None => True
  | Some file_type => failing_verdict vs file_path file_type
  end.

(** The outcome of a top-level validation method: it returns 0, or it
    raises its validation error with the message built from the log, or
    an error that is no validation error passes through. *)
Definition zero_or_raises (validation_error : Logging.Logger -> exn)
    (out : result Z * Logging.Logger) : Prop :=
  fst out = Ok 0%Z \/
  fst out = Raise (validation_error (snd out)) \/
  exists e, fst out = Raise e /\ is_validation_error e = false.

End Spec.

(** ** The profile and the bags of the test suite *)

Module Fixture.
Import PayloadStructure.

(** [MINIMAL_PROFILE] of test_payload_structure.py. *)
Definition minimal_profile : Profile := {|
  Payload_Folders_Allowed :=
    Some [AllowedStr "required_directory";
          AllowedRegex "optional_directory/\d+"];
  Payload_Folders_Required := Some ["required_directory"]
|}.

Definition minimal_validator : PayloadStructureValidator := {|
  url := "MINIMAL_PROFILE";
  profile := minimal_profile;
  allowed := [{| string_ := "required_directory/"; is_regex := false |};
              {| string_ := "optional_directory/\d+/"; is_regex := true |}];
  required := [{| string_ := "required_directory"; is_regex := false |}]
|}.

Definition directories (dirs : list string) (d : string) : bool :=
  bool_decide (d ∈ dirs).

(** The bag that [generate_example_bag] writes. *)
Definition example_bag : Bag := {|
  payload_files := ["required_directory/dummy.txt";
                    "optional_directory/4/dummy.doc"];
  is_dir := directories ["required_directory"; "optional_directory";
                         "optional_directory/4"]
|}.

(** The same bag with a file below [optional_directory/4a]. *)
Definition example_bag_4a : Bag := {|
  payload_files := ["required_directory/dummy.txt";
                    "optional_directory/4/dummy.doc";
                    "optional_directory/4a/dummy.doc"];
  is_dir := directories ["required_directory"; "optional_directory";
                         "optional_directory/4"; "optional_directory/4a"]
|}.

(** A bag that fails three sub-checks at once: the required directory
    was renamed, so its file is misplaced, and two files differ in
    capitalization only. *)
Definition broken_bag : Bag := {|
  payload_files := ["required_directory_bad/dummy.txt";
                    "optional_directory/4/test.dat";
                    "optional_directory/4/TEST.dat"];
  is_dir := directories ["required_directory_bad"; "optional_directory";
                         "optional_directory/4"]
|}.

(** A rendering of a log for the examples: the bodies, one per line. *)
Definition plain_str (l : Logging.Logger) : string :=
  String.concat (String "010" EmptyString) (map Logging.msg_body l).

(** [hashlib] on the empty byte string, the only content the examples
    hash. *)
Definition empty_digest (m : FileIntegrity.hashing_method) : string :=
  match m with
  | FileIntegrity.md5 => "d41d8cd98f00b204e9800998ecf8427e"
  | FileIntegrity.sha1 => "da39a3ee5e6b4b0d3255bfef95601890afd80709"
  | FileIntegrity.sha256 =>
      "e3b0c44298fc1c149afbf4c8996fb92427ae41e4649b934ca495991b7852b855"
  | FileIntegrity.sha512 =>
      "cf83e1357eefb8bdf1542850d66d8007d620e4050b5715dc83f4a921d36ce9ce"
      +:+ "47d0d13c5d85f2b0ff8318d2877eec2f63b931bd47417a81a538327af927da3e"
  end.

Definition hashlib_on_empty (m : FileIntegrity.hashing_method)
    (data : list Byte.byte) : string := empty_digest m.

(** A file system with one readable, empty file. *)
Definition one_empty_file (path : string) : option (list Byte.byte) :=
  if String.eqb path "data/empty.bin" then Some [] else None.

(** fido on a payload with a text file, an image and a file it cannot
    identify. *)
Definition fido (path : string) : option string :=
  if String.eqb path "data/readme.txt" then Some "text/plain"
  else if String.eqb path "data/sample.png" then Some "image/png"
  else None.

(** A plugin that accepts every file, and one that rejects every file. *)
Definition accepting_plugin : FileFormat.Plugin := {|
  FileFormat.PLUGIN_TAG := "Accepting Plugin";
  FileFormat.validate_file_format := fun _ _ => (0%Z, [])
|}.

Definition rejecting_plugin : FileFormat.Plugin := {|
  FileFormat.PLUGIN_TAG := "Rejecting Plugin";
  FileFormat.validate_file_format := fun file_path _ =>
    (1%Z, [Logging.Message Logging.ERROR "Rejecting Plugin"
             ("'" +:+ file_path +:+ "' is rejected.")])
|}.

End Fixture.

(** ** Predicates used in the statements about the sub-checks *)

Module SpecSubChecks.
Import PayloadStructure.

(** The text of an entry of [Payload-Folders-Allowed]. *)
Definition entry_text (e : allowed_entry) : string :=
  match e with
  | AllowedStr s => s
  | AllowedRegex regex => regex
  end.

Definition entry_is_regex (e : allowed_entry) : bool :=
  match e with
  | AllowedStr _ => false
  | AllowedRegex _ => true
  end.

(** The rule made of an entry: the same kind, and the text of the entry,
    unchanged when it ends with the separator and followed by the
    separator otherwise; so the rule ends with the separator. *)
Definition normalizes (e : allowed_entry) (rule : PayloadFolderDict) : Prop :=
  is_regex rule = entry_is_regex e /\
  Str.last_char (string_ rule) = Some "/"%char /\
  string_ rule =
  if bool_decide (Str.last_char (entry_text e) = Some "/"%char)
  then entry_text e
  else entry_text e +:+ "/".

(** The characters that [re] reads as themselves in the fragment of
    [Re]. *)
Definition plain_char (c : ascii) : bool :=
  negb (existsb (Ascii.eqb c)
          (list_ascii_of_string "\()|*+?.[]{}^$")).

Definition plain (s : string) : Prop :=
  Forall (fun c => plain_char c = true) (list_ascii_of_string s).

(** The pattern that matches the string [s] and nothing else. *)
Definition literal (s : list ascii) : Re.regex :=
  fold_right (fun c r => Re.Cat (Re.Chr c) r) Re.Eps s.

(** The path [d] is relative and made of the names [comps], each
    without separator and kept by [pathlib]. *)
Definition directory_path (d : string) (comps : list (list ascii)) : Prop :=
  comps <> [] /\
  list_ascii_of_string d = PurePath.join comps /\
  Forall (fun c => PurePath.keep_part c = true /\
                   Forall (fun a => a <> "/"%char) c) comps.

End SpecSubChecks.

(** ** Predicates used in the statements about the format validator *)

Module SpecFormat.
Import FileFormat Logging.

(** The selector selects the MIME type. *)
Definition selects (sel : selector) (file_type : string) : bool :=
  match sel with
  | SelList types => bool_decide (file_type ∈ types)
  | SelRegex pattern =>
      match Re.compile pattern with
      | Some rx => Re.fullmatch rx (list_ascii_of_string file_type)
      | None => false
      end
  end.

(** What one registered plugin adds to the report of a file: its own
    log when it is selected, and one Warning otherwise. *)
Definition contribution (file_path file_type : string)
    (v : selector * Plugin) : Logger :=
  if selects (fst v) file_type
  then snd (validate_file_format (snd v) file_path file_type)
  else [Spec.unchecked_warning file_path file_type v].

(** The plugin is selected and gives a failing verdict. *)
Definition fails (file_path file_type : string) (v : selector * Plugin)
  : bool :=
  selects (fst v) file_type
  && negb (fst (validate_file_format (snd v) file_path file_type) =? 0)%Z.

(** The report of one file inside [validate_bag]. *)
Definition file_report (get_mime_type : string -> option string)
    (vs : list (selector * Plugin)) (file_path : string) : Logger :=
  match get_mime_type file_path with
  | None => [Message ERROR VALIDATOR_TAG (unidentified_body file_path)]
  | Some file_type => flat_map (contribution file_path file_type) vs
  end.

(** The file makes [validate_bag] fail. *)
Definition file_rejected (get_mime_type : string -> option string)
    (vs : list (selector * Plugin)) (file_path : string) : bool :=
  match get_mime_type file_path with
  | None => true
  | Some file_type => existsb (fails file_path file_type) vs
  end.

(** The summary that ends a report. *)
Definition summary (ok : bool) : message :=
  Message INFO VALIDATOR_TAG
    (if ok then POSITIVE_RESPONSE else NEGATIVE_RESPONSE).

End SpecFormat.

(** ** Predicates used in the statements about the bagit-based validators *)

Module SpecBagit.
Import Logging.

(** The Errors that one step of the payload integrity validation
    leaves: none when the step returns, a fixed one for a [ValueError],
    and for a [BagError] one per line of its message, each stripped of
    the characters of "WARNING" at both ends. *)
Definition step_errors (step : PayloadIntegrity.step_outcome) : list string :=
  match step with
  | PayloadIntegrity.StepOk => []
  | PayloadIntegrity.StepValueError =>
      ["Bad input for some internal bagit-method."]
  | PayloadIntegrity.StepBagError msg =>
      map (Str.strip "WARNING") (Str.split_lines msg)
  end.

Definition step_ok (step : PayloadIntegrity.step_outcome) : bool :=
  match step with
  | PayloadIntegrity.StepOk => true
  | _ => false
  end.

(** The log of a validator that finds no bagit.txt. *)
Definition no_bag_log (tag bagittxt info : string) : Logger :=
  [Message ERROR tag bagittxt; Message INFO tag info].

End SpecBagit.

(** ** file_format.py: the class [File] *)

Module File.

(** The ASCII characters for which [str.isspace] holds. *)
Definition is_space (c : ascii) : bool :=
  let n := nat_of_ascii c in
  ((9 <=? n)%nat && (n <=? 13)%nat) || ((28 <=? n)%nat && (n <=? 32)%nat).

Fixpoint lstrip_space (s : list ascii) : list ascii :=
  match s with
  | [] => []
  | c :: s' => if is_space c then lstrip_space s' else s
  end.

(** [s.strip()]. *)
Definition strip_space (s : list ascii) : list ascii :=
  rev (lstrip_space (rev (lstrip_space s))).

(** [s.split(sep)] for a separator of one character. *)
Fixpoint split (sep : ascii) (s : list ascii) : list (list ascii) :=
  match s with
  | [] => [[]]
  | c :: s' =>
      if Ascii.eqb c sep then [] :: split sep s'
      else match split sep s' with
           | field :: fields => (c :: field) :: fields
           | [] => [[c]]
           end
  end.

Definition tab : ascii := "009"%char.

(** [stdout.split("\n")[0].split("\t")[0].strip()]; the lists that
    [split] returns are never empty. *)
Definition first_mime_type (stdout : string) : string :=
  string_of_list_ascii
    (strip_space
       (hd [] (split tab
                 (hd [] (split Re.newline (list_ascii_of_string stdout)))))).

Record File := {
  file_path : string;
  file_type : option string
}.

Section Fido.

(** [run(["fido", "-matchprintf", ..., str(path)], capture_output=True,
    text=True, check=True)]: the standard output of fido, or [None] when
    the call raises [CalledProcessError]. *)
Variable fido : string -> option string.

(** [File.get_mime_type(path)]. *)
Definition get_mime_type (path : string) : option string :=
  match fido path with
  | None => None
  | Some stdout => Some (first_mime_type stdout)
  end.

(** [File(file_path, file_type)]. *)
Definition init (file_path : string) (file_type : option string) : File :=
  {| file_path := file_path;
     file_type := match file_type with
                  | None => get_mime_type file_path
                  | Some t => Some t
                  end |}.

End Fido.

End File.

(** ** file_format.py: the constructor of [FileFormatValidator] *)

Module FileFormatInit.
Import FileFormat.

(** The first component of an entry of [list_of_validators]: a list, a
    string, or any other object, given by its [str()]. *)
Inductive raw_selector :=
| RawList (types : list string)
| RawStr (pattern : string)
| RawOther (str_ : string).

Definition unknown_selector_message (plugin : Plugin) (str_ : string)
  : string :=
  "Unknown type selector for file format validator plugin: "
  +:+ PLUGIN_TAG plugin +:+ "; " +:+ str_.

(** The loop of [__init__] over [list_of_validators]; [validators] is
    [self.validators]. *)
Fixpoint init_loop (list_of_validators : list (raw_selector * Plugin))
    (validators : list (selector * Plugin))
  : result (list (selector * Plugin)) :=
  match list_of_validators with
  | [] => Ok validators
  | (RawList types, plugin) :: rest =>
      init_loop rest (validators ++ [(SelList types, plugin)])
  | (RawStr pattern, plugin) :: rest =>
      init_loop rest (validators ++ [(SelRegex pattern, plugin)])
  | (RawOther str_, plugin) :: _ =>
      Raise (ValueError (unknown_selector_message plugin str_))
  end.

(** [FileFormatValidator(list_of_validators)]. *)
Definition init (list_of_validators : list (raw_selector * Plugin))
  : result FileFormatValidator :=
  let* validators := init_loop list_of_validators [] in
  Ok {| validators := validators |}.

End FileFormatInit.

(** ** file_format_plugins/example.py *)

Module ExamplePlugin.
Import Logging.

Definition VALIDATOR_TAG : string := "File Extension Validator".

Definition MIME_TYPE_EXTENSION_MAP : list (string * list string) :=
  [("text/csv", ["csv"]);
   ("text/html", ["html"; "htm"]);
   ("text/plain", ["txt"; "text"; "conf"; "def"; "list"; "log"; "in"]);
   ("image/bmp", ["bmp"]);
   ("image/gif", ["gif"]);
   ("image/tiff", ["tiff"; "tif"]);
   ("image/png", ["png"]);
   ("image/jpeg", ["jpeg"; "jpg"; "jpe"]);
   ("video/webm", ["webm"]);
   ("video/x-matroska", ["mkv"; "mk3d"; "mks"])].

Definition DEFAULT_FILE_FORMATS : list string :=
  map fst MIME_TYPE_EXTENSION_MAP.

(** [d[key]] on the items of a dict; [None] when [key not in d]. *)
Fixpoint lookup (key : string) (d : list (string * list string))
  : option (list string) :=
  match d with
  | [] => None
  | (k, v) :: d' => if String.eqb k key then Some v else lookup key d'
  end.

(** [PurePath.name]: the last component of the path, and the empty
    string for a path without a component. *)
Definition name (p : list ascii) : list ascii :=
  default [] (last (PurePath.parse_parts (snd (PurePath.splitroot p)))).

(** [s.rfind(".")]; [None] stands for -1. *)
Fixpoint rfind_dot (s : list ascii) : option nat :=
  match s with
  | [] => None
  | c :: s' =>
      match rfind_dot s' with
      | Some i => Some (S i)
      | None => if Ascii.eqb c "." then Some 0 else None
      end
  end.

(** [PurePath.suffix]: [name[i:]] for the last dot [i] of the name when
    [0 < i < len(name) - 1], and the empty string otherwise. *)
Definition suffix (p : list ascii) : list ascii :=
  let name := name p in
  match rfind_dot name with
  | Some i =>
      if (0 <? i)%nat && (i <? length name - 1)%nat then drop i name else []
  | None => []
  end.

(** [file_path.suffix.lower().strip(".")]. *)
Definition extension (file_path : string) : string :=
  Str.strip "."
    (Str.lower
       (string_of_list_ascii (suffix (list_ascii_of_string file_path)))).

Definition invalid_body (file_path : string) : string :=
  "'" +:+ file_path +:+ "' has unknown type or invalid extension.".

(** [validate_file_format(file_path, file_type)]: the exit code and
    [self.log] after the call. *)
Definition validate_file_format (file_path file_type : string)
  : Z * Logger :=
  let log0 : Logger := [] in
  let is_plausible :=
    match lookup file_type MIME_TYPE_EXTENSION_MAP with
    | Some extensions => bool_decide (extension file_path ∈ extensions)
    | None => true
    end in
  if is_plausible then (0%Z, log0)
  else (1%Z,
        log ERROR VALIDATOR_TAG
          (invalid_body (PurePath.as_posix file_path)) log0).

Definition plugin : FileFormat.Plugin := {|
  FileFormat.PLUGIN_TAG := VALIDATOR_TAG;
  FileFormat.validate_file_format := validate_file_format
|}.

End ExamplePlugin.

(** ** Predicates used in the statements about the constructor *)

Module SpecInit.
Import FileFormat FileFormatInit.

(** The entry as the constructor stores it, when its selector is a list
    or a string. *)
Definition typed (entry : raw_selector * Plugin)
  : option (selector * Plugin) :=
  match entry with
  | (RawList types, plugin) => Some (SelList types, plugin)
  | (RawStr pattern, plugin) => Some (SelRegex pattern, plugin)
  | (RawOther _, _) => None
  end.

End SpecInit.

(** ** bagit_profile.py: [validate_bag_info] *)

Module BagInfo.

(** A value of [bag.info]: a string, or a list of strings for a tag
    that occurs more than once. *)
Inductive tag_value :=
| One (value : string)
| Many (values : list string).

(** Of the validator: [self.ignore_baginfo_tag_case], and the items of
    [self.profile["Bag-Info"]] in the order of the profile, each tag
    with [config["description"]] when the key is in [config]; [None]
    when the profile has no key "Bag-Info". *)
Record ProfileValidator := {
  ignore_baginfo_tag_case : bool;
  Bag_Info : option (list (string * option string))
}.

(** Of the bag: [str(bag)], whether [bag.path / "bag-info.txt"] is a
    file, and the items of [bag.info] in their order. *)
Record Bag := {
  bag_str : string;
  has_bag_info_txt : bool;
  info : list (string * tag_value)
}.

(** The exceptions that leave [validate_bag_info]. *)
Inductive failure :=
| AssertionError
| KeyError (key : string)
| PatternError (pattern : string).

Inductive outcome (A : Type) :=
| Returns (a : A)
| Raises (e : failure).
Arguments Returns {A} a.
Arguments Raises {A} e.

(** [self.report.errors], and [None] when [self.report] is no
    [ProfileValidationReport]. *)
Definition report : Type := option (list string).

(** A method that reads and extends the report. *)
Definition M (A : Type) : Type := report -> outcome A * report.

Definition ret {A} (a : A) : M A := fun r => (Returns a, r).

Definition raise {A} (e : failure) : M A := fun r => (Raises e, r).

Definition bind {A B} (m : M A) (k : A -> M B) : M B :=
  fun r =>
    match m r with
    | (Returns a, r') => k a r'
    | (Raises e, r') => (Raises e, r')
    end.

Notation "'let+' x ':=' m 'in' k" := (bind m (fun x => k))
  (at level 10, x name, m at level 100, k at level 200).

(** [self._fail(msg)]. *)
Definition _fail (msg : string) : M unit :=
  fun r =>
    match r with
    | Some errors => (Returns tt, Some (errors ++ [msg]))
    | None => (Raises AssertionError, None)
    end.

Definition not_present_body (bag : Bag) : string :=
  bag_str bag +:+ ": bag-info.txt is not present.".

Definition description_body (bag : Bag) (tag value : string) : string :=
  bag_str bag +:+ ": Description Tag " +:+ tag
  +:+ " is present in bag-info.txt but its value is not allowed: ('"
  +:+ value +:+ "').".

(** The dict of the items, a later item replacing an earlier one with
    the same key. *)
Definition dict_of_items (items : list (string * tag_value))
  : gmap string tag_value :=
  fold_left (fun d kv => <[fst kv := snd kv]> d) items ∅.

Section Library.

(** [self.normalize_tag] of bagit_profile, and the messages for which
    [super().validate_bag_info(bag)] calls [self._fail], in the order
    of the calls. *)
Variable normalize_tag : string -> string.
Variable library_failures : Bag -> list string.

Fixpoint fail_each (msgs : list string) : M unit :=
  match msgs with
  | [] => ret tt
  | msg :: rest => let+ _ := _fail msg in fail_each rest
  end.

(** The dict [bag_info]. *)
Definition bag_info (self : ProfileValidator) (bag : Bag)
  : gmap string tag_value :=
  if ignore_baginfo_tag_case self
  then dict_of_items (map (fun kv => (normalize_tag (fst kv), snd kv))
                        (info bag))
  else dict_of_items (info bag).

(** The loop over the values of a tag. *)
Fixpoint check_values (bag : Bag) (tag description : string)
    (values : list string) : M unit :=
  match values with
  | [] => ret tt
  | value :: rest =>
      match Re.compile description with
      | None => raise (PatternError description)
      | Some rx =>
          if Re.fullmatch rx (list_ascii_of_string value)
          then check_values bag tag description rest
          else let+ _ := _fail (description_body bag tag value) in
               check_values bag tag description rest
      end
  end.

(** The loop over the tags of the profile. *)
Fixpoint check_tags (bag : Bag) (bag_info : gmap string tag_value)
    (tags : list (string * option string)) : M unit :=
  match tags with
  | [] => ret tt
  | (tag, config) :: rest =>
      match config, bag_info !! normalize_tag tag with
      | Some description, Some found =>
          let values :=
            match found with
            | Many values => values
            | One value => [value]
            end in
          let+ _ := check_values bag tag description values in
          check_tags bag bag_info rest
      | _, _ => check_tags bag bag_info rest
      end
  end.

(** [validate_bag_info(bag)]. *)
Definition validate_bag_info (self : ProfileValidator) (bag : Bag)
  : M bool :=
  let+ _ := fail_each (library_failures bag) in
  let+ _ := (if has_bag_info_txt bag then ret tt
             else _fail (not_present_body bag)) in
  let bag_info := bag_info self bag in
  match Bag_Info self with
  | None => raise (KeyError "Bag-Info")
  | Some tags =>
      let+ _ := check_tags bag bag_info tags in
      ret true
  end.

End Library.

End BagInfo.

(** ** Predicates used in the statements about [validate_bag_info] *)

Module SpecBagInfo.
Import BagInfo.

(** The value matches the description as a whole. *)
Definition allowed (description value : string) : bool :=
  match Re.compile description with
  | Some rx => Re.fullmatch rx (list_ascii_of_string value)
  | None => false
  end.

Definition values_of (found : tag_value) : list string :=
  match found with
  | Many values => values
  | One value => [value]
  end.

(** The messages for one tag of the profile: one for each value of the
    tag in the bag that its description does not allow. *)
Definition tag_messages (bag : Bag) (bag_info : gmap string tag_value)
    (normalize_tag : string -> string) (entry : string * option string)
  : list string :=
  match snd entry, bag_info !! normalize_tag (fst entry) with
  | Some description, Some found =>
      map (description_body bag (fst entry))
        (List.filter (fun value => negb (allowed description value))
           (values_of found))
  | _, _ => []
  end.

(** The description of every tag of the profile compiles. *)
Definition descriptions_compile (tags : list (string * option string))
  : Prop :=
  Forall (fun entry =>
            forall description,
              snd entry = Some description ->
              is_Some (Re.compile description)) tags.

(** The report after the messages have been passed to [_fail]. *)
Definition extended (r : report) (msgs : list string)
  : outcome unit * report :=
  match msgs, r with
  | [], _ => (Returns tt, r)
  | _, Some errors => (Returns tt, Some (errors ++ msgs))
  | _ :: _, None => (Raises AssertionError, None)
  end.

End SpecBagInfo.

(** ** file_format_plugins/jhove.py *)

Module Jhove.
Import Logging.

(** The values that [json.loads] and [xmltodict.parse] return; a number
    is given by its [str()], a dict by its items. *)
#[warnings="-register-all"]
Inductive value :=
| VNone
| VBool (b : bool)
| VNum (str_ : string)
| VStr (s : string)
| VList (items : list value)
| VDict (items : list (string * value)).

(** The exceptions that leave the plugin: those of the operations on
    the values, and any exception of [run], [json.loads] or [xml_parse]
    other than [CalledProcessError], given by its name. *)
Inductive failure :=
| TypeError
| KeyError (key : string)
| Uncaught (name : string).

Inductive outcome (A : Type) :=
| Returns (a : A)
| Raises (e : failure).
Arguments Returns {A} a.
Arguments Raises {A} e.

Definition bind {A B} (m : outcome A) (k : A -> outcome B) : outcome B :=
  match m with
  | Returns a => k a
  | Raises e => Raises e
  end.

Notation "'let+' x ':=' m 'in' k" := (bind m (fun x => k))
  (at level 10, x name, m at level 100, k at level 200).

(** What [run(..., check=True)] does. *)
Inductive completed :=
| Completed (stdout : string)
| CalledProcessError
| RunError (name : string).

(** [d[key]] on the items of a dict. *)
Fixpoint lookup {A} (key : string) (d : list (string * A)) : option A :=
  match d with
  | [] => None
  | (k, v) :: d' => if String.eqb k key then Some v else lookup key d'
  end.

(** [key in x]: a key of a dict, an item of a list, a substring of a
    string. *)
Definition contains_ (key : string) (x : value) : outcome bool :=
  match x with
  | VDict items => Returns (bool_decide (is_Some (lookup key items)))
  | VList items =>
      Returns (existsb (fun item =>
                          match item with
                          | VStr s => String.eqb s key
                          | _ => false
                          end) items)
  | VStr s => Returns (Str.contains key s)
  | VNone | VBool _ | VNum _ => Raises TypeError
  end.

(** [x[key]] for a string [key]. *)
Definition getitem (x : value) (key : string) : outcome value :=
  match x with
  | VDict items =>
      match lookup key items with
      | Some v => Returns v
      | None => Raises (KeyError key)
      end
  | _ => Raises TypeError
  end.

(** The items that [for item in x] visits. *)
Definition iter (x : value) : outcome (list value) :=
  match x with
  | VList items => Returns items
  | VDict items => Returns (map (fun kv => VStr (fst kv)) items)
  | VStr s =>
      Returns (map (fun c => VStr (String c EmptyString))
                 (list_ascii_of_string s))
  | VNone | VBool _ | VNum _ => Raises TypeError
  end.

(** [x + s] for a string [s]. *)
Definition add_str (x : value) (s : string) : outcome value :=
  match x with
  | VStr t => Returns (VStr (t +:+ s))
  | _ => Raises TypeError
  end.

(** [x == "info"]. *)
Definition is_info (x : value) : bool :=
  match x with
  | VStr s => String.eqb s "info"
  | _ => false
  end.

(** [jhove_app] and [jhove_conf_path]: a string or a [Path]. *)
Inductive str_or_path :=
| AStr (s : string)
| APath (p : string).

(** [bool(x)] for an optional string or path. *)
Definition truthy (x : option str_or_path) : bool :=
  match x with
  | None => false
  | Some (AStr s) => negb (String.eqb s "")
  | Some (APath _) => true
  end.

(** [str(x)]. *)
Definition str_of (x : str_or_path) : string :=
  match x with
  | AStr s => s
  | APath p => PurePath.as_posix p
  end.

Record JhovePlugin := {
  jhove : str_or_path;
  jhove_conf_path : option str_or_path
}.

Record JhoveResponseDict := {
  info : list value;
  error : list value
}.

Definition FILETYPE_MODULES : list (string * list string) :=
  [("", ["text/plain"]);
   ("AIFF-hul", ["audio/x-aiff"]);
   ("GIF-hul", ["image/gif"]);
   ("HTML-hul", ["text/html"]);
   ("JPEG-hul", ["image/jpeg"]);
   ("JPEG2000-hul", ["image/jp2"; "image/jpx"]);
   ("PDF-hul", ["application/pdf"]);
   ("TIFF-hul", ["image/tiff"; "image/tiff-fx"; "image/ief"]);
   ("WAVE-hul", ["audio/vnd.wave"]);
   ("XML-hul", ["text/xml"]);
   ("PNG-gdm", ["image/png"])].

Definition DEFAULT_FILE_FORMATS : list string :=
  concat (map snd FILETYPE_MODULES).

Definition VALIDATOR_TAG : string := "JHOVE-Plugin".

(** [JhovePlugin(jhove_app, jhove_conf_path)]; [environ] is
    [os.environ.get]. *)
Definition init (environ : string -> option string)
    (jhove_app jhove_conf_path : option str_or_path) : JhovePlugin :=
  {| jhove :=
       match jhove_app with
       | Some app =>
           if truthy jhove_app then app
           else AStr (default "jhove"
                        (Str.or_ (environ "JHOVE_APP") (Some "jhove")))
       | None =>
           AStr (default "jhove"
                   (Str.or_ (environ "JHOVE_APP") (Some "jhove")))
       end;
     jhove_conf_path :=
       if truthy jhove_conf_path then jhove_conf_path
       else option_map AStr (environ "JHOVE_APP_CONF") |}.

(** The loop of [_find_key_for_value] over the items of the dict. *)
Fixpoint find_key (modules : list (string * list string))
    (search_value : string) : option string :=
  match modules with
  | [] => None
  | (key, values) :: rest =>
      if existsb (Str.contains (Str.lower search_value)) values
      then Some key
      else find_key rest search_value
  end.

Definition _find_key_for_value (search_value : string) : option string :=
  find_key FILETYPE_MODULES search_value.

Definition _default_command (self : JhovePlugin) : list string :=
  if truthy (jhove_conf_path self)
  then [str_of (jhove self); "-l OFF"; "-e utf8"; "-c";
        match jhove_conf_path self with
        | Some conf => str_of conf
        | None => "None"
        end]
  else [str_of (jhove self); "-l OFF"; "-e utf8"].

Definition no_module_body (path_str file_type : string) : string :=
  "File '" +:+ path_str +:+ "' unchecked by jhove, "
  +:+ "no suitable module found for " +:+ file_type +:+ ".".

Definition well_formed_body (path_str : string) : string :=
  "File '" +:+ path_str +:+ "' is well-formed.".

Definition unable_response (path_str module : string) : JhoveResponseDict :=
  {| info := [];
     error := [VStr (VALIDATOR_TAG +:+ ": File '" +:+ path_str
                     +:+ "', unable to invoke jhove" +:+ " with module '"
                     +:+ module +:+ "'.")] |}.

Definition bad_response (path_str : string) : JhoveResponseDict :=
  {| info := [];
     error := [VStr (VALIDATOR_TAG +:+ ": File '" +:+ path_str
                     +:+ "', jhove gave bad response.")] |}.

Definition empty_response : JhoveResponseDict :=
  {| info := []; error := [] |}.

(** [result[target].append(_message)]. *)
Definition append_to (info_target : bool) (_message : value)
    (result : JhoveResponseDict) : JhoveResponseDict :=
  if info_target
  then {| info := info result ++ [_message]; error := error result |}
  else {| info := info result; error := error result ++ [_message] |}.

Section Collaborators.

(** [subprocess.run], [json.loads], [xmltodict.parse], the [str()] of a
    list or a dict, and what [Logger.log] adds for a body that is no
    string. *)
Variable run : list string -> completed.
Variable json_loads : string -> outcome value.
Variable xml_parse : string -> outcome value.
Variable container_str : value -> string.
Variable log_other : Context -> value -> Logger -> Logger.

(** [f"{x}"]. *)
Definition format (x : value) : string :=
  match x with
  | VNone => "None"
  | VBool true => "True"
  | VBool false => "False"
  | VNum s => s
  | VStr s => s
  | VList _ | VDict _ => container_str x
  end.

(** The body of the loops of [_call_json] and [_call_xml] over the
    messages; the two differ in the keys only. *)
Definition add_message (severity_key text_key id_key : string)
    (result : JhoveResponseDict) (message : value)
  : outcome JhoveResponseDict :=
  let+ has_severity := contains_ severity_key message in
  if has_severity then
    let+ severity := getitem message severity_key in
    let+ text := getitem message text_key in
    let+ has_id := contains_ id_key message in
    let+ _message :=
      (if has_id then
         let+ id := getitem message id_key in
         add_str text (" (" +:+ format id +:+ ")")
       else Returns text) in
    Returns (append_to (is_info severity) _message result)
  else Returns result.

Fixpoint add_messages (severity_key text_key id_key : string)
    (messages : list value) (result : JhoveResponseDict)
  : outcome JhoveResponseDict :=
  match messages with
  | [] => Returns result
  | message :: rest =>
      let+ result' :=
        add_message severity_key text_key id_key result message in
      add_messages severity_key text_key id_key rest result'
  end.

(** [_call_json] after [json.loads]. *)
Definition json_result (path_str : string) (jhove_returned : value)
  : outcome JhoveResponseDict :=
  let+ has_jhove := contains_ "jhove" jhove_returned in
  if has_jhove then
    let+ jhove_ := getitem jhove_returned "jhove" in
    match jhove_ with
    | VDict _ =>
        let+ has_rep_info := contains_ "repInfo" jhove_ in
        if has_rep_info then
          let+ rep_info := getitem jhove_ "repInfo" in
          match rep_info with
          | VList (first :: _) =>
              let+ has_messages := contains_ "messages" first in
              if has_messages then
                let+ messages := getitem first "messages" in
                let+ items := iter messages in
                add_messages "severity" "message" "id" items empty_response
              else Returns empty_response
          | _ => Returns (bad_response path_str)
          end
        else Returns (bad_response path_str)
    | _ => Returns (bad_response path_str)
    end
  else Returns (bad_response path_str).

(** [_call_xml] after [xml_parse]. *)
Definition xml_result (path_str : string) (jhove_returned : value)
  : outcome JhoveResponseDict :=
  let+ has_jhove := contains_ "jhove" jhove_returned in
  if has_jhove then
    let+ jhove_ := getitem jhove_returned "jhove" in
    match jhove_ with
    | VDict _ =>
        let+ has_rep_info := contains_ "repInfo" jhove_ in
        if has_rep_info then
          let+ rep_info := getitem jhove_ "repInfo" in
          match rep_info with
          | VDict _ =>
              let+ has_messages := contains_ "messages" rep_info in
              if has_messages then
                let+ messages := getitem rep_info "messages" in
                match messages with
                | VDict _ =>
                    let+ has_message := contains_ "message" messages in
                    if has_message then
                      let+ message := getitem messages "message" in
                      let items :=
                        match message with
                        | VList items => items
                        | _ => [message]
                        end in
                      add_messages "@severity" "#text" "@id" items
                        empty_response
                    else Returns empty_response
                | _ => Returns empty_response
                end
              else Returns empty_response
          | _ => Returns empty_response
          end
        else Returns (bad_response path_str)
    | _ => Returns (bad_response path_str)
    end
  else Returns (bad_response path_str).

(** [_call_json(command, file_path)]; [path_str] is [str(file_path)]. *)
Definition _call_json (command : list string) (path_str : string)
  : outcome (option JhoveResponseDict) :=
  match run (command ++ ["-h"; "JSON"; path_str]) with
  | CalledProcessError => Returns None
  | RunError name => Raises (Uncaught name)
  | Completed stdout =>
      let+ jhove_returned := json_loads stdout in
      let+ result := json_result path_str jhove_returned in
      Returns (Some result)
  end.

Definition _call_xml (command : list string) (path_str : string)
  : outcome (option JhoveResponseDict) :=
  match run (command ++ ["-h"; "XML"; path_str]) with
  | CalledProcessError => Returns None
  | RunError name => Raises (Uncaught name)
  | Completed stdout =>
      let+ jhove_returned := xml_parse stdout in
      let+ result := xml_result path_str jhove_returned in
      Returns (Some result)
  end.

(** [_check_file(file_path, module)]. *)
Definition _check_file (self : JhovePlugin) (path_str module : string)
  : outcome JhoveResponseDict :=
  let command :=
    if negb (String.eqb module "")
    then _default_command self ++ ["-m"; module]
    else _default_command self in
  let+ result := _call_json command path_str in
  let+ result :=
    match result with
    | None => _call_xml command path_str
    | Some _ => Returns result
    end in
  match result with
  | None => Returns (unable_response path_str module)
  | Some result => Returns result
  end.

(** [self.log.log(context, body=message)]. *)
Definition log_value (context : Context) (message : value) (l : Logger)
  : Logger :=
  match message with
  | VStr body => log context VALIDATOR_TAG body l
  | _ => log_other context message l
  end.

(** [validate_file_format(file_path, file_type)] for the [Path]
    [file_path]: the exit code or the exception, and [self.log] after
    the call. *)
Definition validate_file_format (self : JhovePlugin)
    (file_path file_type : string) : outcome Z * Logger :=
  let log0 : Logger := [] in
  let path_str := PurePath.as_posix file_path in
  match _find_key_for_value file_type with
  | None =>
      (Returns 1%Z,
       log ERROR VALIDATOR_TAG (no_module_body path_str file_type) log0)
  | Some key =>
      match _check_file self path_str key with
      | Raises e => (Raises e, log0)
      | Returns result =>
          let log1 :=
            fold_left (fun l message => log_value INFO message l)
              (info result) log0 in
          match error result with
          | [] =>
              (Returns 0%Z,
               log INFO VALIDATOR_TAG (well_formed_body path_str) log1)
          | _ :: _ =>
              (Returns 1%Z,
               fold_left (fun l message => log_value ERROR message l)
                 (error result) log1)
          end
      end
  end.

End Collaborators.

End Jhove.

(** ** Predicates used in the statements about the jhove plugin *)

Module SpecJhove.
Import Jhove.

(** The value of the severity key of a message, when the message is a
    dict with that key. *)
Definition severity_of (severity_key : string) (message : value)
  : option value :=
  match message with
  | VDict fields => lookup severity_key fields
  | _ => None
  end.

(** The message has a severity other than "info". *)
Definition counts_as_error (severity_key : string) (message : value)
  : bool :=
  match severity_of severity_key message with
  | Some severity => negb (is_info severity)
  | None => false
  end.

(** A message as jhove writes it: a dict whose text is a string when it
    has a severity. *)
Definition readable (severity_key text_key : string) (message : value)
  : Prop :=
  exists fields,
    message = VDict fields /\
    (is_Some (lookup severity_key fields) ->
     exists text, lookup text_key fields = Some (VStr text)).

(** The messages of the result are strings. *)
Definition strings (result : JhoveResponseDict) : Prop :=
  Forall (fun v => exists s, v = VStr s) (info result) /\
  Forall (fun v => exists s, v = VStr s) (error result).

(** The command of [_check_file] without the output format. *)
Definition command (self : JhovePlugin) (module : string) : list string :=
  _default_command self
  ++ (if String.eqb module "" then [] else ["-m"; module]).

End SpecJhove.

(** ** Further profiles and bags for the examples *)

Module FixtureMore.

(** A profile that requires a directory and does not restrict the
    allowed ones. *)
Definition required_only_profile : PayloadStructure.Profile := {|
  PayloadStructure.Payload_Folders_Allowed := None;
  PayloadStructure.Payload_Folders_Required := Some ["required_directory"]
|}.

Definition required_only_validator
  : PayloadStructure.PayloadStructureValidator := {|
  PayloadStructure.url := "REQUIRED_ONLY";
  PayloadStructure.profile := required_only_profile;
  PayloadStructure.allowed :=
    [{| PayloadStructure.string_ := ".*";
        PayloadStructure.is_regex := true |}];
  PayloadStructure.required :=
    [{| PayloadStructure.string_ := "required_directory";
        PayloadStructure.is_regex := false |}]
|}.

(** The format validator of test_example_plugin_valid_file_format_types_as_list
    with a plugin that accepts every file. *)
Definition text_validator : FileFormat.FileFormatValidator := {|
  FileFormat.validators :=
    [(FileFormat.SelList ["text/plain"], Fixture.accepting_plugin)]
|}.

(** A bag that opens, passes the serialization check and fails the
    profile check with one error in the report. *)
Definition nonconforming_bagit : BagitProfile.Bagit := {|
  BagitProfile.bag_error := None;
  BagitProfile.bag_str := "tmp/example_bag_copy";
  BagitProfile.serialization_ok := true;
  BagitProfile.profile_ok := false;
  BagitProfile.report_errors :=
    Some ["tmp/example_bag_copy: Required tag 'Source-Organization' is not "
          +:+ "present in bag-info.txt."]
|}.

(** The output of fido on the payload of [Fixture.fido]. *)
Definition fido_run (path : string) : option string :=
  if String.eqb path "data/readme.txt"
  then Some ("text/plain" +:+ String "009" "extension"
             +:+ String "009" "Plain Text File" +:+ String "010" "")
  else if String.eqb path "data/sample.png"
  then Some ("image/png" +:+ String "009" "signature"
             +:+ String "009" "PNG" +:+ String "010" "")
  else None.

(** The profile and the bag of test_validate_bag_info, with the
    description written with the digit class. *)
Definition described_profile : BagInfo.ProfileValidator := {|
  BagInfo.ignore_baginfo_tag_case := false;
  BagInfo.Bag_Info := Some [("Property", Some "\d*")]
|}.

Definition described_bag : BagInfo.Bag := {|
  BagInfo.bag_str := "bag";
  BagInfo.has_bag_info_txt := true;
  BagInfo.info := [("Property", BagInfo.Many ["bad-value"; "1"])]
|}.

(** The plugin without arguments and without environment variables. *)
Definition jhove_plugin : Jhove.JhovePlugin :=
  Jhove.init (fun _ => None) None None.

(** The reports of test_jhove.py after [json.loads] and [xml_parse]. *)
Definition response_bad_json : Jhove.value :=
  Jhove.VDict
    [("jhove",
      Jhove.VDict
        [("repInfo",
          Jhove.VList
            [Jhove.VDict
               [("messages",
                 Jhove.VList
                   [Jhove.VDict
                      [("message", Jhove.VStr "Error message");
                       ("severity", Jhove.VStr "error");
                       ("id", Jhove.VStr "module-id")]])]])])].

Definition response_bad_xml : Jhove.value :=
  Jhove.VDict
    [("jhove",
      Jhove.VDict
        [("repInfo",
          Jhove.VDict
            [("messages",
              Jhove.VDict
                [("message",
                  Jhove.VDict
                    [("@severity", Jhove.VStr "error");
                     ("@id", Jhove.VStr "module-id");
                     ("#text", Jhove.VStr "Error message")])])])])].

(** A jhove that answers every call, and one that fails unless the
    handler is XML. *)
Definition run_any (command : list string) : Jhove.completed :=
  Jhove.Completed "response_bad_json".

Definition run_xml_only (command : list string) : Jhove.completed :=
  if bool_decide ("XML" ∈ command)
  then Jhove.Completed "response_bad_xml"
  else Jhove.CalledProcessError.

(** As [run_xml_only] on the calls with a handler, and failing
    otherwise. *)
Definition run_handlers_only (command : list string) : Jhove.completed :=
  if bool_decide ("XML" ∈ command)
  then Jhove.Completed "response_bad_xml"
  else if bool_decide ("JSON" ∈ command)
       then Jhove.CalledProcessError
       else Jhove.RunError "FileNotFoundError".

Definition json_loads (stdout : string) : Jhove.outcome Jhove.value :=
  Jhove.Returns response_bad_json.

Definition xml_parse (stdout : string) : Jhove.outcome Jhove.value :=
  Jhove.Returns response_bad_xml.

Definition container_str (x : Jhove.value) : string := "[]".

Definition log_other (context : Logging.Context) (x : Jhove.value)
    (l : Logging.Logger) : Logging.Logger := l.

End FixtureMore.

(** * Properties *)

(** ** The matcher of [Re] decides the language of a pattern *)

Section ReFacts.
Import Re.

Lemma lang_cat_inv (r1 r2 : regex) (w : list ascii) :
  lang (Cat r1 r2) w ->
  exists u v, w = (u ++ v)%list /\ lang r1 u /\ lang r2 v.
Proof. inversion 1; subst; eauto. Qed.

Lemma lang_alt_inv (r1 r2 : regex) (w : list ascii) :
  lang (Alt r1 r2) w -> lang r1 w \/ lang r2 w.
Proof. inversion 1; subst; eauto. Qed.

Lemma lang_cat_cons (r1 r2 : regex) (c : ascii) (u v : list ascii) :
  lang r1 (c :: u) -> lang r2 v -> lang (Cat r1 r2) (c :: u ++ v)%list.
Proof.
  intros Hu Hv. change (c :: u ++ v)%list with ((c :: u) ++ v)%list.
  now constructor.
Qed.

Lemma nullable_spec (r : regex) : nullable r = true <-> lang r [].
Proof.
  induction r as [| | c | | | r1 IH1 r2 IH2 | r1 IH1 r2 IH2 | r IH]; simpl.
  - split; [discriminate | inversion 1].
  - split; [constructor | reflexivity].
  - split; [discriminate | inversion 1].
  - split; [discriminate | inversion 1].
  - split; [discriminate | inversion 1].
  - rewrite andb_true_iff, IH1, IH2. split.
    + intros [H1 H2]. change (@nil ascii) with (@nil ascii ++ [])%list.
      now constructor.
    + intros H. apply lang_cat_inv in H as (u & v & Heq & Hu & Hv).
      symmetry in Heq. apply app_eq_nil in Heq as [-> ->]. now split.
  - rewrite orb_true_iff, IH1, IH2. split.
    + intros [H | H]; [now apply lang_alt_l | now apply lang_alt_r].
    + apply lang_alt_inv.
  - split; [constructor | reflexivity].
Qed.

Lemma lang_star_cons (r : regex) (c : ascii) (s : list ascii) :
  lang (Star r) (c :: s) ->
  exists u v, s = (u ++ v)%list /\ lang r (c :: u) /\ lang (Star r) v.
Proof.
  intros H. remember (Star r) as sr eqn:Hsr. remember (c :: s) as cs eqn:Hcs.
  revert s Hcs.
  induction H as [| | | | | | | | r' u v Hu _ Hv IHv]; intros t Hcs;
    try discriminate.
  injection Hsr as ->.
  destruct u as [|a u'].
  - simpl in Hcs. now apply IHv.
  - simpl in Hcs. injection Hcs as -> <-. exists u', v. now repeat split.
Qed.

Lemma deriv_spec (c : ascii) (r : regex) (s : list ascii) :
  lang (deriv c r) s <-> lang r (c :: s).
Proof.
  revert s.
  induction r as [| | d | | | r1 IH1 r2 IH2 | r1 IH1 r2 IH2 | r IH];
    intros s; simpl.
  - split; inversion 1.
  - split; inversion 1.
  - destruct (Ascii.eqb_spec c d) as [->|Hne].
    + split; inversion 1; subst; constructor.
    + split; inversion 1; subst; congruence.
  - destruct (Ascii.eqb_spec c newline) as [->|Hne].
    + split; inversion 1; subst; congruence.
    + split; inversion 1; subst; now constructor.
  - destruct (is_digit c) eqn:Hd.
    + split; inversion 1; subst; now constructor.
    + split; inversion 1; subst; congruence.
  - destruct (nullable r1) eqn:Hn.
    + split.
      * intros H. apply lang_alt_inv in H as [H | H].
        -- apply lang_cat_inv in H as (u & v & -> & Hu & Hv).
           apply lang_cat_cons; [now apply IH1 | assumption].
        -- change (c :: s) with ([] ++ c :: s)%list. constructor.
           ++ now apply nullable_spec.
           ++ now apply IH2.
      * intros H. apply lang_cat_inv in H as (u & v & Heq & Hu & Hv).
        destruct u as [|a u'].
        -- simpl in Heq. subst v. apply lang_alt_r. now apply IH2.
        -- simpl in Heq. injection Heq as <- ->. apply lang_alt_l.
           constructor; [now apply IH1 | assumption].
    + split.
      * intros H. apply lang_cat_inv in H as (u & v & -> & Hu & Hv).
        apply lang_cat_cons; [now apply IH1 | assumption].
      * intros H. apply lang_cat_inv in H as (u & v & Heq & Hu & Hv).
        destruct u as [|a u'].
        -- apply nullable_spec in Hu. congruence.
        -- simpl in Heq. injection Heq as <- ->.
           constructor; [now apply IH1 | assumption].
  - split; intros H; apply lang_alt_inv in H as [H | H].
    + apply lang_alt_l. now apply IH1.
    + apply lang_alt_r. now apply IH2.
    + apply lang_alt_l. now apply IH1.
    + apply lang_alt_r. now apply IH2.
  - split.
    + intros H. apply lang_cat_inv in H as (u & v & -> & Hu & Hv).
      change (c :: u ++ v)%list with ((c :: u) ++ v)%list.
      constructor; [now apply IH | assumption].
    + intros H. apply lang_star_cons in H as (u & v & -> & Hu & Hv).
      constructor; [now apply IH | assumption].
Qed.

Lemma fullmatch_spec (r : regex) (s : list ascii) :
  fullmatch r s = true <-> lang r s.
Proof.
  revert r. induction s as [|c s IH]; intros r; simpl.
  - apply nullable_spec.
  - rewrite IH. apply deriv_spec.
Qed.

Lemma match_spec (r : regex) (s : list ascii) :
  match_ r s = true <-> exists u v, s = (u ++ v)%list /\ lang r u.
Proof.
  revert r. induction s as [|c s IH]; intros r; simpl.
  - rewrite orb_false_r, nullable_spec. split.
    + intros H. now exists [], [].
    + intros (u & v & Heq & Hu). symmetry in Heq.
      apply app_eq_nil in Heq as [-> _]. assumption.
  - rewrite orb_true_iff, nullable_spec, IH. split.
    + intros [H | (u & v & -> & Hu)].
      * now exists [], (c :: s).
      * exists (c :: u), v. split; [reflexivity | now apply deriv_spec].
    + intros (u & v & Heq & Hu). destruct u as [|a u'].
      * now left.
      * simpl in Heq. injection Heq as <- ->. right.
        exists u', v. split; [reflexivity | now apply deriv_spec].
Qed.

End ReFacts.

(** ** The pattern reconciler [match_any_regex] *)

Section MatchFacts.
Import PayloadStructure Spec.

Lemma match_any_regex_loop_spec (path : string)
    (rules : list PayloadFolderDict) (force : bool) :
  Forall (rule_compiles force) rules ->
  exists b, match_any_regex_loop path rules force = Ok b /\
            (b = true <-> Exists (rule_matches force path) rules).
Proof.
  induction 1 as [|rule rules Hrule _ IH]; simpl.
  - exists false. split; [reflexivity|]. split; [discriminate | inversion 1].
  - destruct IH as (b & Hb & Hiff).
    unfold rule_compiles, rule_matches, tested_as_regex in *.
    destruct (force || is_regex rule) eqn:Hkind.
    + destruct (Hrule eq_refl) as [rx Hrx]. rewrite Hrx.
      destruct (Re.match_ rx (list_ascii_of_string path)) eqn:Hm.
      * exists true. split; [reflexivity|]. split; [|reflexivity].
        intros _. apply Exists_cons_hd. rewrite Hkind.
        apply match_spec in Hm as (u & v & Huv & Hu). now exists rx, u, v.
      * exists b. split; [assumption|]. rewrite Hiff. split.
        -- now apply Exists_cons_tl.
        -- intros HE. apply Exists_cons in HE as [Hhd | Htl]; [|assumption].
           rewrite Hkind in Hhd. destruct Hhd as (rx' & u & v & Hc & Huv & Hu).
           assert (rx' = rx) by congruence. subst rx'.
           assert (Re.match_ rx (list_ascii_of_string path) = true)
             by (apply match_spec; now exists u, v).
           congruence.
    + destruct (String.eqb_spec (PurePath.as_posix (string_ rule)) path)
        as [Heq | Hne].
      * exists true. split; [reflexivity|]. split; [|reflexivity].
        intros _. apply Exists_cons_hd. now rewrite Hkind.
      * exists b. split; [assumption|]. rewrite Hiff. split.
        -- now apply Exists_cons_tl.
        -- intros HE. apply Exists_cons in HE as [Hhd | Htl]; [|assumption].
           rewrite Hkind in Hhd. contradiction.
Qed.

End MatchFacts.

(** C1 (as amended): a rule tested as a regex is tested with [re.match],
    which anchors the match at the start of the POSIX form of the path
    only. When the patterns of the tested rules compile,
    [match_any_regex] returns, and it returns [True] exactly when some
    rule accepts the path: a regex rule by matching a prefix of it, a
    literal rule by equality of the POSIX forms. *)
Theorem C1_match_any_regex_prefix_match (p : string)
    (rules : list PayloadStructure.PayloadFolderDict) (force : bool) :
  Forall (Spec.rule_compiles force) rules ->
  exists b, PayloadStructure.match_any_regex p rules force = Ok b /\
            (b = true <->
             Exists (Spec.rule_matches force (PurePath.as_posix p)) rules).
Proof. intros H. now apply match_any_regex_loop_spec. Qed.

(** C1, the claim as stated fails: the regex rule of the test profile
    accepts a file below [optional_directory/4/], although the pattern
    does not match the whole path. *)
Lemma C1_full_match_counterexample :
  let rule := {| PayloadStructure.string_ := "optional_directory/\d+/";
                 PayloadStructure.is_regex := true |} in
  let p := "optional_directory/4/dummy.doc" in
  PayloadStructure.match_any_regex p [rule] false = Ok true /\
  exists rx,
    Re.compile (PayloadStructure.string_ rule) = Some rx /\
    ~ Re.lang rx (list_ascii_of_string (PurePath.as_posix p)).
Proof.
  split; [vm_compute; reflexivity|].
  destruct (Re.compile "optional_directory/\d+/") as [rx|] eqn:Hrx;
    [|vm_compute in Hrx; discriminate].
  exists rx. split; [exact Hrx|].
  vm_compute in Hrx. injection Hrx as <-.
  rewrite <- fullmatch_spec. vm_compute. discriminate.
Qed.

Lemma C1_match_any_regex_prefix_match_witness :
  exists b,
    PayloadStructure.match_any_regex "optional_directory/4/dummy.doc"
      [{| PayloadStructure.string_ := "optional_directory/\d+/";
          PayloadStructure.is_regex := true |}] false = Ok b /\
    (b = true <->
     Exists (Spec.rule_matches false
               (PurePath.as_posix "optional_directory/4/dummy.doc"))
       [{| PayloadStructure.string_ := "optional_directory/\d+/";
           PayloadStructure.is_regex := true |}]).
Proof.
  apply C1_match_any_regex_prefix_match.
  repeat constructor. intros _. vm_compute. eauto.
Defined.

(** ** [as_posix] and a path extended below a trailing separator *)

Section PathFacts.
Import PurePath.

Lemma chars_append (a b : string) :
  list_ascii_of_string (a +:+ b)
  = (list_ascii_of_string a ++ list_ascii_of_string b)%list.
Proof. induction a as [|c a IH]; simpl; [reflexivity | now rewrite IH]. Qed.

Lemma last_char_last (s : string) :
  Str.last_char s = last (list_ascii_of_string s).
Proof.
  induction s as [|c s IH]; [reflexivity|].
  destruct s as [|d s]; [reflexivity|]. exact IH.
Qed.

Lemma string_of_chars_inj (u v : list ascii) :
  string_of_list_ascii u = string_of_list_ascii v -> u = v.
Proof.
  intros H. apply (f_equal list_ascii_of_string) in H.
  now rewrite !list_ascii_of_string_of_list_ascii in H.
Qed.

Lemma split_not_nil (s : list ascii) : split s <> [].
Proof.
  induction s as [|c s IH]; simpl; [discriminate|].
  destruct (is_sep c); [discriminate|]. destruct (split s); discriminate.
Qed.

Lemma split_app_sep (u v : list ascii) :
  split (u ++ "/"%char :: v) = (split u ++ split v)%list.
Proof.
  induction u as [|c u IH]; simpl; [reflexivity|].
  destruct (is_sep c); [now rewrite IH|]. rewrite IH.
  destruct (split u) as [|seg segs] eqn:Hu; [|reflexivity].
  now apply split_not_nil in Hu.
Qed.

(** Below a path that is empty or ends with the separator, a new name is
    one more component. *)
Lemma parse_parts_child (rel : list ascii) :
  rel = [] \/ last rel = Some "/"%char ->
  parse_parts (rel ++ ["x"%char]) = (parse_parts rel ++ [["x"%char]])%list.
Proof.
  unfold parse_parts. intros [-> | Hlast]; [reflexivity|].
  apply last_Some in Hlast as [rel0 ->].
  rewrite <- app_assoc. simpl. rewrite !split_app_sep, !List.filter_app.
  simpl. now rewrite app_nil_r.
Qed.

Lemma splitroot_child (r : list ascii) :
  last r = Some "/"%char ->
  fst (splitroot (r ++ ["x"%char])) = fst (splitroot r) /\
  snd (splitroot (r ++ ["x"%char])) = (snd (splitroot r) ++ ["x"%char])%list /\
  (snd (splitroot r) = [] \/ last (snd (splitroot r)) = Some "/"%char).
Proof.
  intros Hlast.
  destruct r as [|c1 [|c2 [|c3 r3]]]; [discriminate| | |].
  - injection Hlast as ->. simpl. auto.
  - rewrite last_cons_cons in Hlast. injection Hlast as ->.
    simpl. destruct (is_sep c1); simpl; auto.
  - rewrite !last_cons_cons in Hlast. simpl.
    destruct (is_sep c1), (is_sep c2), (is_sep c3); simpl;
      rewrite ?last_cons_cons; auto.
Qed.

Lemma join_snoc (parts : list (list ascii)) (p : list ascii) :
  join (parts ++ [p]) =
  match parts with
  | [] => p
  | _ => (join parts ++ "/"%char :: p)%list
  end.
Proof.
  induction parts as [|q parts IH]; [reflexivity|].
  destruct parts as [|q' parts]; [reflexivity|].
  change (join ((q :: q' :: parts) ++ [p]))
    with (q ++ "/"%char :: join ((q' :: parts) ++ [p]))%list.
  rewrite IH. change (join (q :: q' :: parts))
    with (q ++ "/"%char :: join (q' :: parts))%list.
  now rewrite <- app_assoc.
Qed.

Lemma format_parts_child (root : list ascii) (parts : list (list ascii)) :
  format_parts root (parts ++ [["x"%char]]) <> format_parts root parts.
Proof.
  unfold format_parts. rewrite join_snoc.
  destruct parts as [|q parts].
  - simpl. rewrite app_nil_r. destruct root as [|c root]; simpl.
    + discriminate.
    + intros H. apply (f_equal length) in H. simpl in H.
      rewrite length_app in H. simpl in H. lia.
  - set (j := join (q :: parts)). rewrite app_assoc.
    destruct (root ++ j)%list as [|c l]; simpl.
    + discriminate.
    + intros H. apply (f_equal length) in H. simpl in H.
      rewrite length_app in H. simpl in H. lia.
Qed.

Lemma as_posix_chars_child (r : list ascii) :
  last r = Some "/"%char ->
  as_posix_chars (r ++ ["x"%char]) <> as_posix_chars r.
Proof.
  intros Hlast. unfold as_posix_chars.
  destruct (splitroot_child r Hlast) as (-> & -> & Hrel).
  rewrite parse_parts_child by assumption. apply format_parts_child.
Qed.

Lemma as_posix_child (r : string) :
  last (list_ascii_of_string r) = Some "/"%char ->
  as_posix (r +:+ "x") <> as_posix r.
Proof.
  intros Hlast Heq. unfold as_posix in Heq.
  apply string_of_chars_inj in Heq. rewrite chars_append in Heq.
  now apply (as_posix_chars_child _ Hlast).
Qed.

End PathFacts.

(** ** Rules without regex metacharacters *)

Section PlainRuleFacts.
Import PayloadStructure Spec SpecSubChecks Re.

Lemma pstep_plain (st : pstate) (c : ascii) :
  plain_char c = true -> ps_escaped st = false ->
  pstep st c = with_atom (Chr c) st.
Proof.
  unfold plain_char, pstep. intros Hc ->.
  apply negb_true_iff in Hc. cbn in Hc.
  repeat (apply orb_false_elim in Hc as [? Hc]).
  repeat match goal with H : Ascii.eqb c _ = false |- _ => rewrite H; clear H end.
  reflexivity.
Qed.

Lemma prun_plain (s : list ascii) (st : pstate) :
  Forall (fun c => plain_char c = true) s -> ps_escaped st = false ->
  prun st s =
  Some (PState (Frame (frame_alts (ps_top st))
                  (rev (map (fun c => (Chr c, false)) s)
                   ++ frame_seq (ps_top st)))
          (ps_open st) false).
Proof.
  intros Hs. revert st. induction Hs as [|c s Hc _ IH]; intros st Hesc.
  - destruct st as [[alts seq] open esc]. cbn in *. now subst.
  - cbn [prun]. rewrite pstep_plain by assumption. unfold with_atom.
    rewrite IH by reflexivity. cbn. now rewrite <- app_assoc.
Qed.

Lemma compile_plain (s : string) :
  plain s -> compile s = Some (literal (list_ascii_of_string s)).
Proof.
  intros Hs. unfold compile. rewrite prun_plain by (assumption || reflexivity).
  cbn. rewrite app_nil_r. unfold close_frame, seq_regex. cbn. f_equal.
  unfold literal. rewrite <- fold_left_rev_right, rev_involutive.
  generalize Eps. induction (list_ascii_of_string s) as [|c l IH]; intros r;
    [reflexivity|]. cbn. f_equal. apply IH.
Qed.

Lemma lang_literal (s u : list ascii) : lang (literal s) u <-> u = s.
Proof.
  revert u. induction s as [|c s IH]; intros u; cbn.
  - split; [now inversion 1 | intros ->; constructor].
  - split.
    + intros H. apply lang_cat_inv in H as (a & b & -> & Ha & Hb).
      inversion Ha; subst. apply IH in Hb. now subst.
    + intros ->. change (c :: s) with ([c] ++ s). constructor;
        [constructor | now apply IH].
Qed.

Lemma is_prefix_spec (p s : list ascii) :
  Str.is_prefix p s = true <-> exists v, s = p ++ v.
Proof.
  revert s. induction p as [|a p IH]; intros s; cbn.
  - split; [eauto | reflexivity].
  - destruct s as [|b s].
    + split; [discriminate | now intros [v Hv]].
    + rewrite andb_true_iff, IH. split.
      * intros [Hab [v ->]]. apply Ascii.eqb_eq in Hab as ->. eauto.
      * intros [v [= -> ->]]. split; [apply Ascii.eqb_refl | eauto].
Qed.

Lemma match_literal (s w : list ascii) :
  match_ (literal s) w = Str.is_prefix s w.
Proof.
  apply eq_true_iff_eq. rewrite match_spec, is_prefix_spec. split.
  - intros (u & v & -> & Hu). apply lang_literal in Hu as ->. eauto.
  - intros [v ->]. exists s, v. split; [reflexivity | now apply lang_literal].
Qed.

End PlainRuleFacts.

(** ** Literal rules *)

Lemma literal_rule_trailing_slash (d : string)
    (rule : PayloadStructure.PayloadFolderDict) :
  PayloadStructure.process_allowed_regex_from_profile
    (PayloadStructure.AllowedStr d) = Ok rule ->
  PayloadStructure.is_regex rule = false /\
  last (list_ascii_of_string (PayloadStructure.string_ rule))
  = Some "/"%char.
Proof.
  unfold PayloadStructure.process_allowed_regex_from_profile,
    PayloadStructure.ends_with_slash.
  destruct (Str.last_char d) as [c|] eqn:Hc; simpl; [|discriminate].
  intros [= <-]. simpl. split; [reflexivity|].
  rewrite chars_append. destruct (Ascii.eqb_spec c "/") as [-> | Hne]; simpl.
  - rewrite app_nil_r. now rewrite <- last_char_last.
  - apply last_snoc.
Qed.

(** ** Siblings of a directory *)

Section SiblingFacts.
Import PurePath.

(** A component of a relative path: a name without separator that
    [pathlib] keeps. *)
Lemma split_name (s : list ascii) :
  Forall (fun c => c <> "/"%char) s -> PurePath.split s = [s].
Proof.
  induction 1 as [|c s Hc _ IH]; [reflexivity|]. cbn [PurePath.split].
  unfold is_sep. apply Ascii.eqb_neq in Hc. now rewrite Hc, IH.
Qed.

Lemma split_join (segs : list (list ascii)) :
  segs <> [] ->
  Forall (Forall (fun a => a <> "/"%char)) segs ->
  PurePath.split (join segs) = segs.
Proof.
  intros Hne Hsegs. induction Hsegs as [|seg segs Hseg Hsegs IH];
    [contradiction|].
  destruct segs as [|seg' segs].
  - cbn [join]. now apply split_name.
  - change (join (seg :: seg' :: segs))
      with (seg ++ "/"%char :: join (seg' :: segs)).
    rewrite split_app_sep, IH by discriminate.
    now rewrite split_name.
Qed.

Lemma join_app (xs ys : list (list ascii)) :
  xs <> [] ->
  join (xs ++ ys) =
  join xs ++ match ys with
             | [] => []
             | _ => "/"%char :: join ys
             end.
Proof.
  intros Hne. induction xs as [|x xs IH]; [contradiction|].
  destruct xs as [|x' xs].
  - cbn [app join]. destruct ys as [|y ys]; [now rewrite app_nil_r|].
    reflexivity.
  - change (join ((x :: x' :: xs) ++ ys))
      with (x ++ "/"%char :: join ((x' :: xs) ++ ys)).
    rewrite IH by discriminate.
    change (join (x :: x' :: xs)) with (x ++ "/"%char :: join (x' :: xs)).
    now rewrite <- app_assoc.
Qed.

Lemma join_extend_last (init : list (list ascii)) (c s : list ascii) :
  join (init ++ [c ++ s]) = join (init ++ [c]) ++ s.
Proof.
  rewrite !join_snoc. destruct init; [reflexivity|].
  now rewrite <- app_assoc.
Qed.

Lemma filter_keep_all (segs : list (list ascii)) :
  Forall (fun c => keep_part c = true) segs ->
  List.filter keep_part segs = segs.
Proof.
  induction 1 as [|seg segs Hseg _ IH]; [reflexivity|].
  cbn [List.filter]. now rewrite Hseg, IH.
Qed.

Lemma join_head (segs : list (list ascii)) (c : ascii) (seg : list ascii) :
  exists rest, join ((c :: seg) :: segs) = c :: rest.
Proof. destruct segs; cbn [join app]; eauto. Qed.

(** The POSIX form of a relative path of kept components, followed by
    nothing or by a separator and more. *)
Lemma as_posix_chars_relative (segs : list (list ascii)) (t : list ascii) :
  segs <> [] ->
  Forall (fun c => keep_part c = true /\ Forall (fun a => a <> "/"%char) c)
    segs ->
  t = [] \/ (exists t', t = "/"%char :: t') ->
  exists w,
    as_posix_chars (join segs ++ t) = join segs ++ w /\
    (w = [] \/ exists w', w = "/"%char :: w').
Proof.
  intros Hne Hsegs Ht.
  assert (Hkeep : Forall (fun c => keep_part c = true) segs)
    by (eapply Forall_impl; [exact Hsegs|]; now intros c [? _]).
  assert (Hsep : Forall (Forall (fun a => a <> "/"%char)) segs)
    by (eapply Forall_impl; [exact Hsegs|]; now intros c [_ ?]).
  assert (Hroot : forall u, splitroot (join segs ++ u) = ([], join segs ++ u)).
  { intros u. destruct segs as [|[|c seg] segs]; [contradiction| |].
    - now inversion Hkeep.
    - destruct (join_head segs c seg) as [rest ->]. cbn [app splitroot].
      inversion Hsep as [|? ? Hc _]; subst. inversion Hc as [|? ? Hc' _]; subst.
      unfold is_sep. apply Ascii.eqb_neq in Hc'. now rewrite Hc'. }
  unfold as_posix_chars. rewrite Hroot. cbn [fst snd]. unfold parse_parts.
  assert (Hformat : forall ys,
             format_parts [] (segs ++ ys) = join (segs ++ ys)).
  { intros ys. unfold format_parts. cbn [app].
    destruct segs as [|[|c seg] segs]; [contradiction| |].
    - now inversion Hkeep.
    - destruct (join_head (segs ++ ys) c seg) as [rest Hrest].
      cbn [app]. now rewrite Hrest. }
  destruct Ht as [-> | [t' ->]].
  - rewrite app_nil_r, split_join, filter_keep_all by assumption.
    exists []. split; [|now left].
    rewrite <- (app_nil_r segs) at 1. rewrite Hformat.
    now rewrite !app_nil_r.
  - rewrite split_app_sep, split_join, List.filter_app, filter_keep_all
      by assumption.
    rewrite Hformat, join_app by assumption.
    destruct (List.filter keep_part (PurePath.split t')) as [|y ys].
    + exists []. split; [reflexivity | now left].
    + eexists. split; [reflexivity|]. right. eauto.
Qed.

Lemma keep_part_extend (c s : list ascii) :
  c <> [] -> s <> [] -> keep_part (c ++ s) = true.
Proof.
  intros Hc Hs. destruct c as [|a [|b c]]; [contradiction| |reflexivity].
  destruct s; [contradiction | reflexivity].
Qed.

(** A sibling whose name extends the name of the directory, and every
    path below it, has a POSIX form that starts with the path of the
    directory followed by the extension of the name. *)
Lemma as_posix_chars_sibling (comps : list (list ascii))
    (s t : list ascii) :
  comps <> [] ->
  Forall (fun c => keep_part c = true /\ Forall (fun a => a <> "/"%char) c)
    comps ->
  s <> [] -> Forall (fun a => a <> "/"%char) s ->
  t = [] \/ (exists t', t = "/"%char :: t') ->
  exists w, as_posix_chars (join comps ++ s ++ t) = join comps ++ s ++ w.
Proof.
  intros Hne Hcomps Hs Hs' Ht.
  destruct (exists_last Hne) as (init & c & ->).
  apply Forall_app in Hcomps as [Hinit Hc].
  inversion Hc as [|? ? [Hkeep Hsep] _]; subst.
  rewrite app_assoc, <- join_extend_last.
  destruct (as_posix_chars_relative (init ++ [c ++ s]) t) as (w & -> & _).
  - now destruct init.
  - apply Forall_app. split; [assumption|]. constructor; [|constructor].
    split.
    + apply keep_part_extend; [|assumption]. now destruct c.
    + now apply Forall_app.
  - assumption.
  - exists w. now rewrite join_extend_last, <- app_assoc.
Qed.

End SiblingFacts.

Section SiblingRuleFacts.
Import PayloadStructure Spec SpecSubChecks PurePath.

Lemma is_prefix_same (p a b : list ascii) :
  Str.is_prefix (p ++ a) (p ++ b) = Str.is_prefix a b.
Proof.
  induction p as [|c p IH]; [reflexivity|]. cbn [app Str.is_prefix].
  now rewrite Ascii.eqb_refl, IH.
Qed.

Lemma directory_path_last (d : string) (comps : list (list ascii)) :
  directory_path d comps ->
  exists c, Str.last_char d = Some c /\ c <> "/"%char.
Proof.
  intros (Hne & Hd & Hcomps). rewrite last_char_last, Hd.
  destruct (exists_last Hne) as (init & seg & ->).
  apply Forall_app in Hcomps as [_ Hseg].
  inversion Hseg as [|? ? [Hkeep Hsep] _]; subst.
  assert (Hlast : exists u, join (init ++ [seg]) = u ++ seg).
  { rewrite join_snoc. destruct init as [|c0 init]; [now exists []|].
    exists (join (c0 :: init) ++ ["/"%char]). now rewrite <- app_assoc. }
  destruct Hlast as [u ->]. rewrite last_app.
  destruct (exists_last (l := seg)) as (seg' & c & ->);
    [now destruct seg|].
  rewrite last_snoc. exists c. split; [reflexivity|].
  apply Forall_app in Hsep as [_ Hc]. now inversion Hc.
Qed.

(** The rule made of a directory path is the path followed by the
    separator. *)
Lemma directory_rule (d : string) (comps : list (list ascii))
    (rule : PayloadFolderDict) :
  directory_path d comps ->
  process_allowed_regex_from_profile (AllowedStr d) = Ok rule ->
  rule = {| string_ := d +:+ "/"; is_regex := false |}.
Proof.
  intros Hd. destruct (directory_path_last d comps Hd) as (c & Hc & Hne).
  unfold process_allowed_regex_from_profile, ends_with_slash.
  rewrite Hc. cbn [bind]. apply Ascii.eqb_neq in Hne. rewrite Hne.
  now intros [= <-].
Qed.

(** A plain rule tested as a regex accepts the paths whose POSIX form
    starts with it. *)
Lemma plain_rule_prefix (rule : PayloadFolderDict) (path : string) :
  plain (string_ rule) ->
  match_any_regex path [rule] true =
  Ok (Str.is_prefix (list_ascii_of_string (string_ rule))
        (list_ascii_of_string (PurePath.as_posix path))).
Proof.
  intros Hplain. unfold match_any_regex.
  cbn [match_any_regex_loop orb]. rewrite compile_plain by assumption.
  rewrite match_literal. now destruct (Str.is_prefix _ _).
Qed.

Lemma plain_with_separator (d : string) : plain d -> plain (d +:+ "/").
Proof.
  unfold plain. intros Hd. rewrite chars_append. apply Forall_app.
  split; [assumption|]. repeat constructor.
Qed.

Lemma as_posix_of_chars (p : list ascii) :
  list_ascii_of_string (as_posix (string_of_list_ascii p)) = as_posix_chars p.
Proof.
  unfold as_posix. now rewrite !list_ascii_of_string_of_list_ascii.
Qed.

Lemma sibling_not_matched (d : string) (comps : list (list ascii))
    (s t : list ascii) (force : bool) :
  directory_path d comps -> plain d ->
  s <> [] -> Forall (fun a => a <> "/"%char) s ->
  t = [] \/ (exists t', t = "/"%char :: t') ->
  match_any_regex
    (string_of_list_ascii (list_ascii_of_string d ++ s ++ t))
    [{| string_ := d +:+ "/"; is_regex := false |}] force = Ok false.
Proof.
  intros Hd Hplain Hs Hs' Ht. pose proof Hd as (Hne & Hchars & Hcomps).
  destruct (as_posix_chars_sibling comps s t Hne Hcomps Hs Hs' Ht) as [w Hw].
  rewrite <- Hchars in Hw.
  destruct s as [|a s]; [contradiction|].
  assert (Ha : Ascii.eqb "/" a = false)
    by (apply Ascii.eqb_neq; intros <-; now inversion Hs').
  destruct force.
  - rewrite plain_rule_prefix by now apply plain_with_separator.
    cbn [string_]. rewrite as_posix_of_chars, Hw, chars_append.
    rewrite is_prefix_same. change (list_ascii_of_string "/") with ["/"%char].
    cbn [app Str.is_prefix]. now rewrite Ha.
  - unfold match_any_regex. cbn [match_any_regex_loop orb is_regex string_].
    destruct (String.eqb_spec (as_posix (d +:+ "/"))
                (as_posix (string_of_list_ascii
                             (list_ascii_of_string d ++ (a :: s) ++ t))))
      as [Heq | _]; [|reflexivity].
    exfalso. apply (f_equal list_ascii_of_string) in Heq.
    rewrite as_posix_of_chars, Hw in Heq.
    unfold as_posix in Heq.
    rewrite list_ascii_of_string_of_list_ascii, chars_append, Hchars in Heq.
    destruct (as_posix_chars_relative comps ["/"%char] Hne Hcomps)
      as (w0 & Hw0 & Hcases); [right; eauto|].
    cbn [list_ascii_of_string] in Heq. rewrite Hw0 in Heq.
    apply app_inv_head in Heq.
    destruct Hcases as [-> | [w' ->]]; [discriminate|].
    injection Heq as Heq _. subst a. now rewrite Ascii.eqb_refl in Ha.
Qed.

Lemma sibling_matched_without_separator (d : string)
    (comps : list (list ascii)) (s t : list ascii) :
  directory_path d comps -> plain d ->
  s <> [] -> Forall (fun a => a <> "/"%char) s ->
  t = [] \/ (exists t', t = "/"%char :: t') ->
  match_any_regex
    (string_of_list_ascii (list_ascii_of_string d ++ s ++ t))
    [{| string_ := d; is_regex := false |}] true = Ok true.
Proof.
  intros Hd Hplain Hs Hs' Ht. pose proof Hd as (Hne & Hchars & Hcomps).
  destruct (as_posix_chars_sibling comps s t Hne Hcomps Hs Hs' Ht) as [w Hw].
  rewrite <- Hchars in Hw.
  rewrite plain_rule_prefix by assumption. cbn [string_].
  rewrite as_posix_of_chars, Hw.
  rewrite <- (app_nil_r (list_ascii_of_string d)) at 1.
  now rewrite is_prefix_same.
Qed.

Lemma child_matched_as_regex (d : string) (comps : list (list ascii)) :
  directory_path d comps -> plain d ->
  match_any_regex ((d +:+ "/") +:+ "x")
    [{| string_ := d +:+ "/"; is_regex := false |}] true = Ok true.
Proof.
  intros (Hne & Hchars & Hcomps) Hplain.
  rewrite plain_rule_prefix by now apply plain_with_separator.
  cbn [string_]. unfold as_posix. rewrite list_ascii_of_string_of_list_ascii.
  rewrite !chars_append, Hchars.
  change (list_ascii_of_string "/") with ["/"%char].
  change (list_ascii_of_string "x") with ["x"%char].
  destruct (as_posix_chars_relative (comps ++ [["x"%char]]) [])
    as (w & Hw & _).
  - now destruct comps.
  - apply Forall_app. split; [assumption|]. repeat constructor. discriminate.
  - now left.
  - rewrite app_nil_r, join_app in Hw by assumption. cbn [join] in Hw.
    rewrite <- app_assoc. cbn [app]. rewrite Hw.
    rewrite <- app_assoc. rewrite is_prefix_same. cbn.
    reflexivity.
Qed.

End SiblingRuleFacts.

(** C7 (as amended): a literal rule of [Payload-Folders-Allowed] is
    normalized to end with the separator. Compared as a literal, it
    matches itself and not itself extended by a character. When the
    rule names a relative path of directories without regex
    metacharacters, it matches in neither mode a sibling whose name
    extends the name of the directory, nor a path below such a sibling,
    whereas without the separator the rule tested as a regex would
    match them. Tested as a regex, as the check of the file locations
    does, the rule matches every path below the directory, itself
    extended by a character included. *)
Theorem C7_literal_rule_matches_directory_not_sibling (d : string)
    (rule : PayloadStructure.PayloadFolderDict) :
  PayloadStructure.process_allowed_regex_from_profile
    (PayloadStructure.AllowedStr d) = Ok rule ->
  PayloadStructure.match_any_regex (PayloadStructure.string_ rule) [rule] false
  = Ok true /\
  PayloadStructure.match_any_regex
    (PayloadStructure.string_ rule +:+ "x") [rule] false = Ok false /\
  (forall comps s t,
      SpecSubChecks.directory_path d comps ->
      SpecSubChecks.plain d ->
      s <> [] ->
      Forall (fun a => a <> "/"%char) s ->
      t = [] \/ (exists t', t = "/"%char :: t') ->
      let sibling :=
        string_of_list_ascii (list_ascii_of_string d ++ s ++ t) in
      PayloadStructure.string_ rule = d +:+ "/" /\
      (forall force,
          PayloadStructure.match_any_regex sibling [rule] force = Ok false) /\
      PayloadStructure.match_any_regex sibling
        [{| PayloadStructure.string_ := d;
            PayloadStructure.is_regex := false |}] true = Ok true /\
      PayloadStructure.match_any_regex
        (PayloadStructure.string_ rule +:+ "x") [rule] true = Ok true).
Proof.
  intros Hrule. split; [|split].
  - apply literal_rule_trailing_slash in Hrule as [Hkind Hlast].
    unfold PayloadStructure.match_any_regex. simpl. rewrite Hkind. simpl.
    now rewrite String.eqb_refl.
  - apply literal_rule_trailing_slash in Hrule as [Hkind Hlast].
    unfold PayloadStructure.match_any_regex. simpl. rewrite Hkind. simpl.
    destruct (String.eqb_spec
                (PurePath.as_posix (PayloadStructure.string_ rule))
                (PurePath.as_posix (PayloadStructure.string_ rule +:+ "x")))
      as [Heq | Hne]; [|reflexivity].
    symmetry in Heq. now apply as_posix_child in Heq.
  - intros comps s t Hd Hplain Hs Hs' Ht sibling.
    rewrite (directory_rule d comps rule Hd Hrule).
    cbn [PayloadStructure.string_].
    split; [reflexivity|]. split; [|split].
    + intros force. now apply (sibling_not_matched d comps).
    + now apply (sibling_matched_without_separator d comps).
    + now apply (child_matched_as_regex d comps).
Qed.

Lemma C7_literal_rule_matches_directory_not_sibling_witness :
  PayloadStructure.match_any_regex "required_directory/"
    [{| PayloadStructure.string_ := "required_directory/";
        PayloadStructure.is_regex := false |}] false = Ok true /\
  PayloadStructure.match_any_regex ("required_directory/" +:+ "x")
    [{| PayloadStructure.string_ := "required_directory/";
        PayloadStructure.is_regex := false |}] false = Ok false /\
  (forall force,
      PayloadStructure.match_any_regex "required_directory_extra/dummy.txt"
        [{| PayloadStructure.string_ := "required_directory/";
            PayloadStructure.is_regex := false |}] force = Ok false) /\
  PayloadStructure.match_any_regex "required_directory_extra/dummy.txt"
    [{| PayloadStructure.string_ := "required_directory";
        PayloadStructure.is_regex := false |}] true = Ok true.
Proof.
  destruct (C7_literal_rule_matches_directory_not_sibling
              "required_directory"
              {| PayloadStructure.string_ := "required_directory/";
                 PayloadStructure.is_regex := false |} eq_refl)
    as (Hself & Hchild & Hsibling).
  destruct (Hsibling [list_ascii_of_string "required_directory"]
              (list_ascii_of_string "_extra")
              (list_ascii_of_string "/dummy.txt"))
    as (_ & Hnot & Hwithout & _).
  - split; [discriminate|]. split; [reflexivity|].
    repeat constructor; discriminate.
  - unfold SpecSubChecks.plain. cbn. repeat constructor.
  - discriminate.
  - repeat constructor; discriminate.
  - right. eexists. reflexivity.
  - split; [exact Hself|]. split; [exact Hchild|].
    split; [exact Hnot | exact Hwithout].
Defined.

(** C7, the claim as stated fails: tested as a regex, as the check of
    the file locations does, the normalized rule matches itself
    extended by a character, which is a path below the directory. *)
Lemma C7_force_regex_counterexample :
  PayloadStructure.process_allowed_regex_from_profile
    (PayloadStructure.AllowedStr "required_directory")
  = Ok {| PayloadStructure.string_ := "required_directory/";
          PayloadStructure.is_regex := false |} /\
  PayloadStructure.match_any_regex ("required_directory/" +:+ "x")
    [{| PayloadStructure.string_ := "required_directory/";
        PayloadStructure.is_regex := false |}] true = Ok true.
Proof. split; vm_compute; reflexivity. Qed.

(** ** Capitalization collisions *)

Section CapitalizationFacts.
Import PayloadStructure Spec Logging.
Variable lower : string -> string.

Lemma first_seen_app (k : string) (a b : list string) :
  first_seen lower k (a ++ b) =
  match first_seen lower k a with
  | Some g => Some g
  | None => first_seen lower k b
  end.
Proof.
  unfold first_seen. induction a as [|x a IH]; simpl; [reflexivity|].
  destruct (String.eqb (lower x) k); [reflexivity | exact IH].
Qed.

Lemma first_seen_snoc (k : string) (seen : list string) (f : string) :
  first_seen lower k (seen ++ [f]) =
  match first_seen lower k seen with
  | Some g => Some g
  | None => if String.eqb (lower f) k then Some f else None
  end.
Proof. rewrite first_seen_app. reflexivity. Qed.

(** The dict [checked] holds, for every lowercase form, the first path
    seen with it. *)
Lemma capitalization_loop_spec (files seen : list string)
    (checked : gmap string string) (validates : bool) (l : Logger) :
  (forall k, checked !! k = first_seen lower k seen) ->
  capitalization_loop lower files checked validates l =
  (validates
   && bool_decide (collisions lower seen (map relative_to_bag files) = []),
   l ++ map collision_error (collisions lower seen (map relative_to_bag files))).
Proof.
  revert seen checked validates l.
  induction files as [|file files IH]; intros seen checked validates l Hinv.
  - simpl. now rewrite andb_true_r, app_nil_r.
  - cbn [capitalization_loop map collisions]. rewrite Hinv.
    destruct (first_seen lower (lower (relative_to_bag file)) seen)
      as [first|] eqn:Hfirst.
    + rewrite (IH (seen ++ [relative_to_bag file])).
      * rewrite (bool_decide_eq_false_2 (_ :: _ = [])) by done.
        rewrite andb_false_r. unfold log. cbn [andb map].
        now rewrite <- app_assoc.
      * intros k. rewrite first_seen_snoc, Hinv.
        destruct (first_seen lower k seen) eqn:Hk; [reflexivity|].
        destruct (String.eqb_spec (lower (relative_to_bag file)) k)
          as [Heq | Hne]; [congruence | reflexivity].
    + apply IH. intros k. rewrite first_seen_snoc.
      destruct (String.eqb_spec (lower (relative_to_bag file)) k)
        as [Heq | Hne].
      * subst k. rewrite lookup_insert_eq. now rewrite Hfirst.
      * rewrite lookup_insert_ne by assumption. rewrite Hinv.
        now destruct (first_seen lower k seen).
Qed.

Lemma collisions_count (k : string) (seen rest : list string) :
  length (List.filter (fun p => String.eqb (lower (fst p)) k)
            (collisions lower seen rest)) =
  match first_seen lower k seen with
  | Some _ => count_lower lower k rest
  | None => count_lower lower k rest - 1
  end.
Proof.
  revert seen. induction rest as [|f rest IH]; intros seen.
  - simpl. now destruct (first_seen lower k seen).
  - unfold count_lower. simpl.
    destruct (first_seen lower (lower f) seen) as [g|] eqn:Hf; simpl;
      destruct (String.eqb_spec (lower f) k) as [Heq | Hne]; simpl;
      rewrite IH, first_seen_snoc; fold (count_lower lower k rest).
    + subst k. now rewrite Hf.
    + destruct (String.eqb_spec (lower f) k); [contradiction|].
      now destruct (first_seen lower k seen).
    + subst k. rewrite Hf, String.eqb_refl. lia.
    + destruct (String.eqb_spec (lower f) k); [contradiction|].
      now destruct (first_seen lower k seen).
Qed.

Lemma collisions_first (seen rest : list string) (p : string * string) :
  In p (collisions lower seen rest) ->
  In (fst p) rest /\
  first_seen lower (lower (fst p)) (seen ++ rest) = Some (snd p).
Proof.
  revert seen. induction rest as [|f rest IH]; intros seen; simpl;
    [contradiction|].
  assert (Hrec : In p (collisions lower (seen ++ [f]) rest) ->
                 (f = fst p \/ In (fst p) rest) /\
                 first_seen lower (lower (fst p)) (seen ++ f :: rest)
                 = Some (snd p)).
  { intros H. apply IH in H as [H1 H2]. split; [now right|].
    now rewrite <- app_assoc in H2. }
  destruct (first_seen lower (lower f) seen) as [g|] eqn:Hf; [|exact Hrec].
  intros [<- | H]; [|now apply Hrec]. simpl. split; [now left|].
  now rewrite first_seen_app, Hf.
Qed.

Lemma collisions_distinct (seen rest : list string) (p : string * string) :
  NoDup (seen ++ rest) -> In p (collisions lower seen rest) -> fst p <> snd p.
Proof.
  revert seen. induction rest as [|f rest IH]; intros seen Hnd; simpl;
    [contradiction|].
  assert (Hrec : In p (collisions lower (seen ++ [f]) rest) -> fst p <> snd p).
  { apply IH. now rewrite <- app_assoc. }
  destruct (first_seen lower (lower f) seen) as [g|] eqn:Hf; [|exact Hrec].
  intros [<- | H]; [|now apply Hrec]. simpl. intros <-.
  apply List.find_some in Hf as [Hin _].
  apply NoDup_app in Hnd as (_ & Hdisj & _).
  apply (Hdisj f); [now apply list_elem_of_In | left].
Qed.

(** The collisions by the positions of the listing. *)
Lemma collisions_imap (seen rest : list string) :
  collisions lower seen rest =
  concat
    (imap (fun i f =>
             match first_seen lower (lower f) (seen ++ take i rest) with
             | Some g => [(f, g)]
             | None => []
             end) rest).
Proof.
  revert seen. induction rest as [|f rest IH]; intros seen; [reflexivity|].
  cbn [collisions]. rewrite imap_cons. cbn [concat take].
  rewrite app_nil_r, (IH (seen ++ [f])).
  assert (Himap :
            imap (fun i f' =>
                    match first_seen lower (lower f')
                            ((seen ++ [f]) ++ take i rest) with
                    | Some g => [(f', g)]
                    | None => []
                    end) rest
            = imap ((fun i f' =>
                       match first_seen lower (lower f')
                               (seen ++ take i (f :: rest)) with
                       | Some g => [(f', g)]
                       | None => []
                       end) ∘ S) rest).
  { apply imap_ext. intros i f' _. cbn [compose take].
    now rewrite <- app_assoc. }
  rewrite Himap. now destruct (first_seen lower (lower f) seen).
Qed.

Lemma collisions_of_spec (paths : list string) :
  collisions lower [] paths = collisions_of lower paths.
Proof. apply collisions_imap. Qed.

Lemma collisions_sublist (seen rest : list string) :
  sublist (map fst (collisions lower seen rest)) rest.
Proof.
  revert seen. induction rest as [|f rest IH]; intros seen; [constructor|].
  cbn [collisions].
  destruct (first_seen lower (lower f) seen);
    [cbn [map fst]; apply sublist_skip | apply sublist_cons]; apply IH.
Qed.

Lemma collisions_same_lower (seen rest : list string)
    (p : string * string) :
  In p (collisions lower seen rest) -> lower (snd p) = lower (fst p).
Proof.
  intros H. apply collisions_first in H as [_ H].
  apply List.find_some in H as [_ H]. now apply String.eqb_eq in H.
Qed.

Lemma capitalization_spec (bag : Bag) (l : Logger) :
  _validate_payload_files_capitalization lower bag l =
  (bool_decide
     (collisions lower [] (map relative_to_bag (payload_files bag)) = []),
   l ++ map collision_error
          (collisions lower [] (map relative_to_bag (payload_files bag)))).
Proof.
  unfold _validate_payload_files_capitalization.
  rewrite (capitalization_loop_spec _ []); [reflexivity|].
  intros k. apply lookup_empty.
Qed.

End CapitalizationFacts.

(** The check reads [lower] at the listed paths only. *)
Lemma capitalization_loop_ext (lower lower' : string -> string)
    (files : list string) (checked : gmap string string) (validates : bool)
    (l : Logging.Logger) :
  Forall (fun f => lower (PayloadStructure.relative_to_bag f)
                   = lower' (PayloadStructure.relative_to_bag f)) files ->
  PayloadStructure.capitalization_loop lower files checked validates l
  = PayloadStructure.capitalization_loop lower' files checked validates l.
Proof.
  intros Hfiles. revert checked validates l.
  induction Hfiles as [|file files Hfile _ IH]; intros checked validates l;
    [reflexivity|].
  cbn [PayloadStructure.capitalization_loop]. rewrite Hfile.
  destruct (checked !! lower' (PayloadStructure.relative_to_bag file));
    apply IH.
Qed.

(** On a listing of ASCII paths the check is the one with [Str.lower]. *)
Lemma capitalization_ascii (lower : string -> string)
    (bag : PayloadStructure.Bag) (l : Logging.Logger) :
  Spec.lowers_ascii lower ->
  Forall (fun f => Str.is_ascii (PayloadStructure.relative_to_bag f) = true)
    (PayloadStructure.payload_files bag) ->
  PayloadStructure._validate_payload_files_capitalization lower bag l
  = PayloadStructure._validate_payload_files_capitalization Str.lower bag l.
Proof.
  intros Hlower Hascii.
  unfold PayloadStructure._validate_payload_files_capitalization.
  apply capitalization_loop_ext.
  eapply Forall_impl; [exact Hascii|]. intros f Hf. now apply Hlower.
Qed.

(** C6: whatever [str.lower] does, the capitalization check logs one
    Error for every path of the listing that has the lowercase form of
    an earlier path, in the order of the listing; its text names the
    path and then the first path of the listing with that lowercase
    form. So every lowercase form [k] borne by [n] payload files gives
    exactly [n - 1] Errors, every offending path of a listing without
    repetition is named once and differs from the first-seen path it is
    named with, and the check passes exactly when there is no Error. *)
Theorem C6_capitalization_collisions (lower : string -> string)
    (bag : PayloadStructure.Bag) :
  let paths :=
    map PayloadStructure.relative_to_bag (PayloadStructure.payload_files bag) in
  let pairs := Spec.collisions_of lower paths in
  PayloadStructure._validate_payload_files_capitalization lower bag []
  = (bool_decide (pairs = []),
     map (fun p =>
            Logging.Message Logging.ERROR PayloadStructure.VALIDATOR_TAG
              ("File '" +:+ fst p +:+ "' and '" +:+ snd p
               +:+ "' only differ in their capitalization.")) pairs) /\
  sublist (map fst pairs) paths /\
  (forall k,
      length (List.filter (fun p => String.eqb (lower (fst p)) k) pairs)
      = Spec.count_lower lower k paths - 1) /\
  (forall p, In p pairs ->
             In (fst p) paths /\
             Spec.first_seen lower (lower (fst p)) paths = Some (snd p) /\
             lower (snd p) = lower (fst p)) /\
  (NoDup paths ->
   NoDup (map fst pairs) /\ forall p, In p pairs -> fst p <> snd p).
Proof.
  intros paths pairs. subst pairs. rewrite <- collisions_of_spec.
  split; [now rewrite capitalization_spec|].
  split; [apply collisions_sublist|].
  split; [intros k; now rewrite collisions_count|].
  split.
  - intros p Hp. split; [now apply collisions_first in Hp|].
    split; [now apply collisions_first in Hp|].
    now apply collisions_same_lower in Hp.
  - intros Hnd. split.
    + eapply sublist_NoDup; [exact Hnd | apply collisions_sublist].
    + intros p. now apply collisions_distinct.
Qed.

(** ** The sub-checks of the payload structure validator append Errors *)

Section SubCheckFacts.
Import PayloadStructure Spec Logging.

Lemma log_each_app (body : string -> string) (items : list string)
    (l : Logger) :
  log_each body items l = l ++ map (error_of body) items.
Proof.
  unfold log_each. revert l.
  induction items as [|x items IH]; intros l; simpl.
  - now rewrite app_nil_r.
  - rewrite IH. unfold log. now rewrite <- app_assoc.
Qed.

Lemma pick_errors (body : string -> string) (items : list string) :
  pick ERROR (map (error_of body) items) = map (error_of body) items.
Proof. induction items as [|x items IH]; simpl; [reflexivity | now rewrite IH]. Qed.

Lemma pick_info_cons (origin body : string) (l : Logger) :
  pick ERROR (Message INFO origin body :: l) = pick ERROR l.
Proof. reflexivity. Qed.

Lemma pick_app (ctx : Context) (a b : Logger) :
  pick ctx (a ++ b) = pick ctx a ++ pick ctx b.
Proof. apply List.filter_app. Qed.

Lemma allowed_appends (self : PayloadStructureValidator) (l : Logger) :
  _validate_payload_directories_allowed self l =
  match _validate_payload_directories_allowed self [] with
  | Ok (b, e) => Ok (b, l ++ e)
  | Raise x => Raise x
  end.
Proof.
  unfold _validate_payload_directories_allowed.
  destruct (filter_result _ (required self)) as [items|x]; cbn [bind];
    [|reflexivity].
  destruct items as [|i items]; [now rewrite app_nil_r|].
  now rewrite (log_each_app _ _ l), (log_each_app _ _ []).
Qed.

Lemma allowed_errors (self : PayloadStructureValidator) (b : bool)
    (e : Logger) :
  _validate_payload_directories_allowed self [] = Ok (b, e) ->
  pick ERROR e = e /\ (b = false <-> e <> []).
Proof.
  unfold _validate_payload_directories_allowed.
  destruct (filter_result _ (required self)) as [items|x]; cbn [bind];
    [|discriminate].
  destruct items as [|i items]; intros [= <- <-].
  - split; [reflexivity|]. split; [discriminate | congruence].
  - rewrite log_each_app. unfold log. cbn [app]. split.
    + unfold pick. cbn [List.filter msg_context].
      rewrite bool_decide_eq_true_2 by reflexivity. f_equal.
      apply pick_errors.
    + split; [discriminate | reflexivity].
Qed.

Lemma files_appends (self : PayloadStructureValidator) (bag : Bag)
    (l : Logger) :
  _validate_payload_dir_files self bag l =
  match _validate_payload_dir_files self bag [] with
  | Ok (b, e) => Ok (b, l ++ e)
  | Raise x => Raise x
  end.
Proof.
  unfold _validate_payload_dir_files.
  destruct (Payload_Folders_Allowed (profile self));
    [|now rewrite app_nil_r].
  destruct (filter_result _ (payload_files bag)) as [items|x]; cbn [bind];
    [|reflexivity].
  destruct items as [|i items]; [now rewrite app_nil_r|].
  now rewrite (log_each_app _ _ l), (log_each_app _ _ []).
Qed.

Lemma files_errors (self : PayloadStructureValidator) (bag : Bag) (b : bool)
    (e : Logger) :
  _validate_payload_dir_files self bag [] = Ok (b, e) ->
  pick ERROR e = e /\ (b = false <-> e <> []).
Proof.
  unfold _validate_payload_dir_files.
  destruct (Payload_Folders_Allowed (profile self)).
  - destruct (filter_result _ (payload_files bag)) as [items|x]; cbn [bind];
      [|discriminate].
    destruct items as [|i items]; intros [= <- <-].
    + split; [reflexivity|]. split; [discriminate | congruence].
    + rewrite log_each_app. unfold log. cbn [app]. split.
      * unfold pick. cbn [List.filter msg_context].
        rewrite bool_decide_eq_true_2 by reflexivity. f_equal.
        apply pick_errors.
      * split; [discriminate | reflexivity].
  - intros [= <- <-]. split; [reflexivity|].
    split; [discriminate | congruence].
Qed.

Lemma required_fold (bag : Bag) (dirs : list string) (b : bool) (l : Logger) :
  fold_left
    (fun (acc : bool * Logger) payload_dir =>
       if is_dir bag payload_dir then acc
       else (false, log ERROR VALIDATOR_TAG
                      (not_present_body payload_dir) (snd acc)))
    dirs (b, l) =
  (b && forallb (is_dir bag) dirs,
   l ++ map (error_of not_present_body)
          (List.filter (fun d => negb (is_dir bag d)) dirs)).
Proof.
  revert b l. induction dirs as [|d dirs IH]; intros b l; simpl.
  - now rewrite andb_true_r, app_nil_r.
  - destruct (is_dir bag d); simpl.
    + apply IH.
    + rewrite IH. simpl. rewrite andb_false_r. unfold log.
      now rewrite <- app_assoc.
Qed.

Lemma required_appends (self : PayloadStructureValidator) (bag : Bag)
    (l : Logger) :
  _validate_payload_directories_required self bag l =
  (fst (_validate_payload_directories_required self bag []),
   l ++ snd (_validate_payload_directories_required self bag [])).
Proof.
  unfold _validate_payload_directories_required.
  destruct (Payload_Folders_Required (profile self)) as [dirs|]; simpl.
  - now rewrite !required_fold.
  - now rewrite app_nil_r.
Qed.

Lemma required_errors (self : PayloadStructureValidator) (bag : Bag) :
  let out := _validate_payload_directories_required self bag [] in
  pick ERROR (snd out) = snd out /\ (fst out = false <-> snd out <> []).
Proof.
  unfold _validate_payload_directories_required.
  destruct (Payload_Folders_Required (profile self)) as [dirs|]; simpl.
  - rewrite required_fold. simpl. split; [now rewrite pick_errors|].
    induction dirs as [|d dirs IH]; simpl.
    + split; [discriminate | congruence].
    + destruct (is_dir bag d); simpl; [exact IH|].
      split; [discriminate | reflexivity].
  - split; [reflexivity|]. split; [discriminate | congruence].
Qed.

Lemma capitalization_appends (lower : string -> string) (bag : Bag)
    (l : Logger) :
  _validate_payload_files_capitalization lower bag l =
  (fst (_validate_payload_files_capitalization lower bag []),
   l ++ snd (_validate_payload_files_capitalization lower bag [])).
Proof. now rewrite !capitalization_spec. Qed.

Lemma capitalization_errors (lower : string -> string) (bag : Bag) :
  let out := _validate_payload_files_capitalization lower bag [] in
  pick ERROR (snd out) = snd out /\ (fst out = false <-> snd out <> []).
Proof.
  rewrite capitalization_spec. cbn [fst snd app].
  set (pairs := collisions _ _ _). split.
  - induction pairs as [|p pairs IH]; [reflexivity|].
    unfold pick in *. cbn [map List.filter collision_error msg_context].
    rewrite bool_decide_eq_true_2 by reflexivity. f_equal. exact IH.
  - destruct pairs as [|p pairs].
    + split; [intros H; vm_compute in H; discriminate H|].
      intros H. now contradiction H.
    + split; [discriminate | reflexivity].
Qed.

End SubCheckFacts.

(** ** [validate_bag] of the payload structure validator *)

Section ValidateBagFacts.
Import PayloadStructure Spec Logging.
Variable Logger_str : Logger -> string.

(** The whole log of a run in terms of the four sub-checks, each run on
    an empty log. *)
Lemma validate_bag_log (lower : string -> string)
    (self : PayloadStructureValidator) (bag : Bag)
    (ok_a ok_f : bool) (e_a e_f : Logger) :
  _validate_payload_directories_allowed self [] = Ok (ok_a, e_a) ->
  _validate_payload_dir_files self bag [] = Ok (ok_f, e_f) ->
  let ok_r := fst (_validate_payload_directories_required self bag []) in
  let e_r := snd (_validate_payload_directories_required self bag []) in
  let ok_c := fst (_validate_payload_files_capitalization lower bag []) in
  let e_c := snd (_validate_payload_files_capitalization lower bag []) in
  let l :=
    e_a ++ e_r
    ++ [Message INFO VALIDATOR_TAG
          (if ok_a && ok_r then POSITIVE_RESPONSE_ALLOW_REQ (url self)
           else NEGATIVE_RESPONSE_ALLOW_REQ (url self))]
    ++ e_f
    ++ [Message INFO VALIDATOR_TAG
          (if ok_f then POSITIVE_RESPONSE_STRUCT
           else NEGATIVE_RESPONSE_STRUCT)]
    ++ e_c
    ++ [Message INFO VALIDATOR_TAG
          (if ok_c then POSITIVE_RESPONSE_CAP else NEGATIVE_RESPONSE_CAP)] in
  validate_bag lower Logger_str self bag =
  (if ok_a && ok_r && ok_f && ok_c then Ok 0%Z
   else Raise (PayloadStructureValidationError
                 (validation_message Logger_str l)), l).
Proof.
  intros Ha Hf. cbv zeta. unfold validate_bag. rewrite Ha.
  rewrite (required_appends self bag e_a).
  destruct (_validate_payload_directories_required self bag [])
    as [ok_r e_r]. cbn [fst snd].
  destruct ok_a, ok_r, ok_f; cbn [andb]; cbv beta iota zeta;
    rewrite files_appends, Hf; cbv beta iota zeta;
    rewrite (capitalization_appends lower bag (log _ _ _ _));
    destruct (_validate_payload_files_capitalization lower bag [])
      as [ok_c e_c]; cbn [fst snd];
    destruct ok_c; cbn [andb Z.eqb]; cbv beta iota zeta;
    unfold log; rewrite <- ?app_assoc; reflexivity.
Qed.

End ValidateBagFacts.

(** The Errors and the result of [validate_bag] in terms of its four
    sub-checks. *)
Lemma validate_bag_sub_checks
    (lower : string -> string) (Logger_str : Logging.Logger -> string)
    (self : PayloadStructure.PayloadStructureValidator)
    (bag : PayloadStructure.Bag) (ok_a ok_f : bool)
    (e_a e_f : Logging.Logger) :
  PayloadStructure._validate_payload_directories_allowed self []
  = Ok (ok_a, e_a) ->
  PayloadStructure._validate_payload_dir_files self bag [] = Ok (ok_f, e_f) ->
  let required :=
    PayloadStructure._validate_payload_directories_required self bag [] in
  let capitalization :=
    PayloadStructure._validate_payload_files_capitalization lower bag [] in
  let out := PayloadStructure.validate_bag lower Logger_str self bag in
  Logging.pick Logging.ERROR (snd out)
  = e_a ++ snd required ++ e_f ++ snd capitalization /\
  (ok_a = false <-> e_a <> []) /\
  (fst required = false <-> snd required <> []) /\
  (ok_f = false <-> e_f <> []) /\
  (fst capitalization = false <-> snd capitalization <> []) /\
  fst out =
  if ok_a && fst required && ok_f && fst capitalization then Ok 0%Z
  else Raise (PayloadStructureValidationError
                (PayloadStructure.validation_message Logger_str (snd out))).
Proof.
  intros Ha Hf required capitalization out. subst out.
  rewrite (validate_bag_log Logger_str lower self bag ok_a ok_f e_a e_f
             Ha Hf).
  fold required capitalization.
  destruct (allowed_errors _ _ _ Ha) as [Hpa Hia].
  destruct (files_errors _ _ _ _ Hf) as [Hpf Hif].
  destruct (required_errors self bag) as [Hpr Hir].
  destruct (capitalization_errors lower bag) as [Hpc Hic].
  fold required in Hpr, Hir. fold capitalization in Hpc, Hic.
  simpl snd. simpl fst. repeat split; try tauto.
  repeat (rewrite pick_app || rewrite pick_info_cons).
  rewrite Hpa, Hpr, Hpf, Hpc. cbn [Logging.pick List.filter].
  now rewrite !app_nil_r.
Qed.


(** C5: in one call of [validate_bag] the four sub-checks all run: the
    Errors of the log are those of the reconciliation of required
    against allowed directories, of the existence of the required
    directories, of the placement of the files and of the capitalization
    check, in this order, whatever the earlier ones found. A sub-check
    fails exactly when it logs an Error, and the call returns 0 when
    every sub-check passes and raises the
    [PayloadStructureValidationError] built from the log otherwise. *)
Theorem C5_validate_bag_runs_all_sub_checks
    (lower : string -> string) (Logger_str : Logging.Logger -> string)
    (self : PayloadStructure.PayloadStructureValidator)
    (bag : PayloadStructure.Bag) (ok_a ok_f : bool)
    (e_a e_f : Logging.Logger) :
  PayloadStructure._validate_payload_directories_allowed self []
  = Ok (ok_a, e_a) ->
  PayloadStructure._validate_payload_dir_files self bag [] = Ok (ok_f, e_f) ->
  let required :=
    PayloadStructure._validate_payload_directories_required self bag [] in
  let capitalization :=
    PayloadStructure._validate_payload_files_capitalization lower bag [] in
  let out := PayloadStructure.validate_bag lower Logger_str self bag in
  Logging.pick Logging.ERROR (snd out)
  = e_a ++ snd required ++ e_f ++ snd capitalization /\
  (ok_a = false <-> e_a <> []) /\
  (fst required = false <-> snd required <> []) /\
  (ok_f = false <-> e_f <> []) /\
  (fst capitalization = false <-> snd capitalization <> []) /\
  fst out =
  if ok_a && fst required && ok_f && fst capitalization then Ok 0%Z
  else Raise (PayloadStructureValidationError
                (PayloadStructure.validation_message Logger_str (snd out))).
Proof. apply validate_bag_sub_checks. Qed.

Lemma C5_validate_bag_runs_all_sub_checks_witness :
  let out :=
    PayloadStructure.validate_bag Str.lower Fixture.plain_str
      Fixture.minimal_validator Fixture.broken_bag in
  Logging.pick Logging.ERROR (snd out) =
  [Spec.error_of PayloadStructure.not_present_body "required_directory";
   Spec.error_of PayloadStructure.illegal_location_body
     "data/required_directory_bad/dummy.txt";
   Spec.collision_error ("data/optional_directory/4/TEST.dat",
                         "data/optional_directory/4/test.dat")] /\
  fst out =
  Raise (PayloadStructureValidationError
           (PayloadStructure.validation_message Fixture.plain_str (snd out))).
Proof.
  destruct (C5_validate_bag_runs_all_sub_checks Str.lower Fixture.plain_str
              Fixture.minimal_validator Fixture.broken_bag true false []
              [Spec.error_of PayloadStructure.illegal_location_body
                 "data/required_directory_bad/dummy.txt"]
              eq_refl eq_refl)
    as (Hlog & _ & _ & _ & _ & Hout).
  split; [exact Hlog | exact Hout].
Defined.

(** On a bag whose paths are ASCII, [validate_bag] is the one with
    [Str.lower]. *)
Lemma validate_bag_ascii (lower : string -> string)
    (Logger_str : Logging.Logger -> string)
    (self : PayloadStructure.PayloadStructureValidator)
    (bag : PayloadStructure.Bag) :
  Spec.lowers_ascii lower ->
  Forall (fun f => Str.is_ascii (PayloadStructure.relative_to_bag f) = true)
    (PayloadStructure.payload_files bag) ->
  PayloadStructure.validate_bag lower Logger_str self bag
  = PayloadStructure.validate_bag Str.lower Logger_str self bag.
Proof.
  intros Hlower Hascii. unfold PayloadStructure.validate_bag.
  destruct (PayloadStructure._validate_payload_directories_allowed self [])
    as [[ok_a l1]|e]; [|reflexivity].
  destruct (PayloadStructure._validate_payload_directories_required self bag
              l1) as [ok_r l2].
  destruct (ok_a && ok_r); cbv beta iota zeta;
    destruct (PayloadStructure._validate_payload_dir_files self bag _)
      as [[ok_f l4]|e]; try reflexivity;
    destruct ok_f; cbv beta iota zeta;
    now rewrite (capitalization_ascii lower bag _ Hlower Hascii).
Qed.

(** C3: with the minimal profile, the example bag validates with exit
    code 0 and no Error; with [optional_directory/4a/dummy.doc] added,
    validation raises, the only Error of the log is the
    illegal-location Error with the path of the added file, and no
    message of the log mentions the file under [optional_directory/4/].
    The paths are ASCII, so that of [str.lower] only its behaviour on
    ASCII strings is used. *)
Theorem C3_minimal_profile_scenario (lower : string -> string)
    (Logger_str : Logging.Logger -> string) :
  Spec.lowers_ascii lower ->
  PayloadStructure.init "MINIMAL_PROFILE" Fixture.minimal_profile
  = Ok Fixture.minimal_validator /\
  (let out := PayloadStructure.validate_bag lower Logger_str
                Fixture.minimal_validator Fixture.example_bag in
   fst out = Ok 0%Z /\ Logging.pick Logging.ERROR (snd out) = []) /\
  (let out := PayloadStructure.validate_bag lower Logger_str
                Fixture.minimal_validator Fixture.example_bag_4a in
   fst out = Raise (PayloadStructureValidationError
                      (PayloadStructure.validation_message Logger_str
                         (snd out))) /\
   Logging.pick Logging.ERROR (snd out) =
   [Logging.Message Logging.ERROR "Payload Structure Validator"
      ("File 'data/optional_directory/4a/dummy.doc' found in illegal "
       +:+ "location of payload directory.")] /\
   Forall (fun m =>
             Str.contains "optional_directory/4/" (Logging.msg_body m)
             = false) (snd out)).
Proof.
  intros Hlower. split; [reflexivity|].
  rewrite !(validate_bag_ascii lower Logger_str)
    by (assumption || (vm_compute; repeat constructor)).
  split; [split; reflexivity|].
  split; [reflexivity|]. split; [reflexivity|].
  vm_compute. repeat constructor.
Qed.

Lemma C3_minimal_profile_scenario_witness :
  Logging.pick Logging.ERROR
    (snd (PayloadStructure.validate_bag Str.lower Fixture.plain_str
            Fixture.minimal_validator Fixture.example_bag_4a)) =
  [Logging.Message Logging.ERROR "Payload Structure Validator"
     ("File 'data/optional_directory/4a/dummy.doc' found in illegal "
      +:+ "location of payload directory.")].
Proof.
  destruct (C3_minimal_profile_scenario Str.lower Fixture.plain_str)
    as (_ & _ & _ & H & _).
  - intros s _. reflexivity.
  - exact H.
Defined.

(** ** The file integrity validator *)

Section FileIntegrityFacts.
Import FileIntegrity.

Lemma unsupported_method (m : string) :
  ~ In m ["md5"; "sha1"; "sha256"; "sha512"] ->
  SUPPORTED_HASHING_METHODS m = None.
Proof.
  intros H. unfold SUPPORTED_HASHING_METHODS.
  destruct (String.eqb_spec m "md5") as [-> | _];
    [exfalso; apply H; simpl; tauto|].
  destruct (String.eqb_spec m "sha1") as [-> | _];
    [exfalso; apply H; simpl; tauto|].
  destruct (String.eqb_spec m "sha256") as [-> | _];
    [exfalso; apply H; simpl; tauto|].
  destruct (String.eqb_spec m "sha512") as [-> | _];
    [exfalso; apply H; simpl; tauto|].
  reflexivity.
Qed.

Lemma or_empty (b : option string) : Str.or_ (Some "") b = Str.or_ None b.
Proof. reflexivity. Qed.

Lemma get_method_empty_value_irrelevant (repr : string)
    (self_method method_arg : option string) (e : exn) :
  _get_method repr self_method method_arg false = Raise e ->
  exists msg, e = ValueError msg.
Proof.
  unfold _get_method.
  destruct (negb false && bool_decide (method_arg = None)
            && bool_decide (self_method = None)).
  - intros [= <-]. eauto.
  - destruct method_arg as [m|]; [|discriminate].
    destruct (SUPPORTED_HASHING_METHODS m); [discriminate|].
    intros [= <-]. eauto.
Qed.

End FileIntegrityFacts.

(** C4 (as amended): when the method and the expected digest are given
    and the file can be read, the single-file check succeeds exactly
    when the recomputed hexadecimal digest is equal to the expected
    digest character by character; otherwise it raises, and the Error of
    the log names the expected and the computed digest. *)
Theorem C4_validate_file_compares_digests_exactly
    (hashlib : FileIntegrity.hashing_method -> list Byte.byte -> string)
    (methods_repr : string) (read_bytes : string -> option (list Byte.byte))
    (self : FileIntegrity.FileIntegrityValidator) (file_path : string)
    (method_arg value_arg : option string) (m expected : string)
    (hm : FileIntegrity.hashing_method) (data : list Byte.byte) :
  FileIntegrity._get_method methods_repr (FileIntegrity.method self)
    method_arg false = Ok (Some m) ->
  FileIntegrity.SUPPORTED_HASHING_METHODS m = Some hm ->
  Str.or_ value_arg (FileIntegrity.value self) = Some expected ->
  read_bytes file_path = Some data ->
  FileIntegrity.validate_file hashlib methods_repr read_bytes self file_path
    method_arg value_arg =
  if String.eqb (hashlib hm data) expected
  then (Ok 0%Z,
        [Logging.Message Logging.INFO FileIntegrity.VALIDATOR_TAG
           FileIntegrity.POSITIVE_RESPONSE])
  else (Raise (PayloadIntegrityValidationError "Invalid file."),
        [Logging.Message Logging.INFO FileIntegrity.VALIDATOR_TAG
           FileIntegrity.NEGATIVE_RESPONSE;
         Logging.Message Logging.ERROR FileIntegrity.VALIDATOR_TAG
           (FileIntegrity.ERROR_DETAIL_RESPONSE expected (hashlib hm data))]).
Proof.
  intros Hm Hhm Hv Hdata. unfold FileIntegrity.validate_file.
  rewrite Hm, Hv. unfold FileIntegrity.hash_from_file.
  rewrite Hdata. unfold FileIntegrity.hash_from_bytes. rewrite Hhm.
  now destruct (String.eqb (hashlib hm data) expected).
Qed.

Lemma C4_validate_file_compares_digests_exactly_witness :
  FileIntegrity.validate_file Fixture.hashlib_on_empty "{}"
    Fixture.one_empty_file
    {| FileIntegrity.method := None; FileIntegrity.value := None |}
    "data/empty.bin" (Some "md5") (Some "d41d8cd98f00b204e9800998ecf8427e") =
  if String.eqb (Fixture.hashlib_on_empty FileIntegrity.md5 [])
       "d41d8cd98f00b204e9800998ecf8427e"
  then (Ok 0%Z,
        [Logging.Message Logging.INFO FileIntegrity.VALIDATOR_TAG
           FileIntegrity.POSITIVE_RESPONSE])
  else (Raise (PayloadIntegrityValidationError "Invalid file."),
        [Logging.Message Logging.INFO FileIntegrity.VALIDATOR_TAG
           FileIntegrity.NEGATIVE_RESPONSE;
         Logging.Message Logging.ERROR FileIntegrity.VALIDATOR_TAG
           (FileIntegrity.ERROR_DETAIL_RESPONSE
              "d41d8cd98f00b204e9800998ecf8427e"
              (Fixture.hashlib_on_empty FileIntegrity.md5 []))]).
Proof.
  apply (C4_validate_file_compares_digests_exactly _ _ _ _ _ _ _ "md5");
    reflexivity.
Defined.

(** C4, the claim as stated fails: the expected digest of the empty file
    written in upper case is equal to the recomputed digest when case is
    ignored, and the check raises. *)
Lemma C4_case_insensitive_counterexample :
  let expected := "D41D8CD98F00B204E9800998ECF8427E" in
  let out :=
    FileIntegrity.validate_file Fixture.hashlib_on_empty "{}"
      Fixture.one_empty_file
      {| FileIntegrity.method := None; FileIntegrity.value := None |}
      "data/empty.bin" (Some "md5") (Some expected) in
  Str.lower expected
  = Str.lower (Fixture.hashlib_on_empty FileIntegrity.md5 []) /\
  fst out = Raise (PayloadIntegrityValidationError "Invalid file.") /\
  Logging.pick Logging.ERROR (snd out) =
  [Logging.Message Logging.ERROR FileIntegrity.VALIDATOR_TAG
     (FileIntegrity.ERROR_DETAIL_RESPONSE expected
        "d41d8cd98f00b204e9800998ecf8427e")].
Proof. repeat split. Qed.

(** C8 (as amended): a method identifier outside md5, sha1, sha256 and
    sha512 makes the constructor and [validate_file], given the
    identifier as argument, raise [ValueError] before the file is read,
    and [hash_from_bytes] raise [ValueError]. [hash_from_file] reads the
    file first, and so does [validate_file] when the identifier is the
    method of the validator, which only an assignment after the
    construction can make it: they raise [ValueError] when the file can
    be read and [FileNotFoundError] otherwise. In every case the log
    stays empty and the exception is no validation error. *)
Theorem C8_unsupported_method_fails_without_report
    (hashlib : FileIntegrity.hashing_method -> list Byte.byte -> string)
    (methods_repr : string) (read_bytes : string -> option (list Byte.byte))
    (m : string) :
  ~ In m ["md5"; "sha1"; "sha256"; "sha512"] ->
  (forall value,
      FileIntegrity.init methods_repr (Some m) value
      = Raise (ValueError (FileIntegrity.not_allowed_message methods_repr m)))
  /\
  (forall self file_path value,
      FileIntegrity.validate_file hashlib methods_repr read_bytes self
        file_path (Some m) value
      = (Raise (ValueError
                  (FileIntegrity.not_allowed_message methods_repr m)), []))
  /\
  (forall data,
      FileIntegrity.hash_from_bytes hashlib m data
      = Raise (ValueError (FileIntegrity.unknown_method_message m)))
  /\
  (forall path,
      FileIntegrity.hash_from_file hashlib read_bytes m path =
      match read_bytes path with
      | Some _ => Raise (ValueError (FileIntegrity.unknown_method_message m))
      | None => Raise FileNotFoundError
      end)
  /\
  (forall self file_path value,
      FileIntegrity.method self = Some m ->
      FileIntegrity.validate_file hashlib methods_repr read_bytes self
        file_path None value
      = (match Str.or_ value (FileIntegrity.value self) with
         | None => Raise (ValueError "Missing required argument 'value'.")
         | Some _ =>
             match read_bytes file_path with
             | Some _ =>
                 Raise (ValueError (FileIntegrity.unknown_method_message m))
             | None => Raise FileNotFoundError
             end
         end, []))
  /\
  (forall self file_path method value,
      method = Some m \/ (method = None /\ FileIntegrity.method self = Some m) ->
      exists e,
        FileIntegrity.validate_file hashlib methods_repr read_bytes self
          file_path method value = (Raise e, []) /\
        is_validation_error e = false).
Proof.
  intros H. apply unsupported_method in H.
  assert (Hself : forall self file_path value,
             FileIntegrity.method self = Some m ->
             FileIntegrity.validate_file hashlib methods_repr read_bytes self
               file_path None value
             = (match Str.or_ value (FileIntegrity.value self) with
                | None =>
                    Raise (ValueError "Missing required argument 'value'.")
                | Some _ =>
                    match read_bytes file_path with
                    | Some _ =>
                        Raise (ValueError
                                 (FileIntegrity.unknown_method_message m))
                    | None => Raise FileNotFoundError
                    end
                end, [])).
  { intros self file_path value Hm.
    unfold FileIntegrity.validate_file, FileIntegrity._get_method.
    rewrite Hm. cbn [negb andb bool_decide Str.or_].
    rewrite (bool_decide_eq_false_2 (Some m = None)) by discriminate.
    rewrite andb_false_r.
    destruct (Str.or_ value (FileIntegrity.value self)); [|reflexivity].
    unfold FileIntegrity.hash_from_file, FileIntegrity.hash_from_bytes.
    rewrite H. now destruct (read_bytes file_path). }
  assert (Harg : forall self file_path value,
             FileIntegrity.validate_file hashlib methods_repr read_bytes self
               file_path (Some m) value
             = (Raise (ValueError
                         (FileIntegrity.not_allowed_message methods_repr m)),
                [])).
  { intros self file_path value.
    unfold FileIntegrity.validate_file, FileIntegrity._get_method.
    simpl. now rewrite H. }
  split.
  { intros value. unfold FileIntegrity.init, FileIntegrity._get_method.
    simpl. now rewrite H. }
  split; [exact Harg|].
  split.
  { intros data. unfold FileIntegrity.hash_from_bytes. now rewrite H. }
  split.
  { intros path. unfold FileIntegrity.hash_from_file,
      FileIntegrity.hash_from_bytes. rewrite H.
    now destruct (read_bytes path). }
  split; [exact Hself|].
  intros self file_path method value [-> | [-> Hm]].
  - rewrite Harg. eauto.
  - rewrite (Hself self file_path value Hm).
    destruct (Str.or_ value (FileIntegrity.value self)); [|eauto].
    destruct (read_bytes file_path); eauto.
Qed.

Lemma C8_unsupported_method_fails_without_report_witness :
  FileIntegrity.init "{}" (Some "md5a")
    (Some "45c364570527d9bde2fee474a475c911")
  = Raise (ValueError (FileIntegrity.not_allowed_message "{}" "md5a")) /\
  FileIntegrity.validate_file Fixture.hashlib_on_empty "{}"
    Fixture.one_empty_file
    {| FileIntegrity.method := None; FileIntegrity.value := None |}
    "data/empty.bin" (Some "md5a") (Some "45c364570527d9bde2fee474a475c911")
  = (Raise (ValueError (FileIntegrity.not_allowed_message "{}" "md5a")), []).
Proof.
  assert (H : ~ In "md5a" ["md5"; "sha1"; "sha256"; "sha512"]).
  { simpl. intros [H | [H | [H | [H | H]]]]; (discriminate || contradiction). }
  destruct (C8_unsupported_method_fails_without_report
              Fixture.hashlib_on_empty "{}" Fixture.one_empty_file "md5a" H)
    as (Hinit & Hval & _).
  split; [apply Hinit | apply Hval].
Defined.

(** C8, the claim as stated fails: for a file that cannot be read,
    [hash_from_file] with an unsupported method raises
    [FileNotFoundError], not [ValueError], because the file is read
    before the method is looked up. *)
Lemma C8_missing_file_counterexample :
  FileIntegrity.SUPPORTED_HASHING_METHODS "md5a" = None /\
  Fixture.one_empty_file "data/missing.bin" = None /\
  FileIntegrity.hash_from_file Fixture.hashlib_on_empty
    Fixture.one_empty_file "md5a" "data/missing.bin"
  = Raise FileNotFoundError.
Proof. repeat split. Qed.

(** C10 (as amended): an empty [value] argument is ignored, the call
    behaves as without the argument and [self.value] is the expected
    digest; when [self.value] is [None] the call raises [ValueError]
    with an empty log, whether or not the file can be read. *)
Theorem C10_empty_value_falls_back_to_instance_value
    (hashlib : FileIntegrity.hashing_method -> list Byte.byte -> string)
    (methods_repr : string) (read_bytes : string -> option (list Byte.byte))
    (self : FileIntegrity.FileIntegrityValidator) (file_path : string)
    (method_arg : option string) :
  Str.or_ (Some "") (FileIntegrity.value self) = FileIntegrity.value self /\
  FileIntegrity.validate_file hashlib methods_repr read_bytes self file_path
    method_arg (Some "")
  = FileIntegrity.validate_file hashlib methods_repr read_bytes self file_path
      method_arg None /\
  (FileIntegrity.value self = None ->
   forall read_bytes' : string -> option (list Byte.byte),
   exists msg,
     FileIntegrity.validate_file hashlib methods_repr read_bytes' self
       file_path method_arg (Some "") = (Raise (ValueError msg), [])).
Proof.
  repeat split.
  intros Hnone read_bytes'. unfold FileIntegrity.validate_file.
  rewrite or_empty. simpl. rewrite Hnone.
  destruct (FileIntegrity._get_method methods_repr
              (FileIntegrity.method self) method_arg false) as [om|e] eqn:Hm.
  - eauto.
  - apply get_method_empty_value_irrelevant in Hm as [msg ->]. eauto.
Qed.

(** C10, the claim as stated fails: with the empty string as
    [self.value], an empty [value] argument falls back to it, and the
    empty expected digest is compared with the digest of the file. *)
Lemma C10_empty_digest_compared_counterexample :
  FileIntegrity.validate_file Fixture.hashlib_on_empty "{}"
    Fixture.one_empty_file
    {| FileIntegrity.method := Some "md5"; FileIntegrity.value := Some "" |}
    "data/empty.bin" None (Some "") =
  (Raise (PayloadIntegrityValidationError "Invalid file."),
   [Logging.Message Logging.INFO FileIntegrity.VALIDATOR_TAG
      FileIntegrity.NEGATIVE_RESPONSE;
    Logging.Message Logging.ERROR FileIntegrity.VALIDATOR_TAG
      (FileIntegrity.ERROR_DETAIL_RESPONSE ""
         "d41d8cd98f00b204e9800998ecf8427e")]).
Proof. reflexivity. Qed.

(** ** The file format validator *)

Section FileFormatFacts.
Import FileFormat Spec Logging.
Variable Logger_str : Logger -> string.
Variable get_mime_type : string -> option string.

Lemma failing_verdict_cons (v : selector * Plugin)
    (vs : list (selector * Plugin)) (p t : string) :
  failing_verdict (v :: vs) p t <->
  (selector_matches (fst v) t /\
   fst (validate_file_format (snd v) p t) <> 0%Z)
  \/ failing_verdict vs p t.
Proof. unfold failing_verdict. apply Exists_cons. Qed.

(** How the loop of [validate_file] treats one selector. *)
Lemma selector_cases (v : selector * Plugin) (t : string) :
  selector_ok v ->
  (selector_matches (fst v) t /\
   forall vs p code l,
     run_validators (v :: vs) p t code l =
     run_validators vs p t
       (if (fst (validate_file_format (snd v) p t) =? 0)%Z
        then code else 1%Z)
       (merge l (snd (validate_file_format (snd v) p t))))
  \/
  (~ selector_matches (fst v) t /\
   forall vs p code l,
     run_validators (v :: vs) p t code l =
     run_validators vs p t code (l ++ [unchecked_warning p t v])).
Proof.
  destruct v as [[types | pattern] plugin]; unfold selector_ok; simpl.
  - intros _. destruct (decide (t ∈ types)) as [Hin | Hnin].
    + left. split; [now apply list_elem_of_In|]. intros vs p code l.
      rewrite bool_decide_eq_true_2 by assumption.
      now destruct (validate_file_format plugin p t).
    + right. split; [now rewrite <- list_elem_of_In|]. intros vs p code l.
      now rewrite bool_decide_eq_false_2 by assumption.
  - intros [rx Hrx]. rewrite Hrx.
    destruct (Re.fullmatch rx (list_ascii_of_string t)) eqn:Hm.
    + left. split; [exists rx; split; [reflexivity | now apply fullmatch_spec]|].
      intros vs p code l. now destruct (validate_file_format plugin p t).
    + right. split; [|reflexivity].
      intros (rx' & Hrx' & Hlang). injection Hrx' as <-.
      apply fullmatch_spec in Hlang. congruence.
Qed.

Lemma run_validators_unmatched (vs : list (selector * Plugin))
    (p t : string) (code : Z) (l : Logger) :
  Forall selector_ok vs ->
  Forall (fun v => ~ selector_matches (fst v) t) vs ->
  run_validators vs p t code l =
  (Ok code, l ++ map (unchecked_warning p t) vs).
Proof.
  intros Hok. revert l.
  induction Hok as [|v vs Hv _ IH]; intros l Hno.
  - simpl. now rewrite app_nil_r.
  - apply Forall_cons in Hno as [Hno1 Hno].
    destruct (selector_cases v t Hv) as [[Hyes _] | [_ Hstep]];
      [contradiction|].
    rewrite Hstep, IH by assumption. simpl. now rewrite <- app_assoc.
Qed.

Lemma run_validators_spec (vs : list (selector * Plugin))
    (p t : string) (code : Z) (l : Logger) :
  Forall selector_ok vs ->
  exists code' l',
    run_validators vs p t code l = (Ok code', l') /\
    ((code' = code /\ ~ failing_verdict vs p t)
     \/ (code' = 1%Z /\ failing_verdict vs p t)).
Proof.
  intros Hok. revert code l.
  induction Hok as [|v vs Hv _ IH]; intros code l.
  - exists code, l. split; [reflexivity|]. left.
    split; [reflexivity | inversion 1].
  - destruct (selector_cases v t Hv) as [[Hyes Hstep] | [Hno Hstep]];
      rewrite Hstep.
    + destruct (Z.eqb_spec (fst (validate_file_format (snd v) p t)) 0)
        as [Hz | Hnz].
      * destruct (IH code (merge l (snd (validate_file_format (snd v) p t))))
          as (code' & l' & -> & Hcases).
        exists code', l'. split; [reflexivity|].
        rewrite failing_verdict_cons. tauto.
      * destruct (IH 1%Z (merge l (snd (validate_file_format (snd v) p t))))
          as (code' & l' & -> & Hcases).
        exists code', l'. split; [reflexivity|].
        rewrite failing_verdict_cons. tauto.
    + destruct (IH code (l ++ [unchecked_warning p t v]))
        as (code' & l' & -> & Hcases).
      exists code', l'. split; [reflexivity|].
      rewrite failing_verdict_cons. tauto.
Qed.

(** Without an assumption on the selectors, the loop ends with an exit
    code or with the error of [re]. *)
Lemma run_validators_outcome (vs : list (selector * Plugin))
    (p t : string) (code : Z) (l : Logger) :
  (exists code' l', run_validators vs p t code l = (Ok code', l') /\
                    (code' = code \/ code' = 1%Z))
  \/ (exists e l', run_validators vs p t code l = (Raise e, l') /\
                   is_validation_error e = false).
Proof.
  revert code l. induction vs as [|[sel plugin] vs IH]; intros code l; simpl.
  - left. exists code, l. auto.
  - assert (Hrun : forall c l0,
               (exists code' l',
                   run_validators vs p t
                     (if (c =? 0)%Z then code else 1%Z) l0 = (Ok code', l') /\
                   (code' = code \/ code' = 1%Z))
               \/ (exists e l',
                      run_validators vs p t
                        (if (c =? 0)%Z then code else 1%Z) l0 = (Raise e, l') /\
                      is_validation_error e = false)).
    { intros c l0. destruct (c =? 0)%Z; [apply IH|].
      destruct (IH 1%Z l0) as [(code' & l' & H & Hc) | H]; [|now right].
      left. exists code', l'. split; [assumption | tauto]. }
    destruct sel as [types | pattern].
    + destruct (bool_decide (t ∈ types)); [|apply IH].
      destruct (validate_file_format plugin p t) as [c plog]. apply Hrun.
    + destruct (Re.compile pattern) as [rx|].
      * destruct (Re.fullmatch rx (list_ascii_of_string t)); [|apply IH].
        destruct (validate_file_format plugin p t) as [c plog]. apply Hrun.
      * right. exists (ReError pattern), l. auto.
Qed.

Lemma finalize_spec (code : Z) (print_log : bool) (l : Logger) :
  (code = 0%Z /\ exists l', _finalize Logger_str code print_log l = (Ok tt, l'))
  \/ (code <> 0%Z /\
      exists l', _finalize Logger_str code print_log l =
                 (Raise (FileFormatValidationError
                           (validation_message Logger_str l')), l')).
Proof.
  unfold _finalize. destruct (Z.eqb_spec code 0) as [-> | Hne].
  - left. split; [reflexivity|]. eauto.
  - right. split; [assumption|]. eauto.
Qed.

(** The outcomes of [validate_file] on a [Path]. *)
Lemma validate_file_outcome (self : FileFormatValidator) (p : string)
    (clear_report log_summary : bool) (l : Logger) :
  let out := validate_file Logger_str get_mime_type self (ArgPath p)
               clear_report log_summary l in
  zero_or_raises
    (fun l' => FileFormatValidationError (validation_message Logger_str l'))
    out
  \/ (get_mime_type p = None /\ fst out = Ok 1%Z /\
      contains ERROR (snd out) = true).
Proof.
  unfold validate_file, zero_or_raises.
  set (l0 := if clear_report then [] else l).
  destruct (get_mime_type p) as [t|]; simpl.
  - left.
    destruct (run_validators_outcome (validators self) p t 0%Z l0)
      as [(code & l1 & -> & Hcode) | (e & l1 & -> & He)].
    + destruct (finalize_spec code log_summary l1)
        as [[-> (l2 & ->)] | [Hne (l2 & ->)]]; simpl; auto.
    + simpl. right. right. eauto.
  - right. repeat split. unfold contains, log.
    rewrite existsb_app. simpl. apply orb_true_r.
Qed.

(** Inside [validate_bag], a file contributes a failure exactly when it
    is unidentifiable or a selected plugin fails it. *)
Lemma validate_file_in_bag (self : FileFormatValidator) (p : string)
    (l : Logger) :
  Forall selector_ok (validators self) ->
  exists l',
    (validate_file Logger_str get_mime_type self (ArgPath p) false false l
     = (Ok 0%Z, l') /\ ~ file_fails get_mime_type (validators self) p)
    \/ ((validate_file Logger_str get_mime_type self (ArgPath p) false false l
         = (Ok 1%Z, l')
         \/ exists msg,
             validate_file Logger_str get_mime_type self (ArgPath p)
               false false l = (Raise (FileFormatValidationError msg), l'))
        /\ file_fails get_mime_type (validators self) p).
Proof.
  intros Hok. unfold validate_file, file_fails.
  destruct (get_mime_type p) as [t|].
  - destruct (run_validators_spec (validators self) p t 0%Z l Hok)
      as (code & l1 & -> & [[-> Hnf] | [-> Hf]]).
    + exists l1. left. split; [reflexivity | assumption].
    + eexists. right. split; [right; eexists; reflexivity | assumption].
  - eexists. right. split; [left; reflexivity | exact I].
Qed.

End FileFormatFacts.

Section FileFormatBagFacts.
Import FileFormat Spec Logging.
Variable Logger_str : Logger -> string.
Variable get_mime_type : string -> option string.

Lemma validate_files_spec (self : FileFormatValidator) (files : list string)
    (code : Z) (l : Logger) :
  Forall selector_ok (validators self) ->
  exists code' l',
    validate_files Logger_str get_mime_type self files code l
    = (Ok code', l') /\
    ((code' = code /\
      ~ Exists (file_fails get_mime_type (validators self)) files)
     \/ (code' = 1%Z /\
         Exists (file_fails get_mime_type (validators self)) files)).
Proof.
  intros Hok. revert code l.
  induction files as [|p files IH]; intros code l.
  - exists code, l. split; [reflexivity|]. left.
    split; [reflexivity | inversion 1].
  - cbn [validate_files].
    destruct (validate_file_in_bag Logger_str get_mime_type self p l Hok)
      as [l1 [[-> Hnf] | [[-> | [msg ->]] Hf]]]; cbn [Z.eqb].
    + destruct (IH code l1) as (code' & l' & -> & Hcases).
      exists code', l'. split; [reflexivity|]. rewrite Exists_cons. tauto.
    + destruct (IH 1%Z l1) as (code' & l' & -> & Hcases).
      exists code', l'. split; [reflexivity|]. rewrite Exists_cons. tauto.
    + destruct (IH 1%Z l1) as (code' & l' & -> & Hcases).
      exists code', l'. split; [reflexivity|]. rewrite Exists_cons. tauto.
Qed.

Lemma validate_files_outcome (self : FileFormatValidator)
    (files : list string) (code : Z) (l : Logger) :
  (exists code' l',
      validate_files Logger_str get_mime_type self files code l
      = (Ok code', l') /\ (code' = code \/ code' = 1%Z))
  \/ (exists e l',
         validate_files Logger_str get_mime_type self files code l
         = (Raise e, l') /\ is_validation_error e = false).
Proof.
  revert code l. induction files as [|p files IH]; intros code l.
  - left. exists code, l. auto.
  - assert (Hone : forall l1,
               (exists code' l',
                   validate_files Logger_str get_mime_type self files 1%Z l1
                   = (Ok code', l') /\ (code' = code \/ code' = 1%Z))
               \/ (exists e l',
                      validate_files Logger_str get_mime_type self files 1%Z l1
                      = (Raise e, l') /\ is_validation_error e = false)).
    { intros l1. destruct (IH 1%Z l1) as [(code' & l' & H & Hc) | H];
        [|now right].
      left. exists code', l'. split; [assumption | tauto]. }
    cbn [validate_files].
    destruct (validate_file_outcome Logger_str get_mime_type self p
                false false l) as [[H | [H | (e & H & He)]] | (_ & H & _)];
      destruct (validate_file Logger_str get_mime_type self
                  (ArgPath p) false false l) as [r l1];
      cbn [fst snd] in H; subst r; cbn [Z.eqb].
    + apply IH.
    + apply Hone.
    + destruct e; try discriminate He; right; eauto.
    + apply Hone.
Qed.

Lemma validate_bag_outcome (self : FileFormatValidator)
    (files : list string) :
  zero_or_raises
    (fun l' => FileFormatValidationError (validation_message Logger_str l'))
    (validate_bag Logger_str get_mime_type self files).
Proof.
  unfold validate_bag, zero_or_raises.
  destruct (validate_files_outcome self files 0%Z [])
    as [(code & l1 & -> & Hcode) | (e & l1 & -> & He)].
  - destruct (finalize_spec Logger_str code true l1)
      as [[-> (l2 & ->)] | [Hne (l2 & ->)]]; cbn [fst snd]; auto.
  - cbn [fst snd]. right. right. eauto.
Qed.

Lemma validate_bag_spec (self : FileFormatValidator) (files : list string) :
  Forall selector_ok (validators self) ->
  let out := validate_bag Logger_str get_mime_type self files in
  (Exists (file_fails get_mime_type (validators self)) files ->
   fst out = Raise (FileFormatValidationError
                      (validation_message Logger_str (snd out)))) /\
  (~ Exists (file_fails get_mime_type (validators self)) files ->
   fst out = Ok 0%Z).
Proof.
  intros Hok. cbv zeta. unfold validate_bag.
  destruct (validate_files_spec self files 0%Z [] Hok)
    as (code & l1 & -> & [[-> Hnf] | [-> Hf]]).
  - destruct (finalize_spec Logger_str 0 true l1)
      as [[_ (l2 & ->)] | [Hne _]]; [|congruence].
    cbn [fst snd]. split; [contradiction | reflexivity].
  - destruct (finalize_spec Logger_str 1 true l1)
      as [[Heq _] | [_ (l2 & ->)]]; [discriminate|].
    cbn [fst snd]. split; [reflexivity | contradiction].
Qed.

End FileFormatBagFacts.

(** C9: when the selectors compile, an identified file whose MIME type
    no selector selects gets one Warning per plugin and nothing else,
    its validation returns 0, and it is not a failing file; and
    [validate_bag] raises the [FileFormatValidationError] exactly when
    some file is unidentifiable or is failed by a plugin selected for its
    type, and returns 0 otherwise. *)
Theorem C9_unmatched_files_warn_and_bag_verdict
    (Logger_str : Logging.Logger -> string)
    (get_mime_type : string -> option string)
    (self : FileFormat.FileFormatValidator) :
  Forall Spec.selector_ok (FileFormat.validators self) ->
  (forall p t l,
      get_mime_type p = Some t ->
      Forall (fun v => ~ Spec.selector_matches (fst v) t)
        (FileFormat.validators self) ->
      FileFormat.validate_file Logger_str get_mime_type self
        (FileFormat.ArgPath p) false false l
      = (Ok 0%Z,
         l ++ map (Spec.unchecked_warning p t) (FileFormat.validators self))
      /\ ~ Spec.file_fails get_mime_type (FileFormat.validators self) p)
  /\
  (forall files,
      let out := FileFormat.validate_bag Logger_str get_mime_type self files in
      (Exists (Spec.file_fails get_mime_type (FileFormat.validators self))
         files ->
       fst out = Raise (FileFormatValidationError
                          (FileFormat.validation_message Logger_str
                             (snd out)))) /\
      (~ Exists (Spec.file_fails get_mime_type (FileFormat.validators self))
           files ->
       fst out = Ok 0%Z)).
Proof.
  intros Hok. split.
  - intros p t l Ht Hno. split.
    + unfold FileFormat.validate_file. rewrite Ht.
      now rewrite run_validators_unmatched.
    + unfold Spec.file_fails, Spec.failing_verdict. rewrite Ht.
      intros HE. apply Exists_exists in HE as (v & Hin & Hm & _).
      rewrite Forall_forall in Hno. now apply (Hno v).
  - intros files. now apply validate_bag_spec.
Qed.

Lemma text_plugin_passes_example_files :
  ~ Exists
      (Spec.file_fails Fixture.fido
         [(FileFormat.SelList ["text/plain"], Fixture.accepting_plugin)])
      ["data/readme.txt"; "data/sample.png"].
Proof.
  assert (Hnone : forall p t,
             ~ Spec.failing_verdict
                 [(FileFormat.SelList ["text/plain"],
                   Fixture.accepting_plugin)] p t).
  { intros p t HE. apply Exists_cons in HE as [[_ HE] | HE];
      [now apply HE | inversion HE]. }
  intros HE. apply Exists_cons in HE as [HE | HE]; [now apply Hnone in HE|].
  apply Exists_cons in HE as [HE | HE]; [now apply Hnone in HE|].
  inversion HE.
Qed.

Lemma C9_unmatched_files_warn_and_bag_verdict_witness :
  let self :=
    {| FileFormat.validators :=
         [(FileFormat.SelList ["text/plain"], Fixture.accepting_plugin)] |} in
  FileFormat.validate_file Fixture.plain_str Fixture.fido self
    (FileFormat.ArgPath "data/sample.png") false false []
  = (Ok 0%Z,
     [Logging.Message Logging.WARNING "Accepting Plugin"
        (FileFormat.unchecked_list_body "data/sample.png" "image/png"
           ["text/plain"])]) /\
  fst (FileFormat.validate_bag Fixture.plain_str Fixture.fido self
         ["data/readme.txt"; "data/sample.png"]) = Ok 0%Z /\
  (let out := FileFormat.validate_bag Fixture.plain_str Fixture.fido self
                ["data/readme.txt"; "data/unknown.bin"] in
   fst out = Raise (FileFormatValidationError
                      (FileFormat.validation_message Fixture.plain_str
                         (snd out)))).
Proof.
  intros self.
  assert (Hok : Forall Spec.selector_ok (FileFormat.validators self))
    by (repeat constructor).
  destruct (C9_unmatched_files_warn_and_bag_verdict Fixture.plain_str
              Fixture.fido self Hok) as [Hfile Hbag].
  split; [|split].
  - apply (Hfile "data/sample.png" "image/png" []); [reflexivity|].
    repeat constructor. simpl. intros [H | H]; [discriminate | contradiction].
  - apply (Hbag ["data/readme.txt"; "data/sample.png"]).
    exact text_plugin_passes_example_files.
  - apply (Hbag ["data/readme.txt"; "data/unknown.bin"]).
    apply Exists_cons_tl, Exists_cons_hd. exact I.
Defined.

(** ** What the top-level validation methods return and raise *)

Section OutcomeFacts.
Import Spec Logging.
Variable Logger_str : Logger -> string.

Lemma match_any_regex_loop_raises (path : string)
    (rules : list PayloadStructure.PayloadFolderDict) (force : bool)
    (e : exn) :
  PayloadStructure.match_any_regex_loop path rules force = Raise e ->
  is_validation_error e = false.
Proof.
  induction rules as [|rule rules IH]; cbn [PayloadStructure.match_any_regex_loop];
    [discriminate|].
  destruct (force || PayloadStructure.is_regex rule).
  - destruct (Re.compile (PayloadStructure.string_ rule)) as [rx|].
    + destruct (Re.match_ rx (list_ascii_of_string path));
        [discriminate | exact IH].
    + now intros [= <-].
  - destruct (String.eqb _ path); [discriminate | exact IH].
Qed.

Lemma filter_result_raises {A} (f : A -> result bool) (l : list A) (e : exn) :
  PayloadStructure.filter_result f l = Raise e -> exists x, f x = Raise e.
Proof.
  induction l as [|x l IH]; cbn [PayloadStructure.filter_result];
    [discriminate|].
  destruct (f x) as [keep|e0] eqn:Hx; cbn [bind].
  - destruct (PayloadStructure.filter_result f l) as [ys|e1]; cbn [bind];
      [discriminate|].
    intros [= <-]. now apply IH.
  - intros [= <-]. eauto.
Qed.

Lemma unmatched_filter_raises {A} (path : A -> string)
    (rules : list PayloadStructure.PayloadFolderDict) (force : bool)
    (l : list A) (e : exn) :
  PayloadStructure.filter_result
    (fun x => let* m := PayloadStructure.match_any_regex (path x) rules force
              in Ok (negb m)) l = Raise e ->
  is_validation_error e = false.
Proof.
  intros H. apply filter_result_raises in H as [x Hx].
  unfold PayloadStructure.match_any_regex in Hx.
  destruct (PayloadStructure.match_any_regex_loop _ rules force) as [m|e0]
    eqn:Hm; cbn [bind] in Hx; [discriminate|].
  injection Hx as <-. now apply match_any_regex_loop_raises in Hm.
Qed.

Lemma allowed_raises (self : PayloadStructure.PayloadStructureValidator)
    (l : Logger) (e : exn) :
  PayloadStructure._validate_payload_directories_allowed self l = Raise e ->
  is_validation_error e = false.
Proof.
  unfold PayloadStructure._validate_payload_directories_allowed.
  destruct (PayloadStructure.filter_result _ (PayloadStructure.required self))
    as [items|e0] eqn:H; cbn [bind].
  - now destruct items.
  - intros [= <-]. now apply unmatched_filter_raises in H.
Qed.

Lemma files_raises (self : PayloadStructure.PayloadStructureValidator)
    (bag : PayloadStructure.Bag) (l : Logger) (e : exn) :
  PayloadStructure._validate_payload_dir_files self bag l = Raise e ->
  is_validation_error e = false.
Proof.
  unfold PayloadStructure._validate_payload_dir_files.
  destruct (PayloadStructure.Payload_Folders_Allowed _); [|discriminate].
  destruct (PayloadStructure.filter_result _
              (PayloadStructure.payload_files bag))
    as [items|e0] eqn:H; cbn [bind].
  - now destruct items.
  - intros [= <-]. now apply unmatched_filter_raises in H.
Qed.

Lemma no_error_logged (b : bool) (e : Logger) :
  (b = false <-> e <> []) -> b = true -> e = [].
Proof.
  intros Hiff Hb. destruct e as [|m e]; [reflexivity|].
  assert (b = false) by now apply Hiff. congruence.
Qed.

Lemma payload_structure_outcome (lower : string -> string)
    (self : PayloadStructure.PayloadStructureValidator)
    (bag : PayloadStructure.Bag) :
  let out := PayloadStructure.validate_bag lower Logger_str self bag in
  zero_or_raises
    (fun l => PayloadStructureValidationError
                (PayloadStructure.validation_message Logger_str l)) out
  /\ (fst out = Ok 0%Z -> pick ERROR (snd out) = []).
Proof.
  cbv zeta. unfold zero_or_raises.
  destruct (PayloadStructure._validate_payload_directories_allowed self [])
    as [[ok_a e_a]|e] eqn:Ha.
  - destruct (PayloadStructure._validate_payload_dir_files self bag [])
      as [[ok_f e_f]|e] eqn:Hf.
    + destruct (validate_bag_sub_checks lower Logger_str self bag ok_a ok_f
                  e_a e_f Ha Hf)
        as (Hlog & Hia & Hir & Hif & Hic & Hout).
      rewrite Hout, Hlog.
      destruct (ok_a && _ && ok_f && _) eqn:Hall.
      * split; [now left|]. intros _.
        apply andb_true_iff in Hall as [Hall Hc].
        apply andb_true_iff in Hall as [Hall Hok_f].
        apply andb_true_iff in Hall as [Hok_a Hr].
        rewrite (no_error_logged _ _ Hia Hok_a).
        rewrite (no_error_logged _ _ Hir Hr).
        rewrite (no_error_logged _ _ Hif Hok_f).
        now rewrite (no_error_logged _ _ Hic Hc).
      * split; [now right; left | discriminate].
    + assert (Hout : PayloadStructure.validate_bag lower Logger_str self bag
                     = (Raise e, snd (PayloadStructure.validate_bag lower
                                        Logger_str self bag))).
      { unfold PayloadStructure.validate_bag. rewrite Ha.
        destruct (PayloadStructure._validate_payload_directories_required
                    self bag e_a) as [ok_r l2].
        destruct (ok_a && ok_r); cbv beta iota zeta;
          rewrite files_appends, Hf; reflexivity. }
      rewrite Hout. cbn [fst]. apply files_raises in Hf.
      split; [right; right; eauto | discriminate].
  - unfold PayloadStructure.validate_bag. rewrite Ha. cbn [fst snd].
    apply allowed_raises in Ha. split; [right; right; eauto | discriminate].
Qed.

Lemma payload_integrity_outcome (bagit : PayloadIntegrity.Bagit) :
  let out := PayloadIntegrity.validate_bag Logger_str bagit in
  zero_or_raises
    (fun l => PayloadIntegrityValidationError
                (PayloadIntegrity.validation_message Logger_str l)) out
  /\ (fst out = Ok 0%Z -> pick ERROR (snd out) = []).
Proof.
  cbv zeta. unfold zero_or_raises, PayloadIntegrity.validate_bag.
  destruct (PayloadIntegrity.bag_error bagit) as [msg|].
  - destruct (Str.contains _ msg); cbn [fst snd PayloadIntegrity.finish Z.eqb].
    + split; [now right; left | discriminate].
    + split; [right; right; eauto | discriminate].
  - cbn [fold_left].
    destruct (PayloadIntegrity.contents_step bagit),
      (PayloadIntegrity.completeness_step bagit),
      (PayloadIntegrity.entries_step bagit);
      cbn [PayloadIntegrity.run_step fst snd Z.eqb PayloadIntegrity.finish];
      (split; [auto | (reflexivity || discriminate)]).
Qed.

Lemma bagit_profile_outcome (self : BagitProfile.ProfileValidator)
    (bagit : BagitProfile.Bagit) (test_serialization test_profile : bool) :
  let out := BagitProfile.validate_bag Logger_str self bagit
               test_serialization test_profile in
  fst out = Ok 0%Z \/
  (exists c, fst out = Raise (BagitProfile.raise_class c
                                (BagitProfile.validation_message Logger_str
                                   (snd out)))) \/
  exists e, fst out = Raise e /\ is_validation_error e = false.
Proof.
  cbv zeta. unfold BagitProfile.validate_bag.
  destruct (BagitProfile.bag_error bagit) as [msg|].
  - destruct (Str.contains _ msg); cbn [fst snd BagitProfile.finish].
    + right. left. eauto.
    + right. right. eauto.
  - destruct test_serialization, (BagitProfile.serialization_ok bagit),
      test_profile, (BagitProfile.profile_ok bagit);
      cbv beta iota zeta; cbn [fst snd BagitProfile.finish]; eauto.
Qed.

End OutcomeFacts.

(** C2 (as amended): every [validate_bag] returns 0 or raises: its
    validation error with the message built from the log, or an error
    that is no validation error ([bagit.BagError], [re.error]) passing
    through; none returns another value. For the payload structure and
    the payload integrity validators a returned 0 means that no Error
    was logged. [validate_file] of the format validator, on a [Path],
    does the same, except that for a file whose type cannot be
    identified it logs an Error and returns 1. *)
Theorem C2_validation_methods_return_zero_or_raise
    (Logger_str : Logging.Logger -> string)
    (get_mime_type : string -> option string) :
  (forall lower self bag,
      let out := PayloadStructure.validate_bag lower Logger_str self bag in
      Spec.zero_or_raises
        (fun l => PayloadStructureValidationError
                    (PayloadStructure.validation_message Logger_str l)) out
      /\ (fst out = Ok 0%Z -> Logging.pick Logging.ERROR (snd out) = []))
  /\
  (forall bagit,
      let out := PayloadIntegrity.validate_bag Logger_str bagit in
      Spec.zero_or_raises
        (fun l => PayloadIntegrityValidationError
                    (PayloadIntegrity.validation_message Logger_str l)) out
      /\ (fst out = Ok 0%Z -> Logging.pick Logging.ERROR (snd out) = []))
  /\
  (forall self bagit test_serialization test_profile,
      let out := BagitProfile.validate_bag Logger_str self bagit
                   test_serialization test_profile in
      fst out = Ok 0%Z \/
      (exists c, fst out = Raise (BagitProfile.raise_class c
                                    (BagitProfile.validation_message
                                       Logger_str (snd out)))) \/
      exists e, fst out = Raise e /\ is_validation_error e = false)
  /\
  (forall self files,
      Spec.zero_or_raises
        (fun l => FileFormatValidationError
                    (FileFormat.validation_message Logger_str l))
        (FileFormat.validate_bag Logger_str get_mime_type self files))
  /\
  (forall self p clear_report log_summary l,
      let out := FileFormat.validate_file Logger_str get_mime_type self
                   (FileFormat.ArgPath p) clear_report log_summary l in
      Spec.zero_or_raises
        (fun l' => FileFormatValidationError
                     (FileFormat.validation_message Logger_str l')) out
      \/ (get_mime_type p = None /\ fst out = Ok 1%Z /\
          Logging.contains Logging.ERROR (snd out) = true)).
Proof.
  split; [intros lower self bag; apply payload_structure_outcome|].
  split; [intros bagit; apply payload_integrity_outcome|].
  split; [intros self bagit ts tp; apply bagit_profile_outcome|].
  split; [intros self files; apply validate_bag_outcome|].
  intros self p clear_report log_summary l. apply validate_file_outcome.
Qed.

(** C2, the claim as stated fails: [validate_file] of the format
    validator returns 1, without raising, for a file that fido cannot
    identify. *)
Lemma C2_validate_file_returns_one_counterexample :
  FileFormat.validate_file Fixture.plain_str Fixture.fido
    {| FileFormat.validators :=
         [(FileFormat.SelRegex "image/.*", Fixture.accepting_plugin)] |}
    (FileFormat.ArgPath "data/unknown.bin") true true []
  = (Ok 1%Z,
     [Logging.Message Logging.ERROR FileFormat.VALIDATOR_TAG
        (FileFormat.unidentified_body "data/unknown.bin")]).
Proof. vm_compute. reflexivity. Qed.

(** ** Examples from the test suite *)

(** Two files that differ in capitalization give one Error, a third one a
    second Error, each against the first file. *)
Example capitalization_of_three_files :
  PayloadStructure._validate_payload_files_capitalization Str.lower
    {| PayloadStructure.payload_files :=
         ["required_directory/test.dat"; "required_directory/TEST.dat";
          "required_directory/Test.dat"];
       PayloadStructure.is_dir := Fixture.directories ["required_directory"] |}
    []
  = (false,
     [Logging.Message Logging.ERROR "Payload Structure Validator"
        ("File 'data/required_directory/TEST.dat' and "
         +:+ "'data/required_directory/test.dat' only differ in their "
         +:+ "capitalization.");
      Logging.Message Logging.ERROR "Payload Structure Validator"
        ("File 'data/required_directory/Test.dat' and "
         +:+ "'data/required_directory/test.dat' only differ in their "
         +:+ "capitalization.")]).
Proof. vm_compute. reflexivity. Qed.

(** A file next to the required directory, with a name that extends the
    name of the directory, is not in an allowed location
    (test_invalid_bag_files_in_certain_directory_noregex). *)
Example sibling_of_literal_rule_not_allowed :
  PayloadStructure.match_any_regex "required_directory_test.dat"
    (PayloadStructure.allowed Fixture.minimal_validator) true = Ok false /\
  PayloadStructure.match_any_regex "required_directory/test.dat"
    (PayloadStructure.allowed Fixture.minimal_validator) true = Ok true /\
  PayloadStructure.match_any_regex "optional_directory/4atest.dat"
    (PayloadStructure.allowed Fixture.minimal_validator) true = Ok false.
Proof. vm_compute. repeat split. Qed.

(** The method given to [validate_file] overrides the method of the
    validator (test_validate_file_method_override), here on the empty
    file. *)
Example validate_file_of_empty_file :
  FileIntegrity.validate_file Fixture.hashlib_on_empty "{}"
    Fixture.one_empty_file
    {| FileIntegrity.method := Some "sha1"; FileIntegrity.value := None |}
    "data/empty.bin" (Some "md5") (Some "d41d8cd98f00b204e9800998ecf8427e")
  = (Ok 0%Z,
     [Logging.Message Logging.INFO FileIntegrity.VALIDATOR_TAG
        FileIntegrity.POSITIVE_RESPONSE]).
Proof. vm_compute. reflexivity. Qed.

(** * Further properties of the validators *)

Section InitFacts.
Import PayloadStructure SpecSubChecks.

Lemma append_empty (s : string) : s +:+ "" = s.
Proof.
  induction s as [|c s IH]; [reflexivity|].
  change (String c s +:+ "") with (String c (s +:+ "")). now rewrite IH.
Qed.

Lemma last_char_None (s : string) : Str.last_char s = None -> s = "".
Proof.
  induction s as [|c s IH]; [reflexivity|]. simpl.
  destruct s as [|d s]; [discriminate|]. intros H. apply IH in H. discriminate.
Qed.

Lemma slash_added_last (s : string) (c : ascii) :
  Str.last_char s = Some c ->
  Str.last_char (s +:+ (if Ascii.eqb c "/" then "" else "/")) = Some "/"%char.
Proof.
  intros Hc. rewrite last_char_last, chars_append.
  destruct (Ascii.eqb_spec c "/") as [-> | Hne]; simpl.
  - rewrite app_nil_r. now rewrite <- last_char_last.
  - apply last_snoc.
Qed.

Lemma process_entry_spec (e : allowed_entry) :
  (entry_text e = "" /\ process_allowed_regex_from_profile e = Raise IndexError)
  \/ (entry_text e <> "" /\
      exists rule, process_allowed_regex_from_profile e = Ok rule /\
                   normalizes e rule).
Proof.
  unfold process_allowed_regex_from_profile, ends_with_slash, normalizes.
  destruct e as [s | s]; cbn [entry_text entry_is_regex];
    destruct (Str.last_char s) as [c|] eqn:Hc; cbn [bind].
  - right. split; [intros ->; discriminate|]. eexists. split; [reflexivity|].
    cbn [string_ is_regex]. split; [reflexivity|].
    split; [now apply slash_added_last|].
    destruct (Ascii.eqb_spec c "/") as [-> | Hne].
    + rewrite bool_decide_eq_true_2 by reflexivity. apply append_empty.
    + rewrite bool_decide_eq_false_2 by congruence. reflexivity.
  - left. split; [now apply last_char_None | reflexivity].
  - right. split; [intros ->; discriminate|]. eexists. split; [reflexivity|].
    cbn [string_ is_regex]. split; [reflexivity|].
    split; [now apply slash_added_last|].
    destruct (Ascii.eqb_spec c "/") as [-> | Hne].
    + rewrite bool_decide_eq_true_2 by reflexivity. apply append_empty.
    + rewrite bool_decide_eq_false_2 by congruence. reflexivity.
  - left. split; [now apply last_char_None | reflexivity].
Qed.

Lemma map_result_process (entries : list allowed_entry) :
  (Exists (fun e => entry_text e = "") entries /\
   map_result process_allowed_regex_from_profile entries = Raise IndexError)
  \/ (Forall (fun e => entry_text e <> "") entries /\
      exists rules,
        map_result process_allowed_regex_from_profile entries = Ok rules /\
        Forall2 normalizes entries rules).
Proof.
  induction entries as [|e entries IH]; cbn [map_result].
  - right. split; [constructor|]. exists []. split; [reflexivity | constructor].
  - destruct (process_entry_spec e) as [[He ->] | [He (rule & -> & Hrule)]];
      cbn [bind].
    + left. split; [now apply Exists_cons_hd | reflexivity].
    + destruct IH as [[HE ->] | [HF (rules & -> & Hrules)]]; cbn [bind].
      * left. split; [now apply Exists_cons_tl | reflexivity].
      * right. split; [now constructor|]. exists (rule :: rules).
        split; [reflexivity | now constructor].
Qed.

End InitFacts.

(** X1: the constructor raises [IndexError] exactly when
    [Payload-Folders-Allowed] has an empty entry. Otherwise it keeps the
    url and the profile, takes the required directories as literal
    rules, and makes of every allowed entry a rule of the same kind that
    ends with the separator, which is added only when it is missing;
    without the key the only rule is the regex [.*]. *)
Theorem init_normalizes_allowed_entries (url : string)
    (profile : PayloadStructure.Profile) :
  (PayloadStructure.init url profile = Raise IndexError <->
   exists entries,
     PayloadStructure.Payload_Folders_Allowed profile = Some entries /\
     Exists (fun e => SpecSubChecks.entry_text e = "") entries) /\
  (forall v,
      PayloadStructure.init url profile = Ok v ->
      PayloadStructure.url v = url /\
      PayloadStructure.profile v = profile /\
      PayloadStructure.required v =
      map (fun x => {| PayloadStructure.string_ := x;
                       PayloadStructure.is_regex := false |})
        (default [] (PayloadStructure.Payload_Folders_Required profile)) /\
      match PayloadStructure.Payload_Folders_Allowed profile with
      | Some entries =>
          Forall2 SpecSubChecks.normalizes entries (PayloadStructure.allowed v)
      | None =>
          PayloadStructure.allowed v =
          [{| PayloadStructure.string_ := ".*";
              PayloadStructure.is_regex := true |}]
      end).
Proof.
  unfold PayloadStructure.init.
  destruct (PayloadStructure.Payload_Folders_Allowed profile) as [entries|].
  - destruct (map_result_process entries)
      as [[HE ->] | [HF (rules & -> & Hrules)]]; cbn [bind].
    + split; [split; [eauto | reflexivity] | discriminate].
    + split.
      * split; [discriminate|]. intros (entries' & [= <-] & HE).
        exfalso. apply Exists_exists in HE as (e & Hin & He).
        rewrite Forall_forall in HF. now apply (HF e).
      * intros v [= <-]. cbn. repeat split; try assumption.
        now destruct (PayloadStructure.Payload_Folders_Required profile).
  - cbn [bind]. split.
    + split; [discriminate | now intros (entries & H & _)].
    + intros v [= <-]. cbn. repeat split.
      now destruct (PayloadStructure.Payload_Folders_Required profile).
Qed.

Section CatchAllFacts.
Import PayloadStructure Spec SpecSubChecks Logging.

Lemma filter_result_none {A} (f : A -> result bool) (l : list A) :
  (forall x, f x = Ok false) -> filter_result f l = Ok [].
Proof.
  intros Hf. induction l as [|x l IH]; [reflexivity|].
  cbn [filter_result]. rewrite Hf, IH. reflexivity.
Qed.

Lemma compile_catch_all :
  Re.compile ".*" = Some (Re.Cat (Re.Star Re.AnyChar) Re.Eps).
Proof. vm_compute. reflexivity. Qed.

Lemma catch_all_matches (p : string) (force : bool) :
  match_any_regex p [{| string_ := ".*"; is_regex := true |}] force = Ok true.
Proof.
  unfold match_any_regex. cbn [match_any_regex_loop string_ is_regex].
  rewrite orb_true_r, compile_catch_all.
  now destruct (list_ascii_of_string (PurePath.as_posix p)).
Qed.

(** A filter whose test answers on every element keeps, in order, the
    elements the test accepts. *)
Lemma filter_result_spec {A} (f : A -> result bool) (P : A -> Prop)
    (l : list A) :
  (forall x, exists b, f x = Ok b /\ (b = true <-> P x)) ->
  exists ys,
    filter_result f l = Ok ys /\ sublist ys l /\
    forall x, x ∈ ys <-> x ∈ l /\ P x.
Proof.
  intros Hf. induction l as [|x l (ys & Hys & Hsub & Hin)].
  - exists []. split; [reflexivity|]. split; [constructor|].
    intros x. rewrite !elem_of_nil. tauto.
  - cbn [filter_result]. destruct (Hf x) as (b & -> & Hb). rewrite Hys.
    cbn [bind]. destruct b.
    + exists (x :: ys). split; [reflexivity|]. split; [now constructor|].
      intros y. rewrite !elem_of_cons, Hin.
      assert (P x) by now apply Hb. split; [|tauto].
      intros [-> | ?]; tauto.
    + exists ys. split; [reflexivity|]. split; [now constructor|].
      intros y. rewrite elem_of_cons, Hin.
      assert (~ P x) by (intros HP; apply Hb in HP; discriminate).
      split; [tauto|]. intros [[-> | ?] ?]; tauto.
Qed.

Lemma unmatched_test (path : string) (rules : list PayloadFolderDict)
    (force : bool) :
  Forall (rule_compiles force) rules ->
  exists b,
    (let* m := match_any_regex path rules force in Ok (negb m)) = Ok b /\
    (b = true <->
     ~ Exists (rule_matches force (PurePath.as_posix path)) rules).
Proof.
  intros Hok. unfold match_any_regex.
  destruct (match_any_regex_loop_spec (PurePath.as_posix path) rules force Hok)
    as (m & -> & Hm).
  exists (negb m). split; [reflexivity|]. rewrite <- Hm.
  destruct m; simpl; split; congruence.
Qed.

Lemma init_without_allowed_key (url : string) (profile : Profile)
    (v : PayloadStructureValidator) :
  Payload_Folders_Allowed profile = None ->
  init url profile = Ok v ->
  PayloadStructure.profile v = profile /\
  allowed v = [{| string_ := ".*"; is_regex := true |}].
Proof.
  unfold init. intros ->. cbn [bind]. intros [= <-]. now split.
Qed.

End CatchAllFacts.

(** X2: for a profile without [Payload-Folders-Allowed], the check of
    the allowed directories and the check of the file locations pass
    without a message, and [validate_bag] returns 0 exactly when the
    check of the required directories and the check of the
    capitalization pass. *)
Theorem no_allowed_key_checks_only_required_and_capitalization
    (lower : string -> string) (Logger_str : Logging.Logger -> string)
    (url : string)
    (profile : PayloadStructure.Profile)
    (v : PayloadStructure.PayloadStructureValidator)
    (bag : PayloadStructure.Bag) :
  PayloadStructure.Payload_Folders_Allowed profile = None ->
  PayloadStructure.init url profile = Ok v ->
  (forall l,
      PayloadStructure._validate_payload_directories_allowed v l
      = Ok (true, l)) /\
  (forall l,
      PayloadStructure._validate_payload_dir_files v bag l = Ok (true, l)) /\
  (fst (PayloadStructure.validate_bag lower Logger_str v bag) = Ok 0%Z <->
   fst (PayloadStructure._validate_payload_directories_required v bag [])
   = true /\
   fst (PayloadStructure._validate_payload_files_capitalization lower bag [])
   = true).
Proof.
  intros Hnone Hinit.
  destruct (init_without_allowed_key url profile v Hnone Hinit)
    as [Hprofile Hallowed].
  assert (Ha : forall l,
             PayloadStructure._validate_payload_directories_allowed v l
             = Ok (true, l)).
  { intros l. unfold PayloadStructure._validate_payload_directories_allowed.
    rewrite Hallowed, filter_result_none; [reflexivity|].
    intros f. now rewrite catch_all_matches. }
  assert (Hf : forall l,
             PayloadStructure._validate_payload_dir_files v bag l
             = Ok (true, l)).
  { intros l. unfold PayloadStructure._validate_payload_dir_files.
    now rewrite Hprofile, Hnone. }
  split; [exact Ha|]. split; [exact Hf|].
  destruct (validate_bag_sub_checks lower Logger_str v bag true true [] []
              (Ha []) (Hf [])) as (_ & _ & _ & _ & _ & ->).
  cbn [andb]. rewrite andb_true_r.
  destruct (fst (PayloadStructure._validate_payload_directories_required _ _ _)),
    (fst (PayloadStructure._validate_payload_files_capitalization _ _ _));
    cbn [andb]; split; try tauto; try discriminate; intros [? ?]; discriminate.
Qed.

(** X3: the check of the required directories passes exactly when every
    directory of [Payload-Folders-Required] exists in the payload, and
    logs one Error for each missing one, in the order of the profile;
    without the key it passes without a message. *)
Theorem required_directories_reported_in_order
    (self : PayloadStructure.PayloadStructureValidator)
    (bag : PayloadStructure.Bag) (l : Logging.Logger) :
  PayloadStructure._validate_payload_directories_required self bag l =
  match PayloadStructure.Payload_Folders_Required
          (PayloadStructure.profile self) with
  | None => (true, l)
  | Some dirs =>
      (forallb (PayloadStructure.is_dir bag) dirs,
       l ++ map (Spec.error_of PayloadStructure.not_present_body)
              (List.filter (fun d => negb (PayloadStructure.is_dir bag d))
                 dirs))
  end.
Proof.
  unfold PayloadStructure._validate_payload_directories_required.
  destruct (PayloadStructure.Payload_Folders_Required _) as [dirs|];
    [|reflexivity].
  now rewrite required_fold.
Qed.

(** X4: for a profile with [Payload-Folders-Allowed] whose rules
    compile, the check of the file locations logs one Error for each
    payload file that no allowed rule matches as a regex, in the order of
    the listing and with the path relative to the bag, and passes exactly
    when there is none. *)
Theorem misplaced_files_reported_in_order
    (self : PayloadStructure.PayloadStructureValidator)
    (bag : PayloadStructure.Bag) (l : Logging.Logger)
    (entries : list PayloadStructure.allowed_entry) :
  PayloadStructure.Payload_Folders_Allowed (PayloadStructure.profile self)
  = Some entries ->
  Forall (Spec.rule_compiles true) (PayloadStructure.allowed self) ->
  exists bad,
    PayloadStructure._validate_payload_dir_files self bag l =
    Ok (bool_decide (bad = []),
        l ++ map (fun relfile =>
                    Logging.Message Logging.ERROR
                      "Payload Structure Validator"
                      ("File '" +:+ relfile +:+ "' found in illegal "
                       +:+ "location of payload directory."))
               (map PayloadStructure.relative_to_bag bad)) /\
    sublist bad (PayloadStructure.payload_files bag) /\
    forall f,
      f ∈ bad <->
      f ∈ PayloadStructure.payload_files bag /\
      ~ Exists (Spec.rule_matches true (PurePath.as_posix f))
          (PayloadStructure.allowed self).
Proof.
  intros Hkey Hok. unfold PayloadStructure._validate_payload_dir_files.
  rewrite Hkey.
  destruct (filter_result_spec
              (fun p => let* m := PayloadStructure.match_any_regex p
                                    (PayloadStructure.allowed self) true
                        in Ok (negb m))
              (fun p => ~ Exists (Spec.rule_matches true (PurePath.as_posix p))
                            (PayloadStructure.allowed self))
              (PayloadStructure.payload_files bag))
    as (bad & -> & Hsub & Hin).
  { intros p. now apply unmatched_test. }
  exists bad. split; [|now split]. cbn [bind].
  destruct bad as [|f bad]; [now rewrite app_nil_r|].
  rewrite bool_decide_eq_false_2 by done. rewrite log_each_app.
  reflexivity.
Qed.

(** X5: when the regex rules compile, the check of the allowed
    directories logs one Error for each required directory that no
    allowed rule matches, in the order of the profile, and passes exactly
    when there is none. *)
Theorem unlisted_required_directories_reported_in_order
    (self : PayloadStructure.PayloadStructureValidator) (l : Logging.Logger) :
  Forall (Spec.rule_compiles false) (PayloadStructure.allowed self) ->
  exists unlisted,
    PayloadStructure._validate_payload_directories_allowed self l =
    Ok (bool_decide (unlisted = []),
        l ++ map (Spec.error_of PayloadStructure.not_allowed_body)
               (map PayloadStructure.string_ unlisted)) /\
    sublist unlisted (PayloadStructure.required self) /\
    forall r,
      r ∈ unlisted <->
      r ∈ PayloadStructure.required self /\
      ~ Exists (Spec.rule_matches false
                  (PurePath.as_posix (PayloadStructure.string_ r)))
          (PayloadStructure.allowed self).
Proof.
  intros Hok. unfold PayloadStructure._validate_payload_directories_allowed.
  destruct (filter_result_spec
              (fun f => let* m := PayloadStructure.match_any_regex
                                    (PayloadStructure.string_ f)
                                    (PayloadStructure.allowed self) false
                        in Ok (negb m))
              (fun r => ~ Exists (Spec.rule_matches false
                                    (PurePath.as_posix
                                       (PayloadStructure.string_ r)))
                            (PayloadStructure.allowed self))
              (PayloadStructure.required self))
    as (unlisted & -> & Hsub & Hin).
  { intros r. now apply unmatched_test. }
  exists unlisted. split; [|now split]. cbn [bind].
  destruct unlisted as [|f unlisted]; [now rewrite app_nil_r|].
  rewrite bool_decide_eq_false_2 by done. now rewrite log_each_app.
Qed.

(** X6: a rule without regex metacharacters that is tested as a regex
    accepts exactly the paths whose POSIX form starts with the rule. *)
Theorem plain_rule_accepts_paths_below_it
    (rule : PayloadStructure.PayloadFolderDict) (path : string)
    (force : bool) :
  Spec.tested_as_regex force rule = true ->
  SpecSubChecks.plain (PayloadStructure.string_ rule) ->
  PayloadStructure.match_any_regex path [rule] force =
  Ok (Str.is_prefix
        (list_ascii_of_string (PayloadStructure.string_ rule))
        (list_ascii_of_string (PurePath.as_posix path))).
Proof.
  unfold Spec.tested_as_regex, PayloadStructure.match_any_regex.
  intros Hkind Hplain. cbn [PayloadStructure.match_any_regex_loop].
  rewrite Hkind, compile_plain by assumption. rewrite match_literal.
  now destruct (Str.is_prefix _ _).
Qed.

Lemma plain_rule_accepts_paths_below_it_witness :
  PayloadStructure.match_any_regex "required_directory_test.dat"
    [{| PayloadStructure.string_ := "required_directory/";
        PayloadStructure.is_regex := false |}] true =
  Ok (Str.is_prefix (list_ascii_of_string "required_directory/")
        (list_ascii_of_string
           (PurePath.as_posix "required_directory_test.dat"))).
Proof.
  apply plain_rule_accepts_paths_below_it; [reflexivity|].
  unfold SpecSubChecks.plain. cbn. repeat constructor.
Defined.

(** X7: when the rules compile, the answer of [match_any_regex] does
    not depend on the order of the rules. *)
Theorem match_any_regex_ignores_rule_order (p : string)
    (rules rules' : list PayloadStructure.PayloadFolderDict) (force : bool) :
  Forall (Spec.rule_compiles force) rules ->
  rules ≡ₚ rules' ->
  PayloadStructure.match_any_regex p rules force
  = PayloadStructure.match_any_regex p rules' force.
Proof.
  intros Hok Hperm.
  assert (Hok' : Forall (Spec.rule_compiles force) rules')
    by now rewrite <- Hperm.
  unfold PayloadStructure.match_any_regex.
  destruct (match_any_regex_loop_spec (PurePath.as_posix p) rules force Hok)
    as (b & -> & Hb).
  destruct (match_any_regex_loop_spec (PurePath.as_posix p) rules' force Hok')
    as (b' & -> & Hb').
  f_equal. apply eq_true_iff_eq. rewrite Hb, Hb'. now rewrite Hperm.
Qed.

Section DistinctLowerFacts.
Import PayloadStructure Spec Logging.
Variable lower : string -> string.

Lemma first_seen_None (k : string) (seen : list string) :
  first_seen lower k seen = None <-> forall g, g ∈ seen -> lower g <> k.
Proof.
  unfold first_seen. induction seen as [|x seen IH]; cbn [find].
  - split; [intros _ g Hg; now apply elem_of_nil in Hg | reflexivity].
  - destruct (String.eqb_spec (lower x) k) as [Heq | Hne].
    + split; [discriminate|]. intros H. exfalso. apply (H x); [left | exact Heq].
    + rewrite IH. split.
      * intros H g Hg. apply elem_of_cons in Hg as [-> | Hg]; auto.
      * intros H g Hg. apply H. now right.
Qed.

Lemma collisions_nil (seen rest : list string) :
  collisions lower seen rest = [] <->
  NoDup (map lower rest) /\
  forall f g, f ∈ rest -> g ∈ seen -> lower g <> lower f.
Proof.
  revert seen. induction rest as [|f rest IH]; intros seen.
  - cbn. split; [|reflexivity]. intros _. split; [constructor|].
    intros f g Hf. now apply elem_of_nil in Hf.
  - cbn [collisions map].
    destruct (first_seen lower (lower f) seen) as [g|] eqn:Hf.
    + split; [discriminate|]. intros [_ H]. exfalso.
      apply List.find_some in Hf as [Hin Heq].
      apply String.eqb_eq in Heq.
      apply (H f g); [left | now apply list_elem_of_In | exact Heq].
    + rewrite IH, NoDup_cons. rewrite first_seen_None in Hf. split.
      * intros [Hnd H]. split; [split; [|exact Hnd]|].
        -- intros Hin. apply list_elem_of_In, in_map_iff in Hin
             as (h & Hh & Hin).
           apply list_elem_of_In in Hin.
           apply (H h f Hin); [apply elem_of_app; right; left | congruence].
        -- intros h g Hh Hg. apply elem_of_cons in Hh as [-> | Hh];
             [now apply Hf|].
           apply (H h g Hh). apply elem_of_app. now left.
      * intros [[Hnin Hnd] H]. split; [exact Hnd|].
        intros h g Hh Hg. apply elem_of_app in Hg as [Hg | Hg].
        -- apply H; [now right | exact Hg].
        -- apply list_elem_of_singleton in Hg as ->. intros Heq.
           apply Hnin. rewrite Heq. apply list_elem_of_In, in_map.
           now apply list_elem_of_In.
Qed.

End DistinctLowerFacts.

(** X8: whatever [str.lower] does, the capitalization check passes
    exactly when the lowercase forms of the listed paths, taken relative
    to the bag, are pairwise distinct; in particular a file listed twice
    fails it. *)
Theorem capitalization_passes_iff_lowercase_paths_distinct
    (lower : string -> string) (bag : PayloadStructure.Bag)
    (l : Logging.Logger) :
  fst (PayloadStructure._validate_payload_files_capitalization lower bag l)
  = true
  <-> NoDup (map lower
               (map PayloadStructure.relative_to_bag
                  (PayloadStructure.payload_files bag))).
Proof.
  rewrite capitalization_spec. cbn [fst].
  rewrite bool_decide_eq_true, collisions_nil. split.
  - now intros [H _].
  - intros H. split; [exact H|]. intros f g _ Hg. now apply elem_of_nil in Hg.
Qed.

Section FileIntegrityMoreFacts.
Import FileIntegrity.

Lemma supported_method (m : string) :
  In m ["md5"; "sha1"; "sha256"; "sha512"] ->
  exists hm, SUPPORTED_HASHING_METHODS m = Some hm /\ m <> "".
Proof.
  intros [<- | [<- | [<- | [<- | []]]]]; eexists; split;
    (reflexivity || discriminate).
Qed.

End FileIntegrityMoreFacts.

(** X9: the constructor of the file integrity validator accepts a
    missing method and the four supported identifiers, stores method and
    value unchanged, never looks at the value, and raises [ValueError]
    naming the method for any other identifier, the empty string
    included. *)
Theorem file_integrity_init_checks_method (methods_repr : string)
    (method value : option string) :
  FileIntegrity.init methods_repr method value =
  match method with
  | None =>
      Ok {| FileIntegrity.method := None; FileIntegrity.value := value |}
  | Some m =>
      if bool_decide (m ∈ ["md5"; "sha1"; "sha256"; "sha512"])
      then Ok {| FileIntegrity.method := Some m;
                 FileIntegrity.value := value |}
      else Raise (ValueError
                    (FileIntegrity.not_allowed_message methods_repr m))
  end.
Proof.
  unfold FileIntegrity.init, FileIntegrity._get_method.
  destruct method as [m|]; [|reflexivity]. cbn [negb andb].
  case_bool_decide as Hin.
  - apply list_elem_of_In, supported_method in Hin as (hm & Hhm & Hne).
    rewrite Hhm. cbn [bind]. now destruct m.
  - rewrite unsupported_method; [reflexivity|].
    now rewrite <- list_elem_of_In.
Qed.

(** X10: when [validate_file] is given a supported method and a
    non-empty value, the method and the value of the instance play no
    part in the result. *)
Theorem validate_file_arguments_override_instance
    (hashlib : FileIntegrity.hashing_method -> list Byte.byte -> string)
    (methods_repr : string) (read_bytes : string -> option (list Byte.byte))
    (self self' : FileIntegrity.FileIntegrityValidator) (file_path : string)
    (m v : string) :
  In m ["md5"; "sha1"; "sha256"; "sha512"] ->
  v <> "" ->
  FileIntegrity.validate_file hashlib methods_repr read_bytes self file_path
    (Some m) (Some v)
  = FileIntegrity.validate_file hashlib methods_repr read_bytes self'
      file_path (Some m) (Some v).
Proof.
  intros Hm Hv. apply supported_method in Hm as (hm & Hhm & Hne).
  unfold FileIntegrity.validate_file, FileIntegrity._get_method.
  cbn [negb andb]. rewrite Hhm.
  destruct m; [contradiction|]. destruct v; [contradiction|]. reflexivity.
Qed.

(** X11: [validate_file] of the file integrity validator has three
    outcomes: it returns 0 with the positive Info alone; or it raises
    [PayloadIntegrityValidationError] with the fixed message "Invalid
    file." after logging the negative Info and one Error with two
    different digests; or an error that is no validation error passes
    through with an empty log. *)
Theorem file_integrity_validate_file_outcomes
    (hashlib : FileIntegrity.hashing_method -> list Byte.byte -> string)
    (methods_repr : string) (read_bytes : string -> option (list Byte.byte))
    (self : FileIntegrity.FileIntegrityValidator) (file_path : string)
    (method_arg value_arg : option string) :
  let out := FileIntegrity.validate_file hashlib methods_repr read_bytes self
               file_path method_arg value_arg in
  (fst out = Ok 0%Z /\
   snd out = [Logging.Message Logging.INFO FileIntegrity.VALIDATOR_TAG
                FileIntegrity.POSITIVE_RESPONSE])
  \/
  (fst out = Raise (PayloadIntegrityValidationError "Invalid file.") /\
   exists expected found,
     found <> expected /\
     snd out = [Logging.Message Logging.INFO FileIntegrity.VALIDATOR_TAG
                  FileIntegrity.NEGATIVE_RESPONSE;
                Logging.Message Logging.ERROR FileIntegrity.VALIDATOR_TAG
                  (FileIntegrity.ERROR_DETAIL_RESPONSE expected found)])
  \/
  (exists e, fst out = Raise e /\ is_validation_error e = false /\
             snd out = []).
Proof.
  cbv zeta. unfold FileIntegrity.validate_file.
  destruct (FileIntegrity._get_method methods_repr (FileIntegrity.method self)
              method_arg false) as [om|e] eqn:Hm.
  - destruct (Str.or_ value_arg (FileIntegrity.value self)) as [expected|];
      [|right; right; eauto].
    cbv zeta.
    set (hashed := match om with Some m => _ | None => _ end).
    assert (Hhashed : (exists found, hashed = Ok found) \/
                      (exists e, hashed = Raise e /\
                                 is_validation_error e = false)).
    { subst hashed. unfold FileIntegrity.hash_from_file,
        FileIntegrity.hash_from_bytes.
      destruct om as [m|].
      - destruct (read_bytes file_path); [|right; eauto].
        destruct (FileIntegrity.SUPPORTED_HASHING_METHODS m);
          [left; eauto | right; eauto].
      - destruct (read_bytes file_path); right; eauto. }
    destruct Hhashed as [[found ->] | (e & -> & He)].
    + destruct (String.eqb_spec found expected) as [Heq | Hne].
      * left. now split.
      * right. left. split; [reflexivity|]. now exists expected, found.
    + right. right. eauto.
  - right. right. apply get_method_empty_value_irrelevant in Hm as [msg ->].
    eauto.
Qed.

Section FormatReportFacts.
Import FileFormat Spec SpecFormat Logging.
Variable Logger_str : Logger -> string.
Variable get_mime_type : string -> option string.

Lemma run_validators_step (v : selector * Plugin)
    (vs : list (selector * Plugin)) (p t : string) (code : Z) (l : Logger) :
  selector_ok v ->
  run_validators (v :: vs) p t code l =
  run_validators vs p t (if fails p t v then 1%Z else code)
    (l ++ contribution p t v).
Proof.
  unfold selector_ok, fails, contribution, merge.
  destruct v as [[types | pattern] plugin]; cbn [fst snd selects run_validators].
  - intros _. destruct (bool_decide (t ∈ types)); [|reflexivity].
    destruct (validate_file_format plugin p t) as [c plog]. cbn [fst snd andb].
    now destruct (c =? 0)%Z.
  - intros [rx ->].
    destruct (Re.fullmatch rx (list_ascii_of_string t)); [|reflexivity].
    destruct (validate_file_format plugin p t) as [c plog]. cbn [fst snd andb].
    now destruct (c =? 0)%Z.
Qed.

Lemma run_validators_report (vs : list (selector * Plugin))
    (p t : string) (code : Z) (l : Logger) :
  Forall selector_ok vs ->
  run_validators vs p t code l =
  (Ok (if existsb (fails p t) vs then 1%Z else code),
   l ++ flat_map (contribution p t) vs).
Proof.
  intros Hok. revert code l.
  induction Hok as [|v vs Hv _ IH]; intros code l.
  - cbn. now rewrite app_nil_r.
  - rewrite run_validators_step, IH by assumption. cbn [existsb flat_map].
    rewrite <- app_assoc. destruct (fails p t v); cbn [orb]; [|reflexivity].
    now destruct (existsb (fails p t) vs).
Qed.

Lemma validate_file_report (self : FileFormatValidator) (p : string)
    (l : Logger) :
  Forall selector_ok (validators self) ->
  exists r,
    validate_file Logger_str get_mime_type self (ArgPath p) false false l
    = (r, l ++ file_report get_mime_type (validators self) p) /\
    (if file_rejected get_mime_type (validators self) p
     then r = Ok 1%Z \/ exists msg, r = Raise (FileFormatValidationError msg)
     else r = Ok 0%Z).
Proof.
  intros Hok. unfold validate_file, file_report, file_rejected.
  destruct (get_mime_type p) as [t|].
  - rewrite run_validators_report by assumption. unfold _finalize.
    destruct (existsb (fails p t) (validators self)); cbn [Z.eqb]; eauto.
  - eexists. split; [reflexivity | now left].
Qed.

Lemma validate_files_report (self : FileFormatValidator)
    (files : list string) (code : Z) (l : Logger) :
  Forall selector_ok (validators self) ->
  validate_files Logger_str get_mime_type self files code l =
  (Ok (if existsb (file_rejected get_mime_type (validators self)) files
       then 1%Z else code),
   l ++ flat_map (file_report get_mime_type (validators self)) files).
Proof.
  intros Hok. revert code l. induction files as [|p files IH]; intros code l.
  - cbn. now rewrite app_nil_r.
  - cbn [validate_files existsb flat_map].
    destruct (validate_file_report self p l Hok) as (r & -> & Hr).
    destruct (file_rejected get_mime_type (validators self) p); cbn [orb].
    + destruct Hr as [-> | [msg ->]]; cbn [Z.eqb]; rewrite IH, <- app_assoc;
        now destruct (existsb _ files).
    + subst r. cbn [Z.eqb]. now rewrite IH, <- app_assoc.
Qed.

End FormatReportFacts.

(** X12: for an identified file and selectors that compile,
    [validate_file] runs every plugin whose selector selects the type, in
    the order of registration: the report is the previous report (unless
    cleared), then for each plugin its own log or one Warning, then the
    summary if asked for; the call raises exactly when a selected plugin
    returns a nonzero code. *)
Theorem validate_file_runs_every_selected_plugin
    (Logger_str : Logging.Logger -> string)
    (get_mime_type : string -> option string)
    (self : FileFormat.FileFormatValidator) (p t : string)
    (clear_report log_summary : bool) (l : Logging.Logger) :
  Forall Spec.selector_ok (FileFormat.validators self) ->
  get_mime_type p = Some t ->
  let failed :=
    existsb (SpecFormat.fails p t) (FileFormat.validators self) in
  let report :=
    (if clear_report then [] else l)
    ++ flat_map (SpecFormat.contribution p t) (FileFormat.validators self)
    ++ (if log_summary then [SpecFormat.summary (negb failed)] else []) in
  FileFormat.validate_file Logger_str get_mime_type self
    (FileFormat.ArgPath p) clear_report log_summary l =
  (if failed
   then Raise (FileFormatValidationError
                 (FileFormat.validation_message Logger_str report))
   else Ok 0%Z, report).
Proof.
  intros Hok Ht. cbv zeta. unfold FileFormat.validate_file. rewrite Ht.
  rewrite run_validators_report by assumption.
  unfold FileFormat._finalize, SpecFormat.summary, Logging.log.
  destruct (existsb _ (FileFormat.validators self)), log_summary;
    cbn [Z.eqb negb]; rewrite <- ?app_assoc, ?app_nil_r; reflexivity.
Qed.

(** X13: for selectors that compile, the report of [validate_bag] is
    the reports of the files in the order of the listing, followed by one
    summary, and the call raises exactly when a file is rejected; no
    summary of a single file is logged. *)
Theorem format_validate_bag_report
    (Logger_str : Logging.Logger -> string)
    (get_mime_type : string -> option string)
    (self : FileFormat.FileFormatValidator) (files : list string) :
  Forall Spec.selector_ok (FileFormat.validators self) ->
  let failed :=
    existsb (SpecFormat.file_rejected get_mime_type
               (FileFormat.validators self)) files in
  let report :=
    flat_map (SpecFormat.file_report get_mime_type
                (FileFormat.validators self)) files
    ++ [SpecFormat.summary (negb failed)] in
  FileFormat.validate_bag Logger_str get_mime_type self files =
  (if failed
   then Raise (FileFormatValidationError
                 (FileFormat.validation_message Logger_str report))
   else Ok 0%Z, report).
Proof.
  intros Hok. cbv zeta. unfold FileFormat.validate_bag.
  rewrite validate_files_report by assumption.
  unfold FileFormat._finalize, SpecFormat.summary, Logging.log.
  destruct (existsb _ files); cbn [Z.eqb negb app]; reflexivity.
Qed.

Section AppendOnlyFacts.
Import FileFormat Logging.

Lemma run_validators_appends (vs : list (selector * Plugin))
    (p t : string) (code : Z) (l : Logger) :
  run_validators vs p t code l =
  (fst (run_validators vs p t code []),
   l ++ snd (run_validators vs p t code [])).
Proof.
  revert code l. induction vs as [|[sel plugin] vs IH]; intros code l.
  - cbn. now rewrite app_nil_r.
  - assert (Hstep : forall code' x,
               run_validators vs p t code' (l ++ x) =
               (fst (run_validators vs p t code' ([] ++ x)),
                l ++ snd (run_validators vs p t code' ([] ++ x)))).
    { intros code' x. rewrite (IH code' (l ++ x)), (IH code' ([] ++ x)).
      cbn [fst snd app]. now rewrite app_assoc. }
    cbn [run_validators]. unfold merge, log.
    destruct sel as [types | pattern].
    + destruct (bool_decide (t ∈ types)); [|apply Hstep].
      destruct (validate_file_format plugin p t) as [c plog]. apply Hstep.
    + destruct (Re.compile pattern) as [rx|]; [|cbn; now rewrite app_nil_r].
      destruct (Re.fullmatch rx (list_ascii_of_string t)); [|apply Hstep].
      destruct (validate_file_format plugin p t) as [c plog]. apply Hstep.
Qed.

End AppendOnlyFacts.

(** X14: with [clear_report=False], [validate_file] only appends to
    the report: the new report is the old one followed by the report of
    the same call with [clear_report=True], both calls return the same
    codes, and clearing is the same as starting from an empty report. *)
Theorem validate_file_keeps_earlier_report
    (Logger_str : Logging.Logger -> string)
    (get_mime_type : string -> option string)
    (self : FileFormat.FileFormatValidator) (file_path : FileFormat.file_arg)
    (log_summary : bool) (l : Logging.Logger) :
  let out := FileFormat.validate_file Logger_str get_mime_type self file_path
               false log_summary l in
  let fresh := FileFormat.validate_file Logger_str get_mime_type self file_path
                 true log_summary l in
  snd out = l ++ snd fresh /\
  (forall code, fst out = Ok code <-> fst fresh = Ok code) /\
  fresh = FileFormat.validate_file Logger_str get_mime_type self file_path
            false log_summary [].
Proof.
  cbv zeta. unfold FileFormat.validate_file.
  destruct file_path as [s | p | p ft]; cbn [fst snd];
    try (now rewrite app_nil_r).
  destruct (get_mime_type p) as [t|]; [|now split].
  rewrite (run_validators_appends _ p t 0%Z l).
  destruct (FileFormat.run_validators (FileFormat.validators self) p t 0 [])
    as [[code|e] l1]; cbn [fst snd]; [|now split].
  unfold FileFormat._finalize, Logging.log.
  destruct (code =? 0)%Z, log_summary; cbn [fst snd];
    rewrite <- ?app_assoc; repeat split; intros;
    (assumption || discriminate).
Qed.

Section BagitFacts.
Import Logging SpecBagit.
Variable Logger_str : Logger -> string.

Lemma fold_log_app {A} (ctx : Context) (tag : string) (body : A -> string)
    (items : list A) (l : Logger) :
  fold_left (fun acc x => log ctx tag (body x) acc) items l
  = l ++ map (fun x => Message ctx tag (body x)) items.
Proof.
  revert l. induction items as [|x items IH]; intros l; cbn [fold_left map].
  - now rewrite app_nil_r.
  - rewrite IH. unfold log. now rewrite <- app_assoc.
Qed.

Lemma run_step_spec (code : Z) (l : Logger)
    (step : PayloadIntegrity.step_outcome) :
  PayloadIntegrity.run_step (code, l) step =
  (if step_ok step then code else 1%Z,
   l ++ map (Message ERROR PayloadIntegrity.VALIDATOR_TAG) (step_errors step)).
Proof.
  destruct step as [|msg|]; cbn [PayloadIntegrity.run_step step_ok step_errors
                                 fst snd map].
  - now rewrite app_nil_r.
  - rewrite (fold_log_app ERROR PayloadIntegrity.VALIDATOR_TAG
               (Str.strip "WARNING")).
    now rewrite map_map.
  - reflexivity.
Qed.

Lemma split_lines_not_nil (s : string) : Str.split_lines s <> [].
Proof.
  unfold Str.split_lines.
  assert (H : forall cs, Str.split_lines_chars cs <> []).
  { induction cs as [|c cs IH]; cbn; [discriminate|].
    destruct (Ascii.eqb c "010"); [discriminate|].
    destruct (Str.split_lines_chars cs); discriminate. }
  specialize (H (list_ascii_of_string s)).
  now destruct (Str.split_lines_chars _).
Qed.

Lemma step_ok_iff_no_error (step : PayloadIntegrity.step_outcome) :
  step_ok step = true <-> step_errors step = [].
Proof.
  destruct step as [|msg|]; cbn; split; try reflexivity; try discriminate.
  intros H. exfalso. apply (split_lines_not_nil msg).
  now destruct (Str.split_lines msg).
Qed.

Lemma pick_error_map (tag : string) (bodies : list string) :
  pick ERROR (map (Message ERROR tag) bodies) = map (Message ERROR tag) bodies.
Proof.
  induction bodies as [|b bodies IH]; [reflexivity|].
  cbn [map]. unfold pick in *. cbn [List.filter msg_context].
  rewrite bool_decide_eq_true_2 by reflexivity. now rewrite IH.
Qed.

Lemma pick_error_bodies {A} (tag : string) (body : A -> string)
    (items : list A) :
  pick ERROR (map (fun x => Message ERROR tag (body x)) items)
  = map (Message ERROR tag) (map body items).
Proof.
  induction items as [|x items IH]; [reflexivity|].
  cbn [map]. unfold pick in *. cbn [List.filter msg_context].
  rewrite bool_decide_eq_true_2 by reflexivity. now rewrite IH.
Qed.

End BagitFacts.

(** X15: when the bag opens, the payload integrity validator runs its
    three steps whatever the earlier ones gave: the report is the Errors
    of the three steps in order followed by one summary, and the call
    returns 0 exactly when no step left an Error. A missing bagit.txt
    gives the two fixed messages, and any other [BagError] passes
    through. *)
Theorem payload_integrity_validate_bag_report
    (Logger_str : Logging.Logger -> string)
    (bagit : PayloadIntegrity.Bagit) :
  let errors :=
    SpecBagit.step_errors (PayloadIntegrity.contents_step bagit)
    ++ SpecBagit.step_errors (PayloadIntegrity.completeness_step bagit)
    ++ SpecBagit.step_errors (PayloadIntegrity.entries_step bagit) in
  let ok :=
    SpecBagit.step_ok (PayloadIntegrity.contents_step bagit)
    && SpecBagit.step_ok (PayloadIntegrity.completeness_step bagit)
    && SpecBagit.step_ok (PayloadIntegrity.entries_step bagit) in
  let report :=
    map (Logging.Message Logging.ERROR PayloadIntegrity.VALIDATOR_TAG) errors
    ++ [Logging.Message Logging.INFO PayloadIntegrity.VALIDATOR_TAG
          (if ok then PayloadIntegrity.POSITIVE_RESPONSE
           else PayloadIntegrity.NEGATIVE_RESPONSE)] in
  let no_bag :=
    SpecBagit.no_bag_log PayloadIntegrity.VALIDATOR_TAG
      PayloadIntegrity.NEGATIVE_RESPONSE_BAGITTXT
      PayloadIntegrity.NEGATIVE_RESPONSE_BAGITTXT_INFO in
  (ok = true <-> errors = []) /\
  PayloadIntegrity.validate_bag Logger_str bagit =
  match PayloadIntegrity.bag_error bagit with
  | None =>
      (if ok then Ok 0%Z
       else Raise (PayloadIntegrityValidationError
                     (PayloadIntegrity.validation_message Logger_str report)),
       report)
  | Some msg =>
      if Str.contains "Expected bagit.txt does not exist" msg
      then (Raise (PayloadIntegrityValidationError
                     (PayloadIntegrity.validation_message Logger_str no_bag)),
            no_bag)
      else (Raise (BagError msg), [])
  end.
Proof.
  cbv zeta. split.
  - rewrite !andb_true_iff, !step_ok_iff_no_error. split.
    + now intros [[-> ->] ->].
    + intros H. apply app_eq_nil in H as [-> H].
      now apply app_eq_nil in H as [-> ->].
  - unfold PayloadIntegrity.validate_bag.
    destruct (PayloadIntegrity.bag_error bagit) as [msg|].
    + now destruct (Str.contains _ msg).
    + cbn [fold_left]. rewrite !run_step_spec. cbn [app].
      rewrite !map_app.
      destruct (SpecBagit.step_ok (PayloadIntegrity.contents_step bagit)),
        (SpecBagit.step_ok (PayloadIntegrity.completeness_step bagit)),
        (SpecBagit.step_ok (PayloadIntegrity.entries_step bagit));
        cbn [andb Z.eqb]; unfold PayloadIntegrity.finish, Logging.log;
        cbn [Z.eqb]; rewrite <- ?app_assoc; reflexivity.
Qed.

Section ReplaceFacts.

Lemma replace_chars_unchanged (old new s : list ascii) :
  Str.contains_chars old s = false -> Str.replace_chars old new s 0 = s.
Proof.
  induction s as [|c s IH]; [reflexivity|].
  cbn [Str.contains_chars Str.replace_chars]. intros H.
  apply orb_false_elim in H as [-> H]. now rewrite IH.
Qed.

Lemma replace_chars_skip (old new u s : list ascii) :
  Str.replace_chars old new (u ++ s) (length u)
  = Str.replace_chars old new s 0.
Proof.
  induction u as [|a u IH]; [reflexivity|]. cbn [app length].
  cbn [Str.replace_chars]. exact IH.
Qed.

Lemma is_prefix_app (p s : list ascii) : Str.is_prefix p (p ++ s) = true.
Proof.
  induction p as [|a p IH]; [reflexivity|]. cbn.
  now rewrite Ascii.eqb_refl, IH.
Qed.

Lemma replace_chars_prefix (old s : list ascii) :
  old <> [] ->
  Str.contains_chars old s = false ->
  Str.replace_chars old [] (old ++ s) 0 = s.
Proof.
  intros Hne Hs. destruct old as [|a old]; [contradiction|].
  change ((a :: old) ++ s) with (a :: (old ++ s)).
  cbn [Str.replace_chars].
  change (a :: old ++ s) with ((a :: old) ++ s). rewrite is_prefix_app.
  replace (length (a :: old) - 1) with (length old) by (cbn [length]; lia).
  cbn [app]. rewrite replace_chars_skip.
  now apply replace_chars_unchanged.
Qed.

(** [(prefix + body).replace(prefix, "")] is [body] when the prefix does
    not occur in [body]. *)
Lemma replace_prefix (prefix body : string) :
  prefix <> "" ->
  Str.contains prefix body = false ->
  Str.replace prefix "" (prefix +:+ body) = body.
Proof.
  unfold Str.replace, Str.contains. intros Hne Hbody.
  rewrite chars_append, replace_chars_prefix.
  - apply string_of_list_ascii_of_string.
  - destruct prefix; [contradiction | discriminate].
  - exact Hbody.
Qed.

End ReplaceFacts.

(** The result and the Errors of [validate_bag] when the bag opens. *)
Lemma profile_validate_bag_verdict_aux
    (Logger_str : Logging.Logger -> string)
    (self : BagitProfile.ProfileValidator) (bagit : BagitProfile.Bagit)
    (test_serialization test_profile : bool) :
  BagitProfile.bag_error bagit = None ->
  let serialization_failed :=
    test_serialization && negb (BagitProfile.serialization_ok bagit) in
  let profile_failed :=
    test_profile && negb (BagitProfile.profile_ok bagit) in
  let out := BagitProfile.validate_bag Logger_str self bagit
               test_serialization test_profile in
  let message := BagitProfile.validation_message Logger_str (snd out) in
  fst out =
  (if serialization_failed then Raise (SerializationValidationError message)
   else if profile_failed then Raise (ProfileValidationError message)
   else Ok 0%Z) /\
  Logging.pick Logging.ERROR (snd out) =
  (if serialization_failed
   then [Logging.Message Logging.ERROR BagitProfile.VALIDATOR_TAG
           BagitProfile.NEGATIVE_RESPONSE_SER]
   else [])
  ++ map (Logging.Message Logging.ERROR BagitProfile.VALIDATOR_TAG)
       (map (Str.replace (BagitProfile.bag_str bagit +:+ ": ") "")
          (default [] (BagitProfile.report_errors bagit))).
Proof.
  intros Hbag. cbv zeta. unfold BagitProfile.validate_bag. rewrite Hbag.
  assert (Hreport : forall l,
             Logging.pick Logging.ERROR
               match BagitProfile.report_errors bagit with
               | Some errors =>
                   fold_left
                     (fun l0 x =>
                        Logging.log Logging.ERROR BagitProfile.VALIDATOR_TAG
                          (Str.replace (BagitProfile.bag_str bagit +:+ ": ")
                             "" x) l0) errors l
               | None => l
               end =
             Logging.pick Logging.ERROR l
             ++ map (Logging.Message Logging.ERROR BagitProfile.VALIDATOR_TAG)
                  (map (Str.replace (BagitProfile.bag_str bagit +:+ ": ") "")
                     (default [] (BagitProfile.report_errors bagit)))).
  { intros l. destruct (BagitProfile.report_errors bagit) as [errors|];
      cbn [default map]; [|now rewrite app_nil_r].
    rewrite (fold_log_app Logging.ERROR BagitProfile.VALIDATOR_TAG
               (Str.replace (BagitProfile.bag_str bagit +:+ ": ") "")).
    now rewrite pick_app, pick_error_bodies. }
  destruct test_serialization, (BagitProfile.serialization_ok bagit),
    test_profile, (BagitProfile.profile_ok bagit);
    cbn [andb negb]; cbv beta iota zeta;
    cbn [fst snd BagitProfile.finish BagitProfile.raise_class];
    (split; [reflexivity | rewrite Hreport; reflexivity]).
Qed.


(** X16: when the bag opens, the profile validator raises
    [SerializationValidationError] when the tested serialization fails,
    whatever the profile check gives, [ProfileValidationError] when only
    the tested profile check fails, and returns 0 otherwise; the Errors
    of the log are the serialization Error, if any, followed by the
    errors of the report with the prefix of the bag removed. *)
Theorem profile_validate_bag_verdict
    (Logger_str : Logging.Logger -> string)
    (self : BagitProfile.ProfileValidator) (bagit : BagitProfile.Bagit)
    (test_serialization test_profile : bool) :
  BagitProfile.bag_error bagit = None ->
  let serialization_failed :=
    test_serialization && negb (BagitProfile.serialization_ok bagit) in
  let profile_failed :=
    test_profile && negb (BagitProfile.profile_ok bagit) in
  let out := BagitProfile.validate_bag Logger_str self bagit
               test_serialization test_profile in
  let message := BagitProfile.validation_message Logger_str (snd out) in
  fst out =
  (if serialization_failed then Raise (SerializationValidationError message)
   else if profile_failed then Raise (ProfileValidationError message)
   else Ok 0%Z) /\
  Logging.pick Logging.ERROR (snd out) =
  (if serialization_failed
   then [Logging.Message Logging.ERROR BagitProfile.VALIDATOR_TAG
           BagitProfile.NEGATIVE_RESPONSE_SER]
   else [])
  ++ map (Logging.Message Logging.ERROR BagitProfile.VALIDATOR_TAG)
       (map (Str.replace (BagitProfile.bag_str bagit +:+ ": ") "")
          (default [] (BagitProfile.report_errors bagit))).
Proof. apply profile_validate_bag_verdict_aux. Qed.

(** X17: when every error of the report is the prefix [str(bag) + ": "]
    followed by a body in which the prefix does not occur, the Errors of
    the log are exactly the bodies, in order. *)
Theorem profile_errors_logged_without_bag_prefix
    (Logger_str : Logging.Logger -> string)
    (self : BagitProfile.ProfileValidator) (bagit : BagitProfile.Bagit)
    (test_profile : bool) (bodies : list string) :
  BagitProfile.bag_error bagit = None ->
  BagitProfile.report_errors bagit
  = Some (map (fun b => (BagitProfile.bag_str bagit +:+ ": ") +:+ b) bodies) ->
  Forall (fun b => Str.contains (BagitProfile.bag_str bagit +:+ ": ") b
                   = false) bodies ->
  Logging.pick Logging.ERROR
    (snd (BagitProfile.validate_bag Logger_str self bagit false test_profile))
  = map (Logging.Message Logging.ERROR BagitProfile.VALIDATOR_TAG) bodies.
Proof.
  intros Hbag Hreport Hbodies.
  destruct (profile_validate_bag_verdict_aux Logger_str self bagit false
              test_profile Hbag) as [_ ->].
  rewrite Hreport. cbn [andb default app]. unfold id. f_equal.
  rewrite map_map. clear Hreport.
  induction Hbodies as [|b bodies Hb _ IH]; [reflexivity|].
  cbn [map]. rewrite IH. f_equal. apply replace_prefix; [|exact Hb].
  now destruct (BagitProfile.bag_str bagit).
Qed.

(** ** The hypotheses of the further properties hold on the examples *)

Lemma no_allowed_key_checks_only_required_and_capitalization_witness :
  fst (PayloadStructure.validate_bag Str.lower Fixture.plain_str
         FixtureMore.required_only_validator Fixture.example_bag) = Ok 0%Z <->
  fst (PayloadStructure._validate_payload_directories_required
         FixtureMore.required_only_validator Fixture.example_bag []) = true /\
  fst (PayloadStructure._validate_payload_files_capitalization Str.lower
         Fixture.example_bag []) = true.
Proof.
  destruct (no_allowed_key_checks_only_required_and_capitalization
              Str.lower Fixture.plain_str "REQUIRED_ONLY"
              FixtureMore.required_only_profile
              FixtureMore.required_only_validator Fixture.example_bag
              eq_refl eq_refl) as (_ & _ & H).
  exact H.
Defined.

Lemma minimal_rules_compile (force : bool) :
  Forall (Spec.rule_compiles force)
    (PayloadStructure.allowed Fixture.minimal_validator).
Proof. repeat constructor; intros _; vm_compute; eauto. Qed.

Lemma misplaced_files_reported_in_order_witness :
  exists bad,
    PayloadStructure._validate_payload_dir_files Fixture.minimal_validator
      Fixture.example_bag_4a [] =
    Ok (bool_decide (bad = []),
        [] ++ map (fun relfile =>
                     Logging.Message Logging.ERROR
                       "Payload Structure Validator"
                       ("File '" +:+ relfile +:+ "' found in illegal "
                        +:+ "location of payload directory."))
                (map PayloadStructure.relative_to_bag bad)) /\
    sublist bad (PayloadStructure.payload_files Fixture.example_bag_4a) /\
    forall f,
      f ∈ bad <->
      f ∈ PayloadStructure.payload_files Fixture.example_bag_4a /\
      ~ Exists (Spec.rule_matches true (PurePath.as_posix f))
          (PayloadStructure.allowed Fixture.minimal_validator).
Proof.
  exact (misplaced_files_reported_in_order Fixture.minimal_validator
           Fixture.example_bag_4a []
           [PayloadStructure.AllowedStr "required_directory";
            PayloadStructure.AllowedRegex "optional_directory/\d+"]
           eq_refl (minimal_rules_compile true)).
Defined.

Lemma unlisted_required_directories_reported_in_order_witness :
  exists unlisted,
    PayloadStructure._validate_payload_directories_allowed
      Fixture.minimal_validator [] =
    Ok (bool_decide (unlisted = []),
        [] ++ map (Spec.error_of PayloadStructure.not_allowed_body)
                (map PayloadStructure.string_ unlisted)) /\
    sublist unlisted (PayloadStructure.required Fixture.minimal_validator) /\
    forall r,
      r ∈ unlisted <->
      r ∈ PayloadStructure.required Fixture.minimal_validator /\
      ~ Exists (Spec.rule_matches false
                  (PurePath.as_posix (PayloadStructure.string_ r)))
          (PayloadStructure.allowed Fixture.minimal_validator).
Proof.
  exact (unlisted_required_directories_reported_in_order
           Fixture.minimal_validator [] (minimal_rules_compile false)).
Defined.

Lemma match_any_regex_ignores_rule_order_witness :
  PayloadStructure.match_any_regex "optional_directory/4/dummy.doc"
    (PayloadStructure.allowed Fixture.minimal_validator) true
  = PayloadStructure.match_any_regex "optional_directory/4/dummy.doc"
      [{| PayloadStructure.string_ := "optional_directory/\d+/";
          PayloadStructure.is_regex := true |};
       {| PayloadStructure.string_ := "required_directory/";
          PayloadStructure.is_regex := false |}] true.
Proof.
  apply match_any_regex_ignores_rule_order;
    [apply minimal_rules_compile | apply perm_swap].
Defined.

Lemma validate_file_arguments_override_instance_witness :
  FileIntegrity.validate_file Fixture.hashlib_on_empty "{}"
    Fixture.one_empty_file
    {| FileIntegrity.method := Some "sha1";
       FileIntegrity.value := Some "da39a3ee" |}
    "data/empty.bin" (Some "md5") (Some "d41d8cd98f00b204e9800998ecf8427e")
  = FileIntegrity.validate_file Fixture.hashlib_on_empty "{}"
      Fixture.one_empty_file
      {| FileIntegrity.method := None; FileIntegrity.value := None |}
      "data/empty.bin" (Some "md5") (Some "d41d8cd98f00b204e9800998ecf8427e").
Proof.
  apply validate_file_arguments_override_instance;
    [simpl; tauto | discriminate].
Defined.

Lemma text_validator_selectors_ok :
  Forall Spec.selector_ok (FileFormat.validators FixtureMore.text_validator).
Proof. repeat constructor. Qed.

Lemma validate_file_runs_every_selected_plugin_witness :
  FileFormat.validate_file Fixture.plain_str Fixture.fido
    FixtureMore.text_validator (FileFormat.ArgPath "data/sample.png")
    true true [] =
  (Ok 0%Z,
   [Spec.unchecked_warning "data/sample.png" "image/png"
      (FileFormat.SelList ["text/plain"], Fixture.accepting_plugin);
    SpecFormat.summary true]).
Proof.
  exact (validate_file_runs_every_selected_plugin Fixture.plain_str
           Fixture.fido FixtureMore.text_validator "data/sample.png"
           "image/png" true true [] text_validator_selectors_ok eq_refl).
Defined.

Lemma format_validate_bag_report_witness :
  FileFormat.validate_bag Fixture.plain_str Fixture.fido
    FixtureMore.text_validator ["data/readme.txt"; "data/sample.png"] =
  (Ok 0%Z,
   [Spec.unchecked_warning "data/sample.png" "image/png"
      (FileFormat.SelList ["text/plain"], Fixture.accepting_plugin);
    SpecFormat.summary true]).
Proof.
  exact (format_validate_bag_report Fixture.plain_str Fixture.fido
           FixtureMore.text_validator ["data/readme.txt"; "data/sample.png"]
           text_validator_selectors_ok).
Defined.

Lemma profile_validate_bag_verdict_witness :
  let out := BagitProfile.validate_bag Fixture.plain_str
               {| BagitProfile.url := "PROFILE" |}
               FixtureMore.nonconforming_bagit true true in
  fst out =
  Raise (ProfileValidationError
           (BagitProfile.validation_message Fixture.plain_str (snd out))) /\
  Logging.pick Logging.ERROR (snd out) =
  [Logging.Message Logging.ERROR BagitProfile.VALIDATOR_TAG
     "Required tag 'Source-Organization' is not present in bag-info.txt."].
Proof.
  destruct (profile_validate_bag_verdict Fixture.plain_str
              {| BagitProfile.url := "PROFILE" |}
              FixtureMore.nonconforming_bagit true true eq_refl)
    as [Hfst Hlog].
  split; [exact Hfst | exact Hlog].
Defined.

Lemma profile_errors_logged_without_bag_prefix_witness :
  Logging.pick Logging.ERROR
    (snd (BagitProfile.validate_bag Fixture.plain_str
            {| BagitProfile.url := "PROFILE" |}
            FixtureMore.nonconforming_bagit false true))
  = map (Logging.Message Logging.ERROR BagitProfile.VALIDATOR_TAG)
      ["Required tag 'Source-Organization' is not present in bag-info.txt."].
Proof.
  apply profile_errors_logged_without_bag_prefix;
    [reflexivity | reflexivity | repeat constructor].
Defined.

(** ** The class [File] *)

Section FileFacts.
Import File.

Lemma split_field (sep : ascii) (u v : list ascii) :
  Forall (fun c => c <> sep) u ->
  hd [] (split sep (u ++ v)) = u ++ hd [] (split sep v).
Proof.
  induction 1 as [|c u Hc _ IH]; [reflexivity|].
  cbn [app split]. apply Ascii.eqb_neq in Hc. rewrite Hc.
  destruct (split sep (u ++ v)) as [|field fields]; cbn [hd] in *;
    now rewrite <- IH.
Qed.

Lemma split_sep (sep : ascii) (v : list ascii) :
  hd [] (split sep (sep :: v)) = [].
Proof. cbn [split]. now rewrite Ascii.eqb_refl. Qed.

Lemma lstrip_space_head (s : list ascii) :
  Forall (fun c => is_space c = false) s -> lstrip_space s = s.
Proof. destruct 1 as [|c s Hc _]; [reflexivity|]. cbn. now rewrite Hc. Qed.

Lemma strip_space_none (s : list ascii) :
  Forall (fun c => is_space c = false) s -> strip_space s = s.
Proof.
  intros Hs. unfold strip_space. rewrite (lstrip_space_head s Hs).
  rewrite lstrip_space_head; [apply rev_involutive|].
  now apply List.Forall_rev.
Qed.

Lemma no_space_no_sep (sep : ascii) (s : list ascii) :
  is_space sep = true ->
  Forall (fun c => is_space c = false) s -> Forall (fun c => c <> sep) s.
Proof.
  intros Hsep Hs. eapply Forall_impl; [exact Hs|].
  intros c Hc ->. congruence.
Qed.

Lemma first_mime_type_field (mime rest : list ascii) :
  Forall (fun c => is_space c = false) mime ->
  rest = [] \/ (exists r, rest = tab :: r)
  \/ (exists r, rest = Re.newline :: r) ->
  first_mime_type (string_of_list_ascii (mime ++ rest))
  = string_of_list_ascii mime.
Proof.
  intros Hmime Hrest. unfold first_mime_type.
  rewrite list_ascii_of_string_of_list_ascii.
  rewrite (split_field Re.newline)
    by (apply no_space_no_sep; [reflexivity | assumption]).
  rewrite (split_field tab)
    by (apply no_space_no_sep; [reflexivity | assumption]).
  assert (Hnil : hd [] (split tab (hd [] (split Re.newline rest))) = []).
  { destruct Hrest as [-> | [[r ->] | [r ->]]].
    - reflexivity.
    - change (tab :: r) with ([tab] ++ r).
      rewrite (split_field Re.newline [tab] r)
        by (repeat constructor; discriminate).
      apply split_sep.
    - now rewrite split_sep. }
  rewrite Hnil, app_nil_r. now rewrite strip_space_none.
Qed.

End FileFacts.

(** X18: fido prints the MIME type, the match type and the signature
    name of every match, separated by tabs, one match per line;
    [get_mime_type] returns the text before the first tab or line break
    of that output, for a MIME type without white space unchanged. *)
Theorem get_mime_type_reads_first_field
    (fido : string -> option string) (path : string)
    (mime rest : list ascii) :
  Forall (fun c => File.is_space c = false) mime ->
  rest = [] \/ (exists r, rest = File.tab :: r)
  \/ (exists r, rest = Re.newline :: r) ->
  fido path = Some (string_of_list_ascii (mime ++ rest)) ->
  File.get_mime_type fido path = Some (string_of_list_ascii mime).
Proof.
  intros Hmime Hrest Hfido. unfold File.get_mime_type. rewrite Hfido.
  f_equal. now apply first_mime_type_field.
Qed.

Lemma get_mime_type_reads_first_field_witness :
  File.get_mime_type FixtureMore.fido_run "data/sample.png"
  = Some "image/png".
Proof.
  apply (get_mime_type_reads_first_field FixtureMore.fido_run
           "data/sample.png" (list_ascii_of_string "image/png")
           (list_ascii_of_string
              (String "009" "signature" +:+ String "009" "PNG"
               +:+ String "010" ""))).
  - repeat constructor.
  - right. left. eexists. reflexivity.
  - reflexivity.
Defined.

(** X19: on a [Path], [validate_file] returns 1 exactly when the call
    of fido fails; whatever fido prints, even nothing, the file counts
    as identified, and the call returns 0 or raises. *)
Theorem validate_file_returns_one_iff_fido_fails
    (Logger_str : Logging.Logger -> string)
    (fido : string -> option string)
    (self : FileFormat.FileFormatValidator) (p : string)
    (clear_report log_summary : bool) (l : Logging.Logger) :
  let out := FileFormat.validate_file Logger_str (File.get_mime_type fido)
               self (FileFormat.ArgPath p) clear_report log_summary l in
  (fst out = Ok 1%Z <-> fido p = None) /\
  (fido p = None ->
   snd out = (if clear_report then [] else l)
             ++ [Logging.Message Logging.ERROR "File Format Validator"
                   ("Unable to analyze file '" +:+ p +:+ "' using fido.")]) /\
  (fido p <> None -> fst out = Ok 0%Z \/ exists e, fst out = Raise e).
Proof.
  cbv zeta. split; [split|split].
  - intros Hone.
    destruct (validate_file_outcome Logger_str (File.get_mime_type fido)
                self p clear_report log_summary l)
      as [[H | [H | [e [H _]]]] | [Hnone _]];
      try (rewrite H in Hone; discriminate).
    unfold File.get_mime_type in Hnone. now destruct (fido p).
  - intros Hnone. unfold FileFormat.validate_file, File.get_mime_type.
    now rewrite Hnone.
  - intros Hnone. unfold FileFormat.validate_file, File.get_mime_type.
    now rewrite Hnone.
  - intros Hsome.
    destruct (validate_file_outcome Logger_str (File.get_mime_type fido)
                self p clear_report log_summary l)
      as [[H | [H | [e [H _]]]] | [Hnone _]]; eauto.
    unfold File.get_mime_type in Hnone. now destruct (fido p).
Qed.

(** ** The constructor of the format validator *)

Section InitFormatFacts.
Import FileFormat FileFormatInit SpecInit.

Lemma init_loop_typed (entries : list (raw_selector * Plugin))
    (vs validators : list (selector * Plugin)) :
  Forall2 (fun e v => typed e = Some v) entries vs ->
  init_loop entries validators = Ok (validators ++ vs).
Proof.
  intros H. revert validators.
  induction H as [|[[types | pattern | str_] plugin] v entries vs Hv _ IH];
    intros validators; cbn [init_loop typed] in *.
  - now rewrite app_nil_r.
  - injection Hv as <-. rewrite IH, <- app_assoc. reflexivity.
  - injection Hv as <-. rewrite IH, <- app_assoc. reflexivity.
  - discriminate.
Qed.

Lemma init_loop_other (before after : list (raw_selector * Plugin))
    (str_ : string) (plugin : Plugin) (validators : list (selector * Plugin)) :
  Forall (fun e => is_Some (typed e)) before ->
  init_loop (before ++ (RawOther str_, plugin) :: after) validators
  = Raise (ValueError (unknown_selector_message plugin str_)).
Proof.
  intros H. revert validators.
  induction H as [|[[types | pattern | s] p] before He _ IH];
    intros validators; cbn [app init_loop]; try apply IH.
  - reflexivity.
  - now destruct He.
Qed.

End InitFormatFacts.

(** X20: the constructor keeps the entries whose selector is a list or
    a string, in their order and without compiling a pattern, and
    raises [ValueError] for the first entry with another selector,
    naming its plugin. *)
Theorem init_keeps_entries_until_unknown_selector
    (entries : list (FileFormatInit.raw_selector * FileFormat.Plugin)) :
  (forall vs,
      Forall2 (fun e v => SpecInit.typed e = Some v) entries vs ->
      FileFormatInit.init entries = Ok {| FileFormat.validators := vs |}) /\
  (forall before str_ plugin after,
      entries = before ++ (FileFormatInit.RawOther str_, plugin) :: after ->
      Forall (fun e => is_Some (SpecInit.typed e)) before ->
      FileFormatInit.init entries
      = Raise (ValueError
                 (FileFormatInit.unknown_selector_message plugin str_))).
Proof.
  unfold FileFormatInit.init. split.
  - intros vs H. now rewrite (init_loop_typed entries vs []).
  - intros before str_ plugin after -> H. now rewrite init_loop_other.
Qed.

(** ** The example plugin *)

Section ExampleFacts.
Import ExamplePlugin PurePath.

Lemma parse_parts_file (rel file : list ascii) :
  rel = [] \/ last rel = Some "/"%char ->
  Forall (fun c => c <> "/"%char) file ->
  keep_part file = true ->
  parse_parts (rel ++ file) = parse_parts rel ++ [file].
Proof.
  unfold parse_parts. intros [-> | Hlast] Hfile Hkeep.
  - cbn [app]. rewrite split_name by assumption. cbn. now rewrite Hkeep.
  - apply last_Some in Hlast as [rel0 ->]. rewrite <- app_assoc. cbn [app].
    rewrite (split_app_sep rel0 file), (split_app_sep rel0 []).
    rewrite !List.filter_app. rewrite (split_name file) by assumption.
    cbn. rewrite Hkeep. now rewrite app_nil_r.
Qed.

Lemma splitroot_file (r : list ascii) (f : ascii) (fs : list ascii) :
  last r = Some "/"%char ->
  is_sep f = false ->
  snd (splitroot (r ++ f :: fs)) = snd (splitroot r) ++ f :: fs /\
  (snd (splitroot r) = [] \/ last (snd (splitroot r)) = Some "/"%char).
Proof.
  intros Hlast Hf.
  destruct r as [|c1 [|c2 [|c3 r3]]]; [discriminate| | |].
  - injection Hlast as ->. cbn. rewrite Hf. cbn. auto.
  - rewrite last_cons_cons in Hlast. injection Hlast as ->.
    cbn. destruct (is_sep c1); cbn; rewrite ?Hf; cbn; auto.
  - rewrite !last_cons_cons in Hlast. cbn.
    destruct (is_sep c1), (is_sep c2), (is_sep c3); cbn;
      rewrite ?last_cons_cons; auto.
Qed.

(** The name of a path is its last component. *)
Lemma name_file (dir file : list ascii) :
  dir = [] \/ last dir = Some "/"%char ->
  Forall (fun c => c <> "/"%char) file ->
  keep_part file = true ->
  name (dir ++ file) = file.
Proof.
  intros Hdir Hfile Hkeep. unfold name.
  destruct file as [|f fs]; [discriminate|].
  assert (Hf : is_sep f = false).
  { unfold is_sep. apply Ascii.eqb_neq. now inversion Hfile. }
  destruct Hdir as [-> | Hlast].
  - cbn [app splitroot]. rewrite Hf. cbn [snd].
    change (f :: fs) with ([] ++ f :: fs) at 1.
    rewrite (parse_parts_file [] (f :: fs)) by auto.
    now rewrite last_snoc.
  - destruct (splitroot_file dir f fs Hlast Hf) as [-> Hrel].
    rewrite parse_parts_file by assumption. now rewrite last_snoc.
Qed.

Lemma rfind_dot_none (s : list ascii) :
  Forall (fun c => c <> "."%char) s -> rfind_dot s = None.
Proof.
  induction 1 as [|c s Hc _ IH]; [reflexivity|]. cbn [rfind_dot].
  apply Ascii.eqb_neq in Hc. now rewrite IH, Hc.
Qed.

Lemma rfind_dot_last (base ext : list ascii) :
  Forall (fun c => c <> "."%char) ext ->
  rfind_dot (base ++ "."%char :: ext) = Some (length base).
Proof.
  intros Hext. induction base as [|c base IH]; cbn [app rfind_dot length].
  - now rewrite rfind_dot_none.
  - now rewrite IH.
Qed.

(** The suffix of a name [base.ext]. *)
Lemma suffix_file (dir base ext : list ascii) :
  dir = [] \/ last dir = Some "/"%char ->
  base <> [] -> Forall (fun c => c <> "/"%char) base ->
  ext <> [] -> Forall (fun c => c <> "/"%char /\ c <> "."%char) ext ->
  suffix (dir ++ base ++ "."%char :: ext) = "."%char :: ext.
Proof.
  intros Hdir Hbase Hbase' Hext Hext'. unfold suffix.
  rewrite name_file; [|assumption| |].
  - rewrite rfind_dot_last
      by (eapply Forall_impl; [exact Hext'|]; now intros c [_ ?]).
    rewrite length_app. cbn [length].
    destruct base as [|b base]; [contradiction|].
    destruct ext as [|e ext]; [contradiction|]. cbn [length].
    replace (0 <? S (length base))%nat with true
      by (symmetry; apply Nat.ltb_lt; lia).
    replace (S (length base) <? S (length base) + S (S (length ext)) - 1)%nat
      with true by (symmetry; apply Nat.ltb_lt; lia).
    cbn [andb]. apply (drop_app_length (b :: base)).
  - apply Forall_app. split; [assumption|]. constructor; [discriminate|].
    eapply Forall_impl; [exact Hext'|]. now intros c [? _].
  - destruct base as [|b [|b' base]]; [contradiction| |reflexivity].
    destruct ext; [contradiction | reflexivity].
Qed.

Lemma lower_char_not_dot (c : ascii) :
  c <> "."%char -> Str.lower_char c <> "."%char.
Proof.
  destruct c as [[] [] [] [] [] [] [] []]; vm_compute; congruence.
Qed.

Lemma lower_chars (s : string) :
  list_ascii_of_string (Str.lower s)
  = map Str.lower_char (list_ascii_of_string s).
Proof. induction s as [|c s IH]; cbn; [reflexivity | now rewrite IH]. Qed.

Lemma lstrip_dot (l : list ascii) :
  Forall (fun c => c <> "."%char) l ->
  Str.lstrip_chars ["."%char] l = l.
Proof.
  destruct 1 as [|c l Hc _]; [reflexivity|]. cbn [Str.lstrip_chars existsb].
  apply Ascii.eqb_neq in Hc. now rewrite Hc.
Qed.

Lemma strip_dot (s : string) :
  Forall (fun c => c <> "."%char) (list_ascii_of_string s) ->
  Str.strip "." (String "." s) = s.
Proof.
  intros Hs. unfold Str.strip.
  change (list_ascii_of_string ".") with ["."%char].
  change (list_ascii_of_string (String "." s))
    with ("."%char :: list_ascii_of_string s).
  cbn [Str.lstrip_chars existsb Ascii.eqb Bool.eqb orb].
  rewrite (lstrip_dot _ Hs), lstrip_dot by now apply List.Forall_rev.
  rewrite rev_involutive. apply string_of_list_ascii_of_string.
Qed.

(** The extension of a file [base.ext] is [ext] in lower case. *)
Lemma extension_file (dir base ext : string) :
  dir = "" \/ Str.last_char dir = Some "/"%char ->
  base <> "" ->
  Forall (fun c => c <> "/"%char) (list_ascii_of_string base) ->
  ext <> "" ->
  Forall (fun c => c <> "/"%char /\ c <> "."%char)
    (list_ascii_of_string ext) ->
  extension (dir +:+ base +:+ "." +:+ ext) = Str.lower ext.
Proof.
  intros Hdir Hbase Hbase' Hext Hext'. unfold extension.
  rewrite !chars_append.
  change (list_ascii_of_string ".") with ["."%char]. cbn [app].
  rewrite suffix_file; try assumption.
  - change (string_of_list_ascii ("."%char :: list_ascii_of_string ext))
      with (String "." (string_of_list_ascii (list_ascii_of_string ext))).
    rewrite string_of_list_ascii_of_string.
    change (Str.lower (String "." ext)) with (String "." (Str.lower ext)).
    apply strip_dot. rewrite lower_chars. apply Forall_map.
    eapply Forall_impl; [exact Hext'|].
    intros c [_ Hc]. now apply lower_char_not_dot.
  - destruct Hdir as [-> | Hlast]; [now left | right].
    now rewrite <- last_char_last.
  - now destruct base.
  - now destruct ext.
Qed.

End ExampleFacts.

(** X21: for a file [base.ext] of a MIME type of its map, the example
    plugin compares the part of the name after its last dot, in lower
    case, with the extensions listed for the type: it returns 0 without
    a message when the extension is listed, and 1 with one Error naming
    the path otherwise. *)
Theorem example_plugin_checks_lowercase_extension
    (dir base ext file_type : string) (extensions : list string) :
  dir = "" \/ Str.last_char dir = Some "/"%char ->
  base <> "" ->
  Forall (fun c => c <> "/"%char) (list_ascii_of_string base) ->
  ext <> "" ->
  Forall (fun c => c <> "/"%char /\ c <> "."%char)
    (list_ascii_of_string ext) ->
  ExamplePlugin.lookup file_type ExamplePlugin.MIME_TYPE_EXTENSION_MAP
  = Some extensions ->
  let file_path := dir +:+ base +:+ "." +:+ ext in
  ExamplePlugin.validate_file_format file_path file_type =
  if bool_decide (Str.lower ext ∈ extensions) then (0%Z, [])
  else (1%Z,
        [Logging.Message Logging.ERROR ExamplePlugin.VALIDATOR_TAG
           (ExamplePlugin.invalid_body (PurePath.as_posix file_path))]).
Proof.
  intros Hdir Hbase Hbase' Hext Hext' Htype. cbv zeta.
  unfold ExamplePlugin.validate_file_format. rewrite Htype.
  rewrite extension_file by assumption.
  now destruct (bool_decide _).
Qed.

Lemma example_plugin_checks_lowercase_extension_witness :
  ExamplePlugin.validate_file_format "data/sample.PNG" "image/png"
  = (0%Z, []).
Proof.
  apply (example_plugin_checks_lowercase_extension "data/" "sample" "PNG"
           "image/png" ["png"]).
  - right. reflexivity.
  - discriminate.
  - repeat constructor; discriminate.
  - discriminate.
  - repeat constructor; discriminate.
  - reflexivity.
Defined.

Section ExampleEdgeFacts.
Import ExamplePlugin.

Lemma lookup_None (key : string) (d : list (string * list string)) :
  key ∉ map fst d -> lookup key d = None.
Proof.
  induction d as [|[k v] d IH]; [reflexivity|]. cbn [map fst lookup].
  intros Hnot. destruct (String.eqb_spec k key) as [-> | Hne].
  - exfalso. apply Hnot. left.
  - apply IH. intros Hin. apply Hnot. now right.
Qed.

Lemma listed_extensions (file_type : string) :
  file_type ∈ DEFAULT_FILE_FORMATS ->
  exists extensions,
    lookup file_type MIME_TYPE_EXTENSION_MAP = Some extensions /\
    "" ∉ extensions.
Proof.
  intros Hin. apply list_elem_of_In in Hin. cbn in Hin.
  repeat (destruct Hin as [<- | Hin];
          [eexists; split; [reflexivity|];
           intros H; apply list_elem_of_In in H; cbn in H;
           intuition discriminate|]).
  contradiction.
Qed.

Lemma extension_without_dot (file_path : string) :
  Forall (fun c => c <> "."%char) (name (list_ascii_of_string file_path)) ->
  extension file_path = "".
Proof.
  intros Hname. unfold extension, suffix. now rewrite rfind_dot_none.
Qed.

End ExampleEdgeFacts.

(** X22: the example plugin accepts every file of a MIME type that is
    not in its map, whatever its name, and rejects every file of a MIME
    type of its map whose name has no dot. *)
Theorem example_plugin_unknown_type_and_missing_extension
    (file_path file_type : string) :
  (file_type ∉ ExamplePlugin.DEFAULT_FILE_FORMATS ->
   ExamplePlugin.validate_file_format file_path file_type = (0%Z, [])) /\
  (file_type ∈ ExamplePlugin.DEFAULT_FILE_FORMATS ->
   Forall (fun c => c <> "."%char)
     (ExamplePlugin.name (list_ascii_of_string file_path)) ->
   ExamplePlugin.validate_file_format file_path file_type =
   (1%Z,
    [Logging.Message Logging.ERROR ExamplePlugin.VALIDATOR_TAG
       (ExamplePlugin.invalid_body (PurePath.as_posix file_path))])).
Proof.
  unfold ExamplePlugin.validate_file_format. split.
  - intros Hnot. now rewrite lookup_None.
  - intros Hin Hname.
    destruct (listed_extensions file_type Hin) as (extensions & -> & Hno).
    rewrite extension_without_dot by assumption.
    now rewrite bool_decide_eq_false_2.
Qed.

(** ** The tags of bag-info.txt *)

Section BagInfoFacts.
Import BagInfo SpecBagInfo.
Variable normalize_tag : string -> string.
Variable library_failures : Bag -> list string.

Lemma fail_each_extended (msgs : list string) (r : report) :
  fail_each msgs r = extended r msgs.
Proof.
  revert r. induction msgs as [|msg msgs IH]; intros r; [reflexivity|].
  cbn [fail_each]. unfold bind, _fail. destruct r as [errors|];
    [|reflexivity].
  rewrite IH. unfold extended. destruct msgs as [|msg' msgs].
  - reflexivity.
  - now rewrite <- app_assoc.
Qed.

(** Passing two lists of messages one after the other. *)
Lemma extended_app (a b : list string) (r : report) :
  match extended r a with
  | (Returns _, r') => extended r' b
  | (Raises e, r') => (Raises e, r')
  end = extended r (a ++ b).
Proof.
  unfold extended. destruct a as [|x a]; [reflexivity|].
  destruct r as [errors|]; [|reflexivity]. cbn [app].
  destruct b as [|y b]; [now rewrite app_nil_r|].
  now rewrite <- app_assoc.
Qed.

Lemma check_values_extended (bag : Bag) (tag description : string)
    (values : list string) (r : report) :
  is_Some (Re.compile description) ->
  check_values bag tag description values r =
  extended r (map (description_body bag tag)
                (List.filter (fun value => negb (allowed description value))
                   values)).
Proof.
  intros [rx Hrx]. revert r.
  induction values as [|value values IH]; intros r; [reflexivity|].
  cbn [check_values List.filter]. unfold allowed at 1. rewrite Hrx.
  destruct (Re.fullmatch rx (list_ascii_of_string value)); cbn [negb].
  - apply IH.
  - cbn [map]. unfold bind.
    change (description_body bag tag value :: ?l)
      with ([description_body bag tag value] ++ l).
    rewrite <- extended_app. unfold extended at 2.
    unfold _fail. destruct r as [errors|]; [apply IH | reflexivity].
Qed.

Lemma check_tags_extended (bag : Bag) (d : gmap string tag_value)
    (tags : list (string * option string)) (r : report) :
  descriptions_compile tags ->
  check_tags normalize_tag bag d tags r =
  extended r (flat_map (tag_messages bag d normalize_tag) tags).
Proof.
  intros Hok. revert r.
  induction Hok as [|[tag config] tags Hentry _ IH]; intros r;
    [reflexivity|].
  cbn [check_tags flat_map]. unfold tag_messages at 1. cbn [fst snd].
  destruct config as [description|]; [|apply IH].
  destruct (d !! normalize_tag tag) as [found|]; [|apply IH].
  rewrite <- extended_app. unfold bind.
  rewrite check_values_extended by now apply Hentry.
  unfold values_of.
  destruct (extended r _) as [[[]|e] r']; [apply IH | reflexivity].
Qed.

Lemma validate_bag_info_extended (self : ProfileValidator) (bag : Bag)
    (tags : list (string * option string)) (r : report) :
  Bag_Info self = Some tags ->
  descriptions_compile tags ->
  validate_bag_info normalize_tag library_failures self bag r =
  match extended r
          (library_failures bag
           ++ (if has_bag_info_txt bag then [] else [not_present_body bag])
           ++ flat_map (tag_messages bag (bag_info normalize_tag self bag)
                          normalize_tag) tags) with
  | (Returns _, r') => (Returns true, r')
  | (Raises e, r') => (Raises e, r')
  end.
Proof.
  intros Htags Hok. unfold validate_bag_info. rewrite Htags.
  rewrite <- extended_app. unfold bind at 1. rewrite fail_each_extended.
  destruct (extended r (library_failures bag)) as [[[]|e] r1];
    [|reflexivity].
  rewrite <- extended_app. unfold bind at 1.
  assert (Hfile : (if has_bag_info_txt bag then ret tt
                   else _fail (not_present_body bag)) r1
                  = extended r1 (if has_bag_info_txt bag then []
                                 else [not_present_body bag])).
  { destruct (has_bag_info_txt bag); [reflexivity|].
    unfold _fail, extended. now destruct r1. }
  rewrite Hfile.
  destruct (extended r1 _) as [[[]|e] r2]; [|reflexivity].
  unfold bind. rewrite check_tags_extended by assumption.
  now destruct (extended r2 _) as [[[]|e] r3].
Qed.

End BagInfoFacts.

(** X23: when the descriptions of the profile compile,
    [validate_bag_info] never removes an error and returns [True]
    whatever it finds: it adds to the report the messages of the
    library's check, then one message if bag-info.txt is missing, then,
    in the order of the profile, one message for each value of a tag of
    the bag that the description of the tag does not match as a whole.
    Without a report it raises [AssertionError] as soon as there is a
    message to add. *)
Theorem validate_bag_info_extends_report
    (normalize_tag : string -> string)
    (library_failures : BagInfo.Bag -> list string)
    (self : BagInfo.ProfileValidator) (bag : BagInfo.Bag)
    (tags : list (string * option string)) (r : BagInfo.report) :
  BagInfo.Bag_Info self = Some tags ->
  SpecBagInfo.descriptions_compile tags ->
  let messages :=
    library_failures bag
    ++ (if BagInfo.has_bag_info_txt bag then []
        else [BagInfo.not_present_body bag])
    ++ flat_map (SpecBagInfo.tag_messages bag
                   (BagInfo.bag_info normalize_tag self bag) normalize_tag)
         tags in
  BagInfo.validate_bag_info normalize_tag library_failures self bag r =
  match r with
  | Some errors => (BagInfo.Returns true, Some (errors ++ messages))
  | None =>
      if bool_decide (messages = []) then (BagInfo.Returns true, None)
      else (BagInfo.Raises BagInfo.AssertionError, None)
  end.
Proof.
  intros Htags Hok. cbv zeta.
  rewrite (validate_bag_info_extended normalize_tag library_failures self bag
             tags r Htags Hok).
  unfold SpecBagInfo.extended.
  destruct (_ ++ _) as [|msg msgs]; destruct r as [errors|];
    try reflexivity.
  now rewrite app_nil_r.
Qed.

Lemma validate_bag_info_extends_report_witness :
  BagInfo.validate_bag_info (fun tag => tag) (fun _ => [])
    FixtureMore.described_profile FixtureMore.described_bag (Some [])
  = (BagInfo.Returns true,
     Some [BagInfo.description_body FixtureMore.described_bag "Property"
             "bad-value"]).
Proof.
  rewrite (validate_bag_info_extends_report (fun tag => tag) (fun _ => [])
             FixtureMore.described_profile FixtureMore.described_bag
             [("Property", Some "\d*")] (Some []) eq_refl).
  - vm_compute. reflexivity.
  - repeat constructor. intros description [= <-]. vm_compute. eauto.
Defined.

(** ** The jhove plugin *)

Section JhoveModuleFacts.
Import Jhove.

Lemma existsb_false {A} (f : A -> bool) (l : list A) :
  existsb f l = false <-> Forall (fun x => f x = false) l.
Proof.
  induction l as [|x l IH]; cbn [existsb].
  - split; [constructor | reflexivity].
  - rewrite orb_false_iff, IH. split.
    + intros [? ?]. now constructor.
    + intros H. inversion H. now split.
Qed.

Lemma find_key_None (modules : list (string * list string))
    (search_value : string) :
  find_key modules search_value = None <->
  Forall (fun value => Str.contains (Str.lower search_value) value = false)
    (concat (map snd modules)).
Proof.
  induction modules as [|[key values] modules IH];
    cbn [find_key map snd concat].
  - split; [constructor | reflexivity].
  - rewrite Forall_app, <- IH, <- existsb_false.
    destruct (existsb _ values); split; try discriminate; try tauto.
    now intros [? ?].
Qed.

Lemma find_key_listed (key : string) (values : list string)
    (file_type search_value : string) :
  In (key, values) FILETYPE_MODULES ->
  In file_type values ->
  Str.lower search_value = file_type ->
  _find_key_for_value search_value = Some key.
Proof.
  intros Hmodule Htype Hlower.
  unfold _find_key_for_value, FILETYPE_MODULES in *.
  cbn [In] in Hmodule.
  repeat (destruct Hmodule as [[= <- <-] | Hmodule];
          [cbn [In] in Htype;
           repeat (destruct Htype as [<- | Htype];
                   [cbn [find_key]; rewrite Hlower; vm_compute; reflexivity|]);
           contradiction|]).
  contradiction.
Qed.

End JhoveModuleFacts.

(** X24: [_find_key_for_value] looks for the type, in lower case, as a
    substring of the MIME types of the modules. Every MIME type listed
    for a module, in any capitalization, is sent to that module, and no
    module is found exactly when the type in lower case is a substring
    of no listed MIME type; the empty type is sent to the first module. *)
Theorem jhove_module_of_file_type :
  (forall key values file_type search_value,
      In (key, values) Jhove.FILETYPE_MODULES ->
      In file_type values ->
      Str.lower search_value = file_type ->
      Jhove._find_key_for_value search_value = Some key) /\
  (forall search_value,
      Jhove._find_key_for_value search_value = None <->
      Forall (fun value => Str.contains (Str.lower search_value) value = false)
        Jhove.DEFAULT_FILE_FORMATS) /\
  Jhove._find_key_for_value "" = option_map fst (head Jhove.FILETYPE_MODULES).
Proof.
  split; [|split].
  - apply find_key_listed.
  - intros search_value. apply find_key_None.
  - reflexivity.
Qed.

Section JhoveCallFacts.
Import Jhove SpecJhove Logging.
Variable json_loads : string -> outcome value.
Variable xml_parse : string -> outcome value.
Variable container_str : value -> string.
Variable log_other : Context -> value -> Logger -> Logger.

(** [_check_file] in terms of the two calls of jhove. *)
Lemma check_file_calls (run : list string -> completed) (self : JhovePlugin)
    (path_str module : string) :
  _check_file run json_loads xml_parse container_str self path_str module =
  match run (command self module ++ ["-h"; "JSON"; path_str]) with
  | CalledProcessError =>
      match run (command self module ++ ["-h"; "XML"; path_str]) with
      | CalledProcessError => Returns (unable_response path_str module)
      | RunError name => Raises (Uncaught name)
      | Completed stdout =>
          let+ jhove_returned := xml_parse stdout in
          xml_result container_str path_str jhove_returned
      end
  | RunError name => Raises (Uncaught name)
  | Completed stdout =>
      let+ jhove_returned := json_loads stdout in
      json_result container_str path_str jhove_returned
  end.
Proof.
  clear log_other.
  unfold _check_file, command, _call_json, _call_xml.
  assert (Hcommand :
            (if negb (String.eqb module "")
             then _default_command self ++ ["-m"; module]
             else _default_command self)
            = _default_command self
              ++ (if String.eqb module "" then [] else ["-m"; module])).
  { destruct (String.eqb module ""); cbn [negb]; [|reflexivity].
    now rewrite app_nil_r. }
  rewrite Hcommand.
  destruct (run (_ ++ ["-h"; "JSON"; path_str])) as [stdout| |name];
    cbn [bind]; [| |reflexivity].
  - destruct (json_loads stdout) as [v|e]; cbn [bind]; [|reflexivity].
    now destruct (json_result container_str path_str v).
  - destruct (run (_ ++ ["-h"; "XML"; path_str])) as [stdout| |name];
      cbn [bind]; try reflexivity.
    destruct (xml_parse stdout) as [v|e]; cbn [bind]; [|reflexivity].
    now destruct (xml_result container_str path_str v).
Qed.

Lemma add_message_readable (severity_key text_key id_key : string)
    (result : JhoveResponseDict) (message : value) :
  readable severity_key text_key message ->
  strings result ->
  exists result',
    add_message container_str severity_key text_key id_key result message
    = Returns result' /\
    strings result' /\
    (error result' = [] <->
     error result = [] /\ counts_as_error severity_key message = false).
Proof.
  intros (fields & -> & Htext) [Hinfo Herror].
  unfold add_message, counts_as_error, severity_of. cbn [contains_ bind].
  destruct (lookup severity_key fields) as [severity|] eqn:Hseverity.
  - rewrite bool_decide_eq_true_2 by eauto. cbn [getitem].
    rewrite Hseverity. destruct Htext as [text Htext]; [eauto|].
    rewrite Htext. cbn [bind].
    assert (Hmessage :
              exists s,
                (let+ _message :=
                   if bool_decide (is_Some (lookup id_key fields))
                   then
                     let+ id := match lookup id_key fields with
                                | Some v => Returns v
                                | None => Raises (KeyError id_key)
                                end in
                     add_str (VStr text)
                       (" (" +:+ format container_str id +:+ ")")
                   else Returns (VStr text) in
                 Returns (append_to (is_info severity) _message result))
                = Returns (append_to (is_info severity) (VStr s) result)).
    { destruct (lookup id_key fields) as [id|].
      - rewrite bool_decide_eq_true_2 by eauto. cbn [bind add_str]. eauto.
      - rewrite bool_decide_eq_false_2 by (intros [? ?]; discriminate).
        cbn [bind]. eauto. }
    destruct Hmessage as [s ->]. eexists. split; [reflexivity|].
    unfold append_to, strings.
    destruct (is_info severity); cbn [info error negb].
    + split; [split; [|assumption]|].
      * apply Forall_app. split; [assumption|]. repeat constructor. eauto.
      * split; [now split | now intros [? _]].
    + split; [split; [assumption|]|].
      * apply Forall_app. split; [assumption|]. repeat constructor. eauto.
      * split; [intros H; now apply app_eq_nil in H as [_ ?]|].
        now intros [_ ?].
  - rewrite bool_decide_eq_false_2 by (intros [? ?]; discriminate).
    exists result. split; [reflexivity|]. split; [now split|].
    split; [now split | now intros [? _]].
Qed.

Lemma add_messages_readable (severity_key text_key id_key : string)
    (messages : list value) (result : JhoveResponseDict) :
  Forall (readable severity_key text_key) messages ->
  strings result ->
  exists result',
    add_messages container_str severity_key text_key id_key messages result
    = Returns result' /\
    strings result' /\
    (error result' = [] <->
     error result = [] /\
     existsb (counts_as_error severity_key) messages = false).
Proof.
  clear json_loads xml_parse log_other. intros Hmessages. revert result.
  induction Hmessages as [|message messages Hmessage _ IH];
    intros result Hresult.
  - exists result. split; [reflexivity|]. split; [assumption|].
    cbn [existsb]. tauto.
  - cbn [add_messages existsb].
    destruct (add_message_readable severity_key text_key id_key result
                message Hmessage Hresult) as (r1 & -> & Hr1 & Herr1).
    cbn [bind]. destruct (IH r1 Hr1) as (r2 & -> & Hr2 & Herr2).
    exists r2. split; [reflexivity|]. split; [assumption|].
    rewrite Herr2, Herr1, orb_false_iff. tauto.
Qed.

Lemma fold_log_value (context : Context) (messages : list value)
    (l : Logger) :
  Forall (fun v => exists s, v = VStr s) messages ->
  exists bodies,
    length bodies = length messages /\
    fold_left (fun l message => log_value log_other context message l)
      messages l
    = l ++ map (Message context VALIDATOR_TAG) bodies.
Proof.
  intros Hmessages. revert l.
  induction Hmessages as [|message messages [s ->] _ IH]; intros l.
  - exists []. split; [reflexivity|]. now rewrite app_nil_r.
  - cbn [fold_left log_value].
    destruct (IH (log context VALIDATOR_TAG s l)) as (bodies & Hlen & ->).
    exists (s :: bodies). split; [cbn; now rewrite Hlen|].
    unfold log. now rewrite <- app_assoc.
Qed.

Lemma contains_info_only (bodies : list string) :
  contains ERROR (map (Message INFO VALIDATOR_TAG) bodies) = false.
Proof.
  unfold contains. induction bodies as [|b bodies IH]; [reflexivity|].
  cbn [map existsb msg_context]. now rewrite IH.
Qed.

(** The exit code and the log for a result of strings. *)
Lemma validate_file_format_result (run : list string -> completed)
    (self : JhovePlugin) (file_path file_type key : string)
    (result : JhoveResponseDict) :
  _find_key_for_value file_type = Some key ->
  _check_file run json_loads xml_parse container_str self
    (PurePath.as_posix file_path) key = Returns result ->
  strings result ->
  let out := validate_file_format run json_loads xml_parse container_str
               log_other self file_path file_type in
  fst out = Returns (if bool_decide (error result = []) then 0%Z else 1%Z) /\
  contains ERROR (snd out) = negb (bool_decide (error result = [])).
Proof.
  intros Hkey Hcheck [Hinfo Herror]. cbv zeta.
  unfold validate_file_format. rewrite Hkey, Hcheck.
  destruct (fold_log_value INFO (info result) [] Hinfo)
    as (infos & _ & ->). cbn [app].
  destruct (error result) as [|message messages] eqn:Herr.
  - rewrite bool_decide_eq_true_2 by reflexivity. cbn [fst snd negb].
    split; [reflexivity|]. unfold log, contains.
    rewrite existsb_app. fold (contains ERROR (map (Message INFO VALIDATOR_TAG) infos)).
    now rewrite contains_info_only.
  - rewrite bool_decide_eq_false_2 by discriminate. cbn [fst snd negb].
    split; [reflexivity|].
    destruct (fold_log_value ERROR (message :: messages)
                (map (Message INFO VALIDATOR_TAG) infos) Herror)
      as (errors & Hlen & ->).
    destruct errors as [|body errors]; [discriminate|].
    unfold contains. rewrite existsb_app. cbn [map existsb msg_context].
    rewrite bool_decide_eq_true_2 by reflexivity.
    cbn [orb]. apply orb_true_r.
Qed.

End JhoveCallFacts.

Section JhoveReportFacts.
Import Jhove SpecJhove Logging.
Variable json_loads : string -> outcome value.
Variable xml_parse : string -> outcome value.
Variable container_str : value -> string.
Variable log_other : Context -> value -> Logger -> Logger.

Lemma strings_empty : strings empty_response.
Proof. split; constructor. Qed.

Lemma json_result_readable (path_str : string)
    (top j first : list (string * value)) (others messages : list value) :
  lookup "jhove" top = Some (VDict j) ->
  lookup "repInfo" j = Some (VList (VDict first :: others)) ->
  lookup "messages" first = Some (VList messages)
  \/ (lookup "messages" first = None /\ messages = []) ->
  Forall (readable "severity" "message") messages ->
  exists result,
    json_result container_str path_str (VDict top) = Returns result /\
    strings result /\
    (error result = [] <->
     existsb (counts_as_error "severity") messages = false).
Proof.
  clear json_loads xml_parse log_other.
  intros Hjhove Hrep Hmessages Hreadable. unfold json_result.
  cbn [contains_ getitem bind]. rewrite Hjhove.
  rewrite bool_decide_eq_true_2 by eauto. cbn [bind contains_ getitem].
  rewrite Hrep. rewrite bool_decide_eq_true_2 by eauto.
  cbn [bind contains_ getitem].
  destruct Hmessages as [Hmessages | [Hmessages ->]]; rewrite Hmessages.
  - rewrite bool_decide_eq_true_2 by eauto. cbn [bind iter].
    destruct (add_messages_readable container_str "severity" "message" "id"
                messages empty_response Hreadable strings_empty)
      as (result & -> & Hstrings & Herror).
    exists result. split; [reflexivity|]. split; [assumption|].
    rewrite Herror. cbn [error empty_response]. tauto.
  - rewrite bool_decide_eq_false_2 by (intros [? ?]; discriminate).
    exists empty_response. split; [reflexivity|].
    split; [apply strings_empty | now split].
Qed.

Lemma xml_result_readable (path_str : string)
    (top j rep ms : list (string * value)) (message : value) :
  lookup "jhove" top = Some (VDict j) ->
  lookup "repInfo" j = Some (VDict rep) ->
  lookup "messages" rep = Some (VDict ms) ->
  lookup "message" ms = Some message ->
  let messages := match message with
                  | VList items => items
                  | _ => [message]
                  end in
  Forall (readable "@severity" "#text") messages ->
  exists result,
    xml_result container_str path_str (VDict top) = Returns result /\
    strings result /\
    (error result = [] <->
     existsb (counts_as_error "@severity") messages = false).
Proof.
  clear json_loads xml_parse log_other.
  intros Hjhove Hrep Hms Hmessage messages Hreadable. unfold xml_result.
  cbn [contains_ getitem bind]. rewrite Hjhove.
  rewrite bool_decide_eq_true_2 by eauto. cbn [bind contains_ getitem].
  rewrite Hrep. rewrite bool_decide_eq_true_2 by eauto.
  cbn [bind contains_ getitem].
  rewrite Hms. rewrite bool_decide_eq_true_2 by eauto.
  cbn [bind contains_ getitem].
  rewrite Hmessage. rewrite bool_decide_eq_true_2 by eauto. cbn [bind].
  fold messages.
  destruct (add_messages_readable container_str "@severity" "#text" "@id"
              messages empty_response Hreadable strings_empty)
    as (result & -> & Hstrings & Herror).
  exists result. split; [reflexivity|]. split; [assumption|].
  rewrite Herror. cbn [error empty_response]. tauto.
Qed.

End JhoveReportFacts.

(** X25: [_check_file] calls jhove with the JSON handler first and with
    the XML handler only when the first call ends with
    [CalledProcessError]; both calls use the default command, followed
    by "-m" and the module unless the module is empty. Its result
    depends on no other call; when both calls fail the result is the
    single error "unable to invoke jhove", and a JSON output is never
    followed by a second call, whatever it contains. *)
Theorem check_file_tries_json_then_xml
    (run run' : list string -> Jhove.completed)
    (json_loads xml_parse : string -> Jhove.outcome Jhove.value)
    (container_str : Jhove.value -> string)
    (self : Jhove.JhovePlugin) (path_str module : string) :
  let json := SpecJhove.command self module ++ ["-h"; "JSON"; path_str] in
  let xml := SpecJhove.command self module ++ ["-h"; "XML"; path_str] in
  let check run :=
    Jhove._check_file run json_loads xml_parse container_str self path_str
      module in
  run json = run' json ->
  (run json = Jhove.CalledProcessError -> run xml = run' xml) ->
  check run = check run' /\
  (run json = Jhove.CalledProcessError ->
   run xml = Jhove.CalledProcessError ->
   check run = Jhove.Returns (Jhove.unable_response path_str module)) /\
  (forall stdout,
      run json = Jhove.Completed stdout ->
      check run =
      Jhove.bind (json_loads stdout)
        (Jhove.json_result container_str path_str)).
Proof.
  cbv beta zeta. intros Hjson Hxml. rewrite !check_file_calls.
  split; [|split].
  - rewrite <- Hjson.
    destruct (run (_ ++ ["-h"; "JSON"; path_str])); try reflexivity.
    now rewrite <- Hxml.
  - now intros -> ->.
  - now intros stdout ->.
Qed.

Lemma check_file_tries_json_then_xml_witness :
  Jhove._check_file FixtureMore.run_xml_only FixtureMore.json_loads
    FixtureMore.xml_parse FixtureMore.container_str FixtureMore.jhove_plugin
    "data/sample.png" "PNG-gdm"
  = Jhove._check_file FixtureMore.run_handlers_only FixtureMore.json_loads
      FixtureMore.xml_parse FixtureMore.container_str
      FixtureMore.jhove_plugin "data/sample.png" "PNG-gdm".
Proof.
  destruct (check_file_tries_json_then_xml FixtureMore.run_xml_only
              FixtureMore.run_handlers_only FixtureMore.json_loads
              FixtureMore.xml_parse FixtureMore.container_str
              FixtureMore.jhove_plugin "data/sample.png" "PNG-gdm")
    as [H _].
  - reflexivity.
  - intros _. reflexivity.
  - exact H.
Defined.

(** X26: when jhove answers the JSON call with a report of the usual
    shape, whose messages are dicts with a string as text,
    [validate_file_format] returns 1 exactly when a message has a
    severity other than "info", and exactly then the log has an Error;
    messages without a severity are ignored, and no second call is
    made. *)
Theorem jhove_json_report_verdict
    (run : list string -> Jhove.completed)
    (json_loads xml_parse : string -> Jhove.outcome Jhove.value)
    (container_str : Jhove.value -> string)
    (log_other : Logging.Context -> Jhove.value -> Logging.Logger ->
                 Logging.Logger)
    (self : Jhove.JhovePlugin) (file_path file_type module stdout : string)
    (top j first : list (string * Jhove.value))
    (others messages : list Jhove.value) :
  Jhove._find_key_for_value file_type = Some module ->
  run (SpecJhove.command self module
       ++ ["-h"; "JSON"; PurePath.as_posix file_path])
  = Jhove.Completed stdout ->
  json_loads stdout = Jhove.Returns (Jhove.VDict top) ->
  Jhove.lookup "jhove" top = Some (Jhove.VDict j) ->
  Jhove.lookup "repInfo" j
  = Some (Jhove.VList (Jhove.VDict first :: others)) ->
  Jhove.lookup "messages" first = Some (Jhove.VList messages)
  \/ (Jhove.lookup "messages" first = None /\ messages = []) ->
  Forall (SpecJhove.readable "severity" "message") messages ->
  let out := Jhove.validate_file_format run json_loads xml_parse
               container_str log_other self file_path file_type in
  let failed := existsb (SpecJhove.counts_as_error "severity") messages in
  fst out = Jhove.Returns (if failed then 1%Z else 0%Z) /\
  Logging.contains Logging.ERROR (snd out) = failed.
Proof.
  intros Hkey Hrun Hloads Hjhove Hrep Hmessages Hreadable. cbv zeta.
  destruct (json_result_readable container_str (PurePath.as_posix file_path)
              top j first others messages Hjhove Hrep Hmessages Hreadable)
    as (result & Hresult & Hstrings & Herror).
  assert (Hcheck : Jhove._check_file run json_loads xml_parse container_str
                     self (PurePath.as_posix file_path) module
                   = Jhove.Returns result).
  { rewrite check_file_calls, Hrun, Hloads. exact Hresult. }
  destruct (validate_file_format_result json_loads xml_parse container_str
              log_other run self file_path file_type module result
              Hkey Hcheck Hstrings) as [-> ->].
  destruct (existsb _ messages).
  - rewrite bool_decide_eq_false_2; [now split|].
    intros H. apply Herror in H. discriminate.
  - rewrite bool_decide_eq_true_2 by now apply Herror. now split.
Qed.

Lemma jhove_json_report_verdict_witness :
  let out := Jhove.validate_file_format FixtureMore.run_any
               FixtureMore.json_loads FixtureMore.xml_parse
               FixtureMore.container_str FixtureMore.log_other
               FixtureMore.jhove_plugin "data/sample.png" "image/png" in
  fst out = Jhove.Returns 1%Z /\
  Logging.contains Logging.ERROR (snd out) = true.
Proof.
  refine (jhove_json_report_verdict FixtureMore.run_any
            FixtureMore.json_loads FixtureMore.xml_parse
            FixtureMore.container_str FixtureMore.log_other
            FixtureMore.jhove_plugin "data/sample.png" "image/png"
            "PNG-gdm" "response_bad_json" _ _ _ [] _
            eq_refl eq_refl eq_refl eq_refl eq_refl
            (or_introl eq_refl) _).
  repeat constructor. eexists. split; [reflexivity|].
  intros _. eexists. reflexivity.
Defined.

(** X27: when the JSON call fails and jhove answers the XML call with a
    report of the usual shape, a single message counts like a list of
    one message, and [validate_file_format] returns 1 exactly when a
    message has a severity other than "info", and exactly then the log
    has an Error. *)
Theorem jhove_xml_report_verdict
    (run : list string -> Jhove.completed)
    (json_loads xml_parse : string -> Jhove.outcome Jhove.value)
    (container_str : Jhove.value -> string)
    (log_other : Logging.Context -> Jhove.value -> Logging.Logger ->
                 Logging.Logger)
    (self : Jhove.JhovePlugin) (file_path file_type module stdout : string)
    (top j rep ms : list (string * Jhove.value)) (message : Jhove.value) :
  Jhove._find_key_for_value file_type = Some module ->
  run (SpecJhove.command self module
       ++ ["-h"; "JSON"; PurePath.as_posix file_path])
  = Jhove.CalledProcessError ->
  run (SpecJhove.command self module
       ++ ["-h"; "XML"; PurePath.as_posix file_path])
  = Jhove.Completed stdout ->
  xml_parse stdout = Jhove.Returns (Jhove.VDict top) ->
  Jhove.lookup "jhove" top = Some (Jhove.VDict j) ->
  Jhove.lookup "repInfo" j = Some (Jhove.VDict rep) ->
  Jhove.lookup "messages" rep = Some (Jhove.VDict ms) ->
  Jhove.lookup "message" ms = Some message ->
  let messages := match message with
                  | Jhove.VList items => items
                  | _ => [message]
                  end in
  Forall (SpecJhove.readable "@severity" "#text") messages ->
  let out := Jhove.validate_file_format run json_loads xml_parse
               container_str log_other self file_path file_type in
  let failed := existsb (SpecJhove.counts_as_error "@severity") messages in
  fst out = Jhove.Returns (if failed then 1%Z else 0%Z) /\
  Logging.contains Logging.ERROR (snd out) = failed.
Proof.
  intros Hkey Hjson Hxml Hparse Hjhove Hrep Hms Hmessage messages Hreadable.
  cbv zeta.
  destruct (xml_result_readable container_str (PurePath.as_posix file_path)
              top j rep ms message Hjhove Hrep Hms Hmessage Hreadable)
    as (result & Hresult & Hstrings & Herror).
  assert (Hcheck : Jhove._check_file run json_loads xml_parse container_str
                     self (PurePath.as_posix file_path) module
                   = Jhove.Returns result).
  { rewrite check_file_calls, Hjson, Hxml, Hparse. exact Hresult. }
  destruct (validate_file_format_result json_loads xml_parse container_str
              log_other run self file_path file_type module result
              Hkey Hcheck Hstrings) as [-> ->].
  fold messages in Herror. fold messages.
  destruct (existsb _ messages).
  - rewrite bool_decide_eq_false_2; [now split|].
    intros H. apply Herror in H. discriminate.
  - rewrite bool_decide_eq_true_2 by now apply Herror. now split.
Qed.

Lemma jhove_xml_report_verdict_witness :
  let out := Jhove.validate_file_format FixtureMore.run_xml_only
               FixtureMore.json_loads FixtureMore.xml_parse
               FixtureMore.container_str FixtureMore.log_other
               FixtureMore.jhove_plugin "data/sample.png" "image/png" in
  fst out = Jhove.Returns 1%Z /\
  Logging.contains Logging.ERROR (snd out) = true.
Proof.
  refine (jhove_xml_report_verdict FixtureMore.run_xml_only
            FixtureMore.json_loads FixtureMore.xml_parse
            FixtureMore.container_str FixtureMore.log_other
            FixtureMore.jhove_plugin "data/sample.png" "image/png"
            "PNG-gdm" "response_bad_xml" _ _ _ _ _
            eq_refl eq_refl eq_refl eq_refl eq_refl eq_refl eq_refl eq_refl
            _).
  repeat constructor. eexists. split; [reflexivity|].
  intros _. eexists. reflexivity.
Defined.
